(** * BaoAgent speech service: dispatcher, warmup flags, invocation layer
      and audio transport codec

    A model of [baoagent_service.py] and of the codec calls of
    [baoagent_client.py].  The service is written against the Python
    runtime ([json], [base64], [subprocess], [tempfile], [soundfile]); the
    parts of that runtime the service observes are modelled here as well:
    [str] methods and [base64] as functions, the external tools and the
    audio library as an environment that answers each call. *)

From Stdlib Require Import List String Ascii Bool Arith NArith ZArith Lia.
From Stdlib Require Import Strings.Byte Floats.PrimFloat DecimalString.
Import ListNotations.
Local Open Scope list_scope.
Local Open Scope string_scope.

(* ===================================================================== *)
(** * Python [str] operations used by the service *)
(* ===================================================================== *)

(** A [str] is modelled as a string of code points below 256; a [str] that
    also holds surrogates, which cannot be encoded, is a [pystr] further
    down. *)
Module Str.

Definition code (c : ascii) : N := N_of_ascii c.

(** [str.isspace] on one code point below 256. *)
Definition isspace (c : ascii) : bool :=
  let n := code c in
  ((9 <=? n) && (n <=? 13) || (28 <=? n) && (n <=? 32)
   || (n =? 133) || (n =? 160))%N.

Fixpoint lstrip (s : string) : string :=
  match s with
  | EmptyString => EmptyString
  | String c r => if isspace c then lstrip r else s
  end.

Fixpoint rstrip (s : string) : string :=
  match s with
  | EmptyString => EmptyString
  | String c r =>
      match rstrip r with
      | EmptyString => if isspace c then EmptyString else String c EmptyString
      | r' => String c r'
      end
  end.

(** [s.strip()] *)
Definition strip (s : string) : string := rstrip (lstrip s).

(** [s.lower()] on code points below 256. *)
Definition lower_char (c : ascii) : ascii :=
  let n := code c in
  if ((65 <=? n) && (n <=? 90)
      || (192 <=? n) && (n <=? 222) && negb (n =? 215))%N
  then ascii_of_N (n + 32) else c.

Fixpoint lower (s : string) : string :=
  match s with
  | EmptyString => EmptyString
  | String c r => String (lower_char c) (lower r)
  end.

(** [s.startswith(p)] *)
Definition startswith (p s : string) : bool := String.prefix p s.

(** [p in s] *)
Fixpoint contains (p s : string) : bool :=
  String.prefix p s
  || match s with
     | EmptyString => false
     | String _ r => contains p r
     end.

(** [s.split(sep)] for a one-character separator: never the empty list. *)
Fixpoint split (sep : ascii) (s : string) : list string :=
  match s with
  | EmptyString => [EmptyString]
  | String c r =>
      if Ascii.eqb c sep then EmptyString :: split sep r
      else match split sep r with
           | [] => [String c EmptyString]
           | w :: ws => String c w :: ws
           end
  end.

(** [sep.join(l)] *)
Definition join (sep : string) (l : list string) : string :=
  String.concat sep l.

(** [s[:n]] *)
Definition take (n : nat) (s : string) : string := String.substring 0 n s.

(** truthiness of a [str] *)
Definition nonempty (s : string) : bool :=
  match s with EmptyString => false | _ => true end.

Definition of_N (n : N) : string :=
  DecimalString.NilZero.string_of_uint (N.to_uint n).

Definition of_Z (z : Z) : string :=
  DecimalString.NilZero.string_of_int (Z.to_int z).

Definition nl : ascii := ascii_of_nat 10.

End Str.

(* ===================================================================== *)
(** * Exceptions *)
(* ===================================================================== *)

(** The exception classes the service tells apart in its [except] clauses;
    everything else is some other subclass of [Exception]. *)
Inductive exn_class : Type :=
| TimeoutExpired
| CalledProcessError
| OtherException.

(** An exception value: its class, [str(e)], and for the [subprocess]
    classes the captured [e.stdout] and [e.stderr]. *)
Record exn : Type := mkExn {
  exn_cls : exn_class;
  exn_msg : string;
  exn_stdout : string;
  exn_stderr : string
}.

Definition Error (msg : string) : exn := mkExn OtherException msg "" "".

(* ===================================================================== *)
(** * The [base64] codec *)
(* ===================================================================== *)

Module Base64.

Definition alphabet : list ascii :=
  list_ascii_of_string
    "ABCDEFGHIJKLMNOPQRSTUVWXYZabcdefghijklmnopqrstuvwxyz0123456789+/".

Definition pad : ascii := "="%char.

(** [table_b2a_base64[i]] *)
Definition table_b2a (i : N) : ascii := nth (N.to_nat i) alphabet pad.

Fixpoint index_of (c : ascii) (l : list ascii) (i : N) : option N :=
  match l with
  | [] => None
  | x :: r => if Ascii.eqb c x then Some i else index_of c r (N.succ i)
  end.

(** [table_a2b_base64[c]], [None] for a character outside the alphabet *)
Definition table_a2b (c : ascii) : option N := index_of c alphabet 0.

Definition byte_of (n : N) : byte :=
  match Byte.of_N (n mod 256) with Some b => b | None => x00 end.

(** The four characters that encode a full group of three bytes. *)
Definition enc3 (a b c : byte) : list ascii :=
  let x := Byte.to_N a in
  let y := Byte.to_N b in
  let z := Byte.to_N c in
  [ table_b2a (N.shiftr x 2);
    table_b2a (N.lor (N.shiftl (N.land x 3) 4) (N.shiftr y 4));
    table_b2a (N.lor (N.shiftl (N.land y 15) 2) (N.shiftr z 6));
    table_b2a (N.land z 63) ].

(** A trailing group of two bytes: three characters and one pad. *)
Definition enc2 (a b : byte) : list ascii :=
  let x := Byte.to_N a in
  let y := Byte.to_N b in
  [ table_b2a (N.shiftr x 2);
    table_b2a (N.lor (N.shiftl (N.land x 3) 4) (N.shiftr y 4));
    table_b2a (N.shiftl (N.land y 15) 2);
    pad ].

(** A trailing single byte: two characters and two pads. *)
Definition enc1 (a : byte) : list ascii :=
  let x := Byte.to_N a in
  [ table_b2a (N.shiftr x 2);
    table_b2a (N.shiftl (N.land x 3) 4);
    pad; pad ].

Fixpoint b2a (bs : list byte) : list ascii :=
  match bs with
  | [] => []
  | [a] => enc1 a
  | [a; b] => enc2 a b
  | a :: b :: c :: rest => (enc3 a b c ++ b2a rest)%list
  end.

(** [base64.b64encode(bs).decode('utf-8')] *)
Definition b64encode (bs : list byte) : string :=
  string_of_list_ascii (b2a bs).

(** The decoder's loop state: position in the current quad, the bits left
    over from the previous character, the pads seen in a row, and the
    bytes produced so far (most recent first). *)
Record dstate : Type := mkD {
  quad_pos : nat;
  leftchar : N;
  pads : nat;
  bin_data : list byte
}.

Definition incorrect_padding : exn := Error "Incorrect padding".

Definition invalid_length (produced : nat) : exn :=
  Error ("Invalid base64-encoded string: number of data characters ("
         ++ Str.of_N (N.of_nat (produced / 3 * 4 + 1))
         ++ ") cannot be 1 more than a multiple of 4").

Definition finish (d : dstate) : exn + list byte := inr (rev (bin_data d)).

Definition at_end (d : dstate) : exn + list byte :=
  match quad_pos d with
  | 0 => finish d
  | 1 => inl (invalid_length (List.length (bin_data d)))
  | _ => inl incorrect_padding
  end.

Definition feed (d : dstate) (v : N) : dstate :=
  match quad_pos d with
  | 0 => mkD 1 v 0 (bin_data d)
  | 1 => mkD 2 (N.land v 15) 0
           (byte_of (N.lor (N.shiftl (leftchar d) 2) (N.shiftr v 4))
            :: bin_data d)
  | 2 => mkD 3 (N.land v 3) 0
           (byte_of (N.lor (N.shiftl (leftchar d) 4) (N.shiftr v 2))
            :: bin_data d)
  | _ => mkD 0 0 0
           (byte_of (N.lor (N.shiftl (leftchar d) 6) v) :: bin_data d)
  end.

(** [binascii.a2b_base64] without strict mode: characters outside the
    alphabet are skipped, a pad that completes a quad ends the input,
    any other pad is skipped. *)
Fixpoint a2b_loop (s : list ascii) (d : dstate) : exn + list byte :=
  match s with
  | [] => at_end d
  | ch :: r =>
      if Ascii.eqb ch pad then
        if (2 <=? quad_pos d)%nat then
          if (4 <=? quad_pos d + S (pads d))%nat then finish d
          else a2b_loop r (mkD (quad_pos d) (leftchar d) (S (pads d))
                               (bin_data d))
        else a2b_loop r d
      else
        match table_a2b ch with
        | None => a2b_loop r d
        | Some v => a2b_loop r (feed d v)
        end
  end.

Definition a2b_base64 (s : list ascii) : exn + list byte :=
  a2b_loop s (mkD 0 0 0 []).

Definition isascii (c : ascii) : bool := (Str.code c <? 128)%N.

(** [base64.b64decode(s)] for a [str] argument. *)
Definition b64decode (s : string) : exn + list byte :=
  let l := list_ascii_of_string s in
  if forallb isascii l then a2b_base64 l
  else inl (Error "string argument should contain only ASCII characters").

End Base64.

(* ===================================================================== *)
(** * PCM16 packing ([ndarray.tobytes], [np.frombuffer(..., dtype=int16)]) *)
(* ===================================================================== *)

Module Pcm16.

(** An [int16] array is a list of integers; each is stored as two bytes,
    low byte first, the 16-bit wrap-around written out. *)
Definition pack (z : Z) : list byte :=
  let u := Z.to_N (z mod 65536) in
  [Base64.byte_of (N.land u 255); Base64.byte_of (N.shiftr u 8)].

Definition tobytes (samples : list Z) : list byte := flat_map pack samples.

Definition unpack (lo hi : byte) : Z :=
  let u := Z.of_N (N.lor (Byte.to_N lo) (N.shiftl (Byte.to_N hi) 8)) in
  if (32768 <=? u)%Z then (u - 65536)%Z else u.

Fixpoint frombuffer (bs : list byte) : exn + list Z :=
  match bs with
  | [] => inr []
  | [_] => inl (Error "buffer size must be a multiple of element size")
  | lo :: hi :: r =>
      match frombuffer r with
      | inr l => inr (unpack lo hi :: l)
      | inl e => inl e
      end
  end.

Definition int16 (z : Z) : Prop := (-32768 <= z < 32768)%Z.

End Pcm16.

(* ===================================================================== *)
(** * Python values decoded from JSON *)
(* ===================================================================== *)

#[local] Set Warnings "-register-all".

(** A character of a [str] that UTF-8 cannot encode as a whole: a code
    point below 256, or the surrogate U+D800 + [n] ([n] is taken modulo
    2048).  [json.loads] gives a [str] with a surrogate from an escape such
    as [\ud800]. *)
Inductive pychar : Type :=
| Ch (a : ascii)
| Sur (n : N).

(** A Python [str]: code points below 256 only, or such a string up to the
    first surrogate, that surrogate, and what follows it. *)
Inductive pystr : Type :=
| Plain (s : string)
| Lone (before : string) (sur : N) (after : list pychar).

(** [PStr] is a [str] without a surrogate, [PSurr] a [str] with one. *)
Inductive pyval : Type :=
| PNone
| PBool (b : bool)
| PInt (z : Z)
| PFloat (f : float)
| PStr (s : string)
| PSurr (before : string) (sur : N) (after : list pychar)
| PList (l : list pyval)
| PDict (kv : list (string * pyval)).

Module Py.

(** [bool(v)] *)
Definition truthy (v : pyval) : bool :=
  match v with
  | PNone => false
  | PBool b => b
  | PInt z => negb (z =? 0)%Z
  | PFloat f => negb (PrimFloat.eqb f PrimFloat.zero)
  | PStr s => Str.nonempty s
  | PSurr _ _ _ => true
  | PList l => match l with [] => false | _ => true end
  | PDict kv => match kv with [] => false | _ => true end
  end.

(** [type(v).__name__] *)
Definition type_name (v : pyval) : string :=
  match v with
  | PNone => "NoneType"
  | PBool _ => "bool"
  | PInt _ => "int"
  | PFloat _ => "float"
  | PStr _ => "str"
  | PSurr _ _ _ => "str"
  | PList _ => "list"
  | PDict _ => "dict"
  end.

Fixpoint lookup (k : string) (kv : list (string * pyval)) : option pyval :=
  match kv with
  | [] => None
  | (k', v) :: r => if String.eqb k k' then Some v else lookup k r
  end.

(** [v.get(k, default)]: only a [dict] has the method. *)
Definition get (v : pyval) (k : string) (default : pyval) : exn + pyval :=
  match v with
  | PDict kv =>
      inr (match lookup k kv with Some x => x | None => default end)
  | _ => inl (Error ("'" ++ type_name v
                         ++ "' object has no attribute 'get'"))
  end.

(** [v == s] for a [str] literal [s], which holds no surrogate *)
Definition eq_str (v : pyval) (s : string) : bool :=
  match v with PStr t => String.eqb t s | _ => false end.

(** The value that is the [str] [t]. *)
Definition of_str (t : pystr) : pyval :=
  match t with
  | Plain s => PStr s
  | Lone before sur after => PSurr before sur after
  end.

(** [prefix + t] for a literal [prefix] *)
Definition cat (prefix : string) (t : pystr) : pystr :=
  match t with
  | Plain s => Plain (prefix ++ s)
  | Lone before sur after => Lone (prefix ++ before) sur after
  end.

(** [t + suffix] for a literal [suffix] *)
Definition cat_r (t : pystr) (suffix : string) : pystr :=
  match t with
  | Plain s => Plain (s ++ suffix)
  | Lone before sur after =>
      Lone before sur (after ++ map Ch (list_ascii_of_string suffix))
  end.

(** The number of surrogates a list of characters starts with. *)
Fixpoint leading_surrogates (l : list pychar) : nat :=
  match l with
  | Sur _ :: r => S (leading_surrogates r)
  | _ => 0
  end.

Definition hex_digit (n : N) : ascii :=
  ascii_of_N (if (n <? 10)%N then 48 + n else 87 + n).

(** The escape [\udxxx] of the surrogate U+D800 + [n]. *)
Definition surrogate_escape (n : N) : string :=
  let m := (n mod 2048)%N in
  String "\" (String "u" (String "d"
    (String (hex_digit (8 + m / 256))
       (String (hex_digit ((m / 16) mod 16))
          (String (hex_digit (m mod 16)) EmptyString))))).

(** The [UnicodeEncodeError] the UTF-8 encoder raises on the [str]
    [Lone before sur after]: it names the first run of surrogates. *)
Definition unicode_encode_error (before : string) (sur : N)
           (after : list pychar) : exn :=
  let start := String.length before in
  match leading_surrogates after with
  | O =>
      Error ("'utf-8' codec can't encode character '"
             ++ surrogate_escape sur ++ "' in position "
             ++ Str.of_N (N.of_nat start) ++ ": surrogates not allowed")
  | S k =>
      Error ("'utf-8' codec can't encode characters in position "
             ++ Str.of_N (N.of_nat start) ++ "-"
             ++ Str.of_N (N.of_nat (start + S k))
             ++ ": surrogates not allowed")
  end.

(** [repr] of a list of plain strings, as [str(cmd)] prints an argv. *)
Definition repr_argv (l : list string) : string :=
  "[" ++ Str.join ", " (map (fun s => "'" ++ s ++ "'") l) ++ "]".

End Py.

(* ===================================================================== *)
(** * The world the service runs in *)
(* ===================================================================== *)

(** What [subprocess.run] meets: the child ends with an exit status, the
    timeout expires, or the call raises something else (the program is
    missing, its output does not decode, ...). *)
Inductive run_outcome : Type :=
| Completed (returncode : Z) (out err : string)
| TimedOut (out err : string)
| RunFails (e : exn).

(** The environment answers every call the service makes to the outside;
    calls are numbered in the order they are made. *)
Record Env : Type := mkEnv {
  env_run : nat -> run_outcome;
  env_sf_write : nat -> option exn;
  env_sf_read : nat -> exn + list Z
}.

(** The parts of the Python runtime that stay abstract: the JSON decoder,
    [repr] of a value, and [repr] of a signal number. *)
Record Runtime : Type := mkRuntime {
  json_loads : string -> exn + pyval;
  py_repr : pyval -> string;
  signal_repr : Z -> string
}.

(** One call to an external tool. *)
Record invocation : Type := mkInv {
  inv_argv : list string;
  inv_timeout : Z;
  inv_check : bool
}.

(** What the service did to the outside, in order. *)
Inductive event : Type :=
| EvRun (i : invocation)
| EvWriteText (path text : string)
| EvSfWrite (path : string) (samples : list Z) (rate : pyval)
| EvSfRead (path : string).

(** One [print]: of a plain string, or of [json.dumps(v)]. *)
Inductive output : Type :=
| Text (s : string)
| Json (v : pyval).

Record State : Type := mkState {
  stt_warmed_up : bool;
  tts_warmed_up : bool;
  stt_model_repo : string;
  clock : nat;
  tmp_count : N;
  files : list string;
  trace : list event;
  stdout : list output
}.

Definition set_stt_warmed_up (b : bool) (s : State) : State :=
  mkState b (tts_warmed_up s) (stt_model_repo s) (clock s) (tmp_count s)
          (files s) (trace s) (stdout s).

Definition set_tts_warmed_up (b : bool) (s : State) : State :=
  mkState (stt_warmed_up s) b (stt_model_repo s) (clock s) (tmp_count s)
          (files s) (trace s) (stdout s).

Definition tick (s : State) : State :=
  mkState (stt_warmed_up s) (tts_warmed_up s) (stt_model_repo s)
          (S (clock s)) (tmp_count s) (files s) (trace s) (stdout s).

Definition set_files (n : N) (fs : list string) (s : State) : State :=
  mkState (stt_warmed_up s) (tts_warmed_up s) (stt_model_repo s) (clock s)
          n fs (trace s) (stdout s).

Definition log (e : event) (s : State) : State :=
  mkState (stt_warmed_up s) (tts_warmed_up s) (stt_model_repo s) (clock s)
          (tmp_count s) (files s) (trace s ++ [e])%list (stdout s).

Definition emit (o : output) (s : State) : State :=
  mkState (stt_warmed_up s) (tts_warmed_up s) (stt_model_repo s) (clock s)
          (tmp_count s) (files s) (trace s) (stdout s ++ [o])%list.

(** [BaoAgentService.__init__], in a world where nothing has happened yet. *)
Definition init : State :=
  mkState false false "kyutai/stt-2.6b-en-mlx" 0 0 [] [] [].

(* ===================================================================== *)
(** * A state monad with exceptions *)
(* ===================================================================== *)

(** A raised exception keeps the state reached so far. *)
Definition M (A : Type) : Type := State -> (exn + A) * State.

Definition ret {A} (a : A) : M A := fun s => (inr a, s).

Definition raise {A} (e : exn) : M A := fun s => (inl e, s).

Definition bind {A B} (c : M A) (k : A -> M B) : M B :=
  fun s =>
    match c s with
    | (inr a, s') => k a s'
    | (inl e, s') => (inl e, s')
    end.

(** [try: c  except ... as e: h e] *)
Definition try_except {A} (c : M A) (h : exn -> M A) : M A :=
  fun s =>
    match c s with
    | (inr a, s') => (inr a, s')
    | (inl e, s') => h e s'
    end.

(** [try: c  finally: f] *)
Definition try_finally {A} (c : M A) (f : M unit) : M A :=
  fun s =>
    match c s with
    | (r, s') =>
        match f s' with
        | (inr _, s'') => (r, s'')
        | (inl e, s'') => (inl e, s'')
        end
    end.

Definition lift {A} (r : exn + A) : M A := fun s => (r, s).

Declare Scope monad_scope.
Delimit Scope monad_scope with monad.
Notation "x <- c ;; k" := (bind c (fun x => k))
  (at level 61, c at next level, right associativity) : monad_scope.
Notation "c ;; k" := (bind c (fun _ => k))
  (at level 61, right associativity) : monad_scope.
Local Open Scope monad_scope.

Definition gets {A} (f : State -> A) : M A := fun s => (inr (f s), s).

Definition modify (f : State -> State) : M unit := fun s => (inr tt, f s).

(** [print(s)] *)
Definition print (s : string) : M unit := modify (emit (Text s)).

(** [print(json.dumps(v))] *)
Definition print_json (v : pyval) : M unit := modify (emit (Json v)).

(* ===================================================================== *)
(** * The transcript parser *)
(* ===================================================================== *)

(** The test of lines 125-134: a line that is clearly debug info. *)
Definition is_debug_info (line : string) : bool :=
  Str.startswith "Info:" line
  || Str.startswith "{" line
  || Str.startswith "}" line
  || Str.contains "card" line
  || Str.contains "dim" line
  || Str.contains "num_heads" line
  || Str.contains "model_id" line
  || Str.contains "tokenizer" line
  || Str.contains "steps" line
  || Str.contains "token per sec" line.

(** The [for line in reversed(stdout_lines)] loop, [transcription]
    starting as the empty string. *)
Fixpoint scan_lines (lines : list string) : string :=
  match lines with
  | [] => ""
  | l :: rest =>
      let line := Str.strip l in
      if is_debug_info line then scan_lines rest
      else if Str.nonempty line
              && negb (Str.startswith "Info:" line)
              && negb (Str.startswith "{" line)
      then line
      else scan_lines rest
  end.

(** Lines 117-141 of [transcribe_audio]. *)
Definition extract_transcription (out : string) : string :=
  let stdout_lines := Str.split Str.nl (Str.strip out) in
  scan_lines (rev stdout_lines).

(* ===================================================================== *)
(** * The service *)
(* ===================================================================== *)

Section Service.

Variable rt : Runtime.
Variable env : Env.

(** ** Calls to the outside *)

(** [tempfile.NamedTemporaryFile(suffix=..., delete=False)]: the file
    exists from here on; names are numbered instead of random. *)
Definition mktemp (suffix : string) : M string :=
  fun s =>
    let p := "/tmp/tmp" ++ Str.of_N (tmp_count s) ++ suffix in
    (inr p, set_files (N.succ (tmp_count s)) (files s ++ [p])%list s).

Definition on_disk (p : string) (s : State) : bool :=
  existsb (String.eqb p) (files s).

(** [os.path.exists(p)] *)
Definition path_exists (p : string) : M bool := gets (on_disk p).

(** [os.unlink(p)] *)
Definition unlink (p : string) : M unit :=
  fun s =>
    if on_disk p s then
      (inr tt,
       set_files (tmp_count s)
                 (filter (fun q => negb (String.eqb p q)) (files s)) s)
    else
      (inl (Error ("[Errno 2] No such file or directory: '" ++ p ++ "'")),
       s).

(** [sf.write(p, samples, rate)] *)
Definition sf_write (p : string) (samples : list Z) (rate : pyval)
  : M unit :=
  fun s =>
    match env_sf_write env (clock s) with
    | None => (inr tt, log (EvSfWrite p samples rate) (tick s))
    | Some e => (inl e, tick s)
    end.

(** [sf.read(p, dtype='int16')], the samples only. *)
Definition sf_read (p : string) : M (list Z) :=
  fun s => (env_sf_read env (clock s), log (EvSfRead p) (tick s)).

(** [tf.write(text); tf.flush()] on a file opened in text mode, whose
    encoding is UTF-8: a [str] with a surrogate cannot be encoded. *)
Definition tf_write (p : string) (text : pyval) : M unit :=
  match text with
  | PStr t => modify (log (EvWriteText p t))
  | PSurr before sur after =>
      raise (Py.unicode_encode_error before sur after)
  | _ => raise (Error ("write() argument must be str, not "
                       ++ Py.type_name text))
  end.

Definition called_process_error (argv : list string) (code : Z)
           (out err : string) : exn :=
  mkExn CalledProcessError
        (if (code <? 0)%Z
         then "Command '" ++ Py.repr_argv argv ++ "' died with "
              ++ signal_repr rt (- code) ++ "."
         else "Command '" ++ Py.repr_argv argv
              ++ "' returned non-zero exit status " ++ Str.of_Z code ++ ".")
        out err.

Definition timeout_expired (argv : list string) (timeout : Z)
           (out err : string) : exn :=
  mkExn TimeoutExpired
        ("Command '" ++ Py.repr_argv argv ++ "' timed out after "
         ++ Str.of_Z timeout ++ " seconds")
        out err.

(** [subprocess.run(argv, capture_output=True, text=True, timeout=...,
    check=...)]: the result is (returncode, stdout, stderr). *)
Definition run (argv : list string) (timeout : Z) (check : bool)
  : M (Z * string * string) :=
  fun s =>
    let s' := log (EvRun (mkInv argv timeout check)) (tick s) in
    match env_run env (clock s) with
    | Completed code out err =>
        if check && negb (code =? 0)%Z
        then (inl (called_process_error argv code out err), s')
        else (inr (code, out, err), s')
    | TimedOut out err => (inl (timeout_expired argv timeout out err), s')
    | RunFails e => (inl e, s')
    end.

Definition stt_argv (repo path : string) : list string :=
  ["python"; "-m"; "moshi_mlx.run_inference"; "--hf-repo"; repo;
   path; "--temp"; "0"].

Definition tts_argv (text_path output_path : string) : list string :=
  ["python3"; "delayed-streams-modeling/scripts/tts_mlx.py";
   text_path; output_path; "--quantize"; "8"].

(** [np.zeros(16000, dtype=np.int16)] *)
Definition silence : list Z := repeat 0%Z (N.to_nat 16000).

(** ** Warmup *)

Definition warmup_stt : M bool :=
  warmed <- gets stt_warmed_up ;;
  if negb warmed then
    print "Warming up STT model..." ;;
    try_except
      (dummy_audio_path <- mktemp ".wav" ;;
       sf_write dummy_audio_path silence (PInt 16000) ;;
       repo <- gets stt_model_repo ;;
       _ <- run (stt_argv repo dummy_audio_path) 120 false ;;
       unlink dummy_audio_path ;;
       modify (set_stt_warmed_up true) ;;
       print "STT model warmed up successfully!" ;;
       ret true)
      (fun e =>
         print ("STT warmup failed: " ++ exn_msg e) ;;
         ret false)
  else ret true.

Definition warmup_tts : M bool :=
  warmed <- gets tts_warmed_up ;;
  if negb warmed then
    print "Warming up TTS model..." ;;
    print "Using TTS script: delayed-streams-modeling/scripts/tts_mlx.py" ;;
    try_except
      (text_path <- mktemp ".txt" ;;
       tf_write text_path (PStr "Hello") ;;
       output_path <- mktemp ".wav" ;;
       let cmd := tts_argv text_path output_path in
       print ("Executing TTS command: " ++ Str.join " " cmd) ;;
       result <- run cmd 120 true ;;
       print "TTS warmup command completed successfully" ;;
       print ("TTS stdout: " ++ snd (fst result)) ;;
       unlink text_path ;;
       unlink output_path ;;
       modify (set_tts_warmed_up true) ;;
       print "TTS model warmed up successfully!" ;;
       ret true)
      (fun e =>
         match exn_cls e with
         | CalledProcessError =>
             print ("TTS warmup failed: " ++ exn_msg e) ;;
             print ("TTS stderr: " ++ exn_stderr e) ;;
             print ("TTS stdout: " ++ exn_stdout e) ;;
             print "Continuing without TTS functionality..." ;;
             ret false
         | _ =>
             print ("TTS warmup failed: " ++ exn_msg e) ;;
             print "Continuing without TTS functionality..." ;;
             ret false
         end)
  else ret true.

(** ** Inference *)

(** [transcribe_audio] past the warmup check, lines 101-149. *)
Definition run_stt (audio_data : list Z) (sample_rate : pyval)
  : M (option string) :=
  audio_path <- mktemp ".wav" ;;
  sf_write audio_path audio_data sample_rate ;;
  try_finally
    (try_except
       (repo <- gets stt_model_repo ;;
        result <- run (stt_argv repo audio_path) 60 true ;;
        ret (Some (extract_transcription (snd (fst result)))))
       (fun e =>
          match exn_cls e with
          | TimeoutExpired =>
              print "STT inference timed out" ;; ret None
          | _ =>
              print ("STT inference failed: " ++ exn_msg e) ;; ret None
          end))
    (unlink audio_path).

Definition transcribe_audio (audio_data : list Z) (sample_rate : pyval)
  : M (option string) :=
  warmed <- gets stt_warmed_up ;;
  ready <- (if negb warmed then warmup_stt else ret true) ;;
  if negb ready then ret None
  else run_stt audio_data sample_rate.

(** [str(v)], as an f-string formats a value. *)
Definition py_str (v : pyval) : pystr :=
  match v with
  | PNone => Plain "None"
  | PBool true => Plain "True"
  | PBool false => Plain "False"
  | PInt z => Plain (Str.of_Z z)
  | PStr s => Plain s
  | PSurr before sur after => Lone before sur after
  | _ => Plain (py_repr rt v)
  end.

(** [print(t)] for a [str] built from a value: standard output is encoded
    as UTF-8, and a [str] with a surrogate raises before anything is
    written. *)
Definition print_str (t : pystr) : M unit :=
  match t with
  | Plain s => print s
  | Lone before sur after =>
      raise (Py.unicode_encode_error before sur after)
  end.

(** [f"{text[:50]}{'...' if len(text) > 50 else ''}"] *)
Definition preview (text : pyval) : exn + pystr :=
  match text with
  | PStr s =>
      inr (Plain (Str.take 50 s
                  ++ (if (50 <? String.length s)%nat then "..." else "")))
  | PSurr before sur after =>
      let dots := if (50 <? String.length before + 1 + List.length after)%nat
                  then "..." else "" in
      if (50 <=? String.length before)%nat
      then inr (Plain (Str.take 50 before ++ dots))
      else inr (Py.cat_r
                  (Lone before sur
                        (firstn (49 - String.length before) after))
                  dots)
  | PList l =>
      inr (Py.cat_r (py_str (PList (firstn 50 l)))
                    (if (50 <? List.length l)%nat then "..." else ""))
  | PDict _ => inl (Error "unhashable type: 'slice'")
  | _ => inl (Error ("'" ++ Py.type_name text
                         ++ "' object is not subscriptable"))
  end.

(** [text_to_speech] past the warmup check, lines 157-199. *)
Definition run_tts (text : pyval) : M (option (list Z)) :=
  shown <- lift (preview text) ;;
  print_str (Py.cat "Generating TTS for text: '" (Py.cat_r shown "'")) ;;
  text_path <- mktemp ".txt" ;;
  tf_write text_path text ;;
  output_path <- mktemp ".wav" ;;
  try_finally
    (try_except
       (let cmd := tts_argv text_path output_path in
        print ("Executing TTS inference command: " ++ Str.join " " cmd) ;;
        result <- run cmd 60 true ;;
        print "TTS inference command completed successfully" ;;
        print ("TTS inference stdout: " ++ snd (fst result)) ;;
        audio_data <- sf_read output_path ;;
        print ("Generated audio with "
               ++ Str.of_N (N.of_nat (List.length audio_data))
               ++ " samples") ;;
        ret (Some audio_data))
       (fun e =>
          match exn_cls e with
          | CalledProcessError =>
              print ("TTS inference failed: " ++ exn_msg e) ;;
              print ("TTS inference stderr: " ++ exn_stderr e) ;;
              print ("TTS inference stdout: " ++ exn_stdout e) ;;
              ret None
          | TimeoutExpired =>
              print "TTS inference timed out" ;; ret None
          | OtherException =>
              print ("TTS inference failed: " ++ exn_msg e) ;; ret None
          end))
    (unlink text_path ;; unlink output_path).

Definition text_to_speech (text : pyval) : M (option (list Z)) :=
  warmed <- gets tts_warmed_up ;;
  ready <- (if negb warmed then warmup_tts else ret true) ;;
  if negb ready then ret None
  else run_tts text.

(** ** The dispatcher *)

(** [base64.b64decode(v)] for a decoded JSON value. *)
Definition b64decode_val (v : pyval) : exn + list byte :=
  match v with
  | PStr s => Base64.b64decode s
  | PSurr _ _ _ =>
      inl (Error "string argument should contain only ASCII characters")
  | _ => inl (Error ("argument should be a bytes-like object or ASCII "
                     ++ "string, not '" ++ Py.type_name v ++ "'"))
  end.

Definition transcription_result (transcription : option string) : pyval :=
  PDict [("type", PStr "transcription_result");
         ("text", match transcription with
                  | Some t => PStr t
                  | None => PNone
                  end);
         ("success", PBool (match transcription with
                            | Some _ => true
                            | None => false
                            end))].

Definition tts_success (audio_b64 : string) : pyval :=
  PDict [("type", PStr "tts_result");
         ("audio_data", PStr audio_b64);
         ("sample_rate", PInt 24000);
         ("success", PBool true)].

Definition tts_failure : pyval :=
  PDict [("type", PStr "tts_result");
         ("success", PBool false);
         ("error", PStr "TTS generation failed")].

Definition status_result (stt tts : bool) : pyval :=
  PDict [("type", PStr "status");
         ("stt_warmed_up", PBool stt);
         ("tts_warmed_up", PBool tts)].

Definition error_result (msg : string) : pyval :=
  PDict [("type", PStr "error"); ("error", PStr msg)].

(** The same reply for a message built from a value of the command. *)
Definition error_reply (msg : pystr) : pyval :=
  PDict [("type", PStr "error"); ("error", Py.of_str msg)].

(** The [transcribe] branch, lines 207-221.  When [audio_b64] is falsy
    the branch ends without a [return]: the function returns [None]. *)
Definition handle_transcribe (command : pyval) : M (option pyval) :=
  audio_b64 <- lift (Py.get command "audio_data" PNone) ;;
  sample_rate <- lift (Py.get command "sample_rate" (PInt 16000)) ;;
  if Py.truthy audio_b64 then
    audio_bytes <- lift (b64decode_val audio_b64) ;;
    audio_data <- lift (Pcm16.frombuffer audio_bytes) ;;
    transcription <- transcribe_audio audio_data sample_rate ;;
    ret (Some (transcription_result transcription))
  else ret None.

(** Lines 227-242: the reply built from what [text_to_speech] returned. *)
Definition tts_reply (audio_data : option (list Z)) : pyval :=
  match audio_data with
  | Some samples =>
      let audio_bytes := Pcm16.tobytes samples in
      let audio_b64 := Base64.b64encode audio_bytes in
      tts_success audio_b64
  | None => tts_failure
  end.

(** The [tts] branch, lines 223-242. *)
Definition handle_tts (command : pyval) : M (option pyval) :=
  text <- lift (Py.get command "text" (PStr "")) ;;
  audio_data <- text_to_speech text ;;
  ret (Some (tts_reply audio_data)).

(** [process_command]: [Some v] is the string [json.dumps(v)], [None] is
    Python's [None]. *)
Definition process_command (command_data : string) : M (option pyval) :=
  try_except
    (command <- lift (json_loads rt command_data) ;;
     cmd_type <- lift (Py.get command "type" PNone) ;;
     if Py.eq_str cmd_type "transcribe" then handle_transcribe command
     else if Py.eq_str cmd_type "tts" then handle_tts command
     else if Py.eq_str cmd_type "status" then
       stt <- gets stt_warmed_up ;;
       tts <- gets tts_warmed_up ;;
       ret (Some (status_result stt tts))
     else
       ret (Some (error_reply
                    (Py.cat "Unknown command type: " (py_str cmd_type)))))
    (fun e => ret (Some (error_result (exn_msg e)))).

(** ** Startup and the read loop *)

Definition debug_tts_models : M unit :=
  print (String Str.nl "=== TTS Script Debug ===") ;;
  try_except
    (text_path <- mktemp ".txt" ;;
     tf_write text_path (PStr "Hello") ;;
     output_path <- mktemp ".wav" ;;
     let cmd := tts_argv text_path output_path in
     print ("Testing command: " ++ Str.join " " cmd) ;;
     result <- run cmd 30 false ;;
     (if (fst (fst result) =? 0)%Z then
        print "✓ TTS script - SUCCESS" ;;
        there <- path_exists output_path ;;
        if there then print ("  Generated audio file: " ++ output_path)
        else ret tt
      else
        print "✗ TTS script - FAILED" ;;
        print ("  Return code: " ++ Str.of_Z (fst (fst result))) ;;
        print ("  Stderr: " ++ Str.take 200 (snd result) ++ "...")) ;;
     unlink text_path ;;
     there <- path_exists output_path ;;
     if there then unlink output_path else ret tt)
    (fun e => print ("✗ TTS script - ERROR: " ++ exn_msg e)) ;;
  print (String Str.nl "=== TTS Debug Complete ===").

(** [main], lines 309-316: the banner and the debug run. *)
Definition preamble : M unit :=
  print "BaoAgent Service starting..." ;;
  print "Commands: transcribe, tts, status, quit" ;;
  debug_tts_models ;;
  print "Warming up models...".

(** [main] up to the loop, lines 305-319. *)
Definition startup : M unit :=
  preamble ;;
  warmup_stt ;;
  warmup_tts ;;
  print "Service ready!".

(** [command_line.lower() == 'quit'] *)
Definition is_quit (command_line : string) : bool :=
  String.eqb (Str.lower command_line) "quit".

(** [print(result)] *)
Definition print_result (result : option pyval) : M unit :=
  match result with
  | Some v => print_json v
  | None => print "None"
  end.

(** One turn of the [while True] body on a line that is not [quit]. *)
Definition serve (command_line : string) : M unit :=
  try_except
    (result <- process_command command_line ;;
     print_result result)
    (fun e => print_json (error_result ("Service error: " ++ exn_msg e))).

(** The loop, lines 321-344, on the lines standard input will deliver;
    when they run out [input()] raises [EOFError]. *)
Fixpoint main_loop (stdin : list string) : M unit :=
  match stdin with
  | [] => print "EOF received, shutting down..."
  | raw :: rest =>
      let command_line := Str.strip raw in
      if is_quit command_line then print "Shutting down service..."
      else serve command_line ;; main_loop rest
  end.

Definition main (stdin : list string) : M unit :=
  startup ;; main_loop stdin.

End Service.

(* ===================================================================== *)
(** * A reference runtime for running the model *)
(* ===================================================================== *)

(** The theorems below hold for every [Runtime] and every [Env].  To run
    the model on concrete lines this module supplies one runtime: a decoder
    for the part of JSON the protocol uses (objects, arrays, integers,
    [true], [false], [null], and strings whose only escapes are [\uXXXX]
    for a code point below 256 or a surrogate that is not half of a pair)
    and [repr] for the values it produces. *)
Module Reference.

Definition dquote : ascii := "034"%char.
Definition squote : ascii := "'"%char.

(** Writes a JSON text with apostrophes in place of double quotes. *)
Fixpoint q (s : string) : string :=
  match s with
  | EmptyString => EmptyString
  | String c r => String (if Ascii.eqb c squote then dquote else c) (q r)
  end.

Definition is_ws (c : ascii) : bool :=
  let n := Str.code c in ((n =? 32) || (n =? 9) || (n =? 10) || (n =? 13))%N.

Fixpoint skip_ws (s : list ascii) : list ascii :=
  match s with
  | c :: r => if is_ws c then skip_ws r else s
  | [] => []
  end.

Fixpoint string_body (s : list ascii) : option (string * list ascii) :=
  match s with
  | [] => None
  | c :: r =>
      if Ascii.eqb c dquote then Some (EmptyString, r)
      else if Ascii.eqb c "\"%char || (Str.code c <? 32)%N then None
      else match string_body r with
           | Some (t, r') => Some (String c t, r')
           | None => None
           end
  end.

Definition hex_value (c : ascii) : option N :=
  let n := Str.code c in
  if ((48 <=? n) && (n <=? 57))%N then Some (n - 48)%N
  else if ((97 <=? n) && (n <=? 102))%N then Some (n - 87)%N
  else if ((65 <=? n) && (n <=? 70))%N then Some (n - 55)%N
  else None.

(** The character a [\uXXXX] escape stands for, given its four digits. *)
Definition escape_u (a b c d : ascii) : option pychar :=
  match hex_value a, hex_value b, hex_value c, hex_value d with
  | Some x, Some y, Some z, Some w =>
      let n := (((x * 16 + y) * 16 + z) * 16 + w)%N in
      if (n <? 256)%N then Some (Ch (ascii_of_N n))
      else if ((55296 <=? n) && (n <? 57344))%N then Some (Sur (n - 55296))
      else None
  | _, _, _, _ => None
  end.

(** The characters of a string value, up to its closing quote. *)
Fixpoint chars_body (s : list ascii) : option (list pychar * list ascii) :=
  match s with
  | [] => None
  | c :: r =>
      if Ascii.eqb c dquote then Some ([], r)
      else if Ascii.eqb c "\"%char then
        match r with
        | u :: a :: b :: c' :: d :: r' =>
            if Ascii.eqb u "u"%char then
              match escape_u a b c' d, chars_body r' with
              | Some x, Some (t, r'') => Some (x :: t, r'')
              | _, _ => None
              end
            else None
        | _ => None
        end
      else if (Str.code c <? 32)%N then None
      else match chars_body r with
           | Some (t, r') => Some (Ch c :: t, r')
           | None => None
           end
  end.

(** A high surrogate right before a low one: [json.loads] joins the two
    into one code point above U+FFFF, which the model's strings leave
    out. *)
Fixpoint has_pair (l : list pychar) : bool :=
  match l with
  | Sur n :: r =>
      match r with
      | Sur m :: _ =>
          ((n mod 2048 <? 1024)%N && (1024 <=? m mod 2048)%N) || has_pair r
      | _ => has_pair r
      end
  | _ :: r => has_pair r
  | [] => false
  end.

Fixpoint of_chars (l : list pychar) : pystr :=
  match l with
  | [] => Plain EmptyString
  | Ch a :: r =>
      match of_chars r with
      | Plain s => Plain (String a s)
      | Lone before sur after => Lone (String a before) sur after
      end
  | Sur n :: r => Lone EmptyString n r
  end.

Definition digit (c : ascii) : option Z :=
  let n := Str.code c in
  if ((48 <=? n) && (n <=? 57))%N then Some (Z.of_N (n - 48)) else None.

Fixpoint digits (s : list ascii) (acc : Z) : Z * list ascii :=
  match s with
  | c :: r =>
      match digit c with
      | Some d => digits r (10 * acc + d)
      | None => (acc, s)
      end
  | [] => (acc, [])
  end.

Definition starts_float (s : list ascii) : bool :=
  match s with
  | c :: _ => Ascii.eqb c "."%char || Ascii.eqb c "e"%char
              || Ascii.eqb c "E"%char
  | [] => false
  end.

Definition natural (s : list ascii) : option (Z * list ascii) :=
  match s with
  | c :: r =>
      match digit c with
      | Some 0%Z =>
          match r with
          | c' :: _ => match digit c' with
                       | Some _ => None
                       | None => if starts_float r then None
                                 else Some (0%Z, r)
                       end
          | [] => Some (0%Z, [])
          end
      | Some d => let '(n, r') := digits r d in
                  if starts_float r' then None else Some (n, r')
      | None => None
      end
  | [] => None
  end.

Fixpoint drop_prefix (p s : list ascii) : option (list ascii) :=
  match p, s with
  | [], _ => Some s
  | a :: p', b :: s' => if Ascii.eqb a b then drop_prefix p' s' else None
  | _ :: _, [] => None
  end.

(** A later binding of a key replaces the earlier one, as in a [dict]. *)
Fixpoint dict_set (k : string) (v : pyval) (kv : list (string * pyval))
  : list (string * pyval) :=
  match kv with
  | [] => [(k, v)]
  | (k', v') :: r =>
      if String.eqb k k' then (k, v) :: r else (k', v') :: dict_set k v r
  end.

Fixpoint value (fuel : nat) (s : list ascii) : option (pyval * list ascii) :=
  match fuel with
  | O => None
  | S f =>
      match skip_ws s with
      | [] => None
      | c :: r =>
          if Ascii.eqb c "{"%char then
            match skip_ws r with
            | c' :: r' =>
                if Ascii.eqb c' "}"%char then Some (PDict [], r')
                else members f (skip_ws r) []
            | [] => None
            end
          else if Ascii.eqb c "["%char then
            match skip_ws r with
            | c' :: r' =>
                if Ascii.eqb c' "]"%char then Some (PList [], r')
                else elements f (skip_ws r) []
            | [] => None
            end
          else if Ascii.eqb c dquote then
            match chars_body r with
            | Some (t, r') =>
                if has_pair t then None else Some (Py.of_str (of_chars t), r')
            | None => None
            end
          else if Ascii.eqb c "-"%char then
            match natural r with
            | Some (n, r') => Some (PInt (- n), r')
            | None => None
            end
          else
            match natural (c :: r) with
            | Some (n, r') => Some (PInt n, r')
            | None =>
                match drop_prefix (list_ascii_of_string "true") (c :: r) with
                | Some r' => Some (PBool true, r')
                | None =>
                match drop_prefix (list_ascii_of_string "false") (c :: r) with
                | Some r' => Some (PBool false, r')
                | None =>
                match drop_prefix (list_ascii_of_string "null") (c :: r) with
                | Some r' => Some (PNone, r')
                | None => None
                end end end
            end
      end
  end

with elements (fuel : nat) (s : list ascii) (acc : list pyval)
  : option (pyval * list ascii) :=
  match fuel with
  | O => None
  | S f =>
      match value f s with
      | Some (v, r) =>
          match skip_ws r with
          | c :: r' =>
              if Ascii.eqb c ","%char then elements f r' (acc ++ [v])%list
              else if Ascii.eqb c "]"%char
                   then Some (PList (acc ++ [v])%list, r')
                   else None
          | [] => None
          end
      | None => None
      end
  end

with members (fuel : nat) (s : list ascii) (acc : list (string * pyval))
  : option (pyval * list ascii) :=
  match fuel with
  | O => None
  | S f =>
      match skip_ws s with
      | c :: r =>
          if Ascii.eqb c dquote then
            match string_body r with
            | Some (k, r1) =>
                match skip_ws r1 with
                | c1 :: r2 =>
                    if Ascii.eqb c1 ":"%char then
                      match value f r2 with
                      | Some (v, r3) =>
                          match skip_ws r3 with
                          | c3 :: r4 =>
                              if Ascii.eqb c3 ","%char
                              then members f r4 (dict_set k v acc)
                              else if Ascii.eqb c3 "}"%char
                                   then Some (PDict (dict_set k v acc), r4)
                                   else None
                          | [] => None
                          end
                      | None => None
                      end
                    else None
                | [] => None
                end
            | None => None
            end
          else None
      | [] => None
      end
  end.

Definition decode_error : exn :=
  Error "Expecting value: line 1 column 1 (char 0)".

Definition loads (s : string) : exn + pyval :=
  let l := list_ascii_of_string s in
  match value (2 * List.length l + 2) l with
  | Some (v, r) =>
      match skip_ws r with
      | [] => inr v
      | _ => inl decode_error
      end
  | None => inl decode_error
  end.

(** The characters after the first surrogate, surrogates escaped. *)
Fixpoint escaped (l : list pychar) : string :=
  match l with
  | [] => EmptyString
  | Ch a :: r => String a (escaped r)
  | Sur n :: r => Py.surrogate_escape n ++ escaped r
  end.

Fixpoint repr (v : pyval) : string :=
  match v with
  | PNone => "None"
  | PBool true => "True"
  | PBool false => "False"
  | PInt z => Str.of_Z z
  | PFloat _ => "nan"
  | PStr s => "'" ++ s ++ "'"
  | PSurr before sur after =>
      "'" ++ before ++ Py.surrogate_escape sur ++ escaped after ++ "'"
  | PList l => "[" ++ Str.join ", " (map repr l) ++ "]"
  | PDict kv =>
      "{" ++ Str.join ", "
               (map (fun p => match p with
                              | (k, x) => "'" ++ k ++ "': " ++ repr x
                              end) kv)
          ++ "}"
  end.

Definition runtime : Runtime :=
  mkRuntime loads repr (fun n => "<Signals: " ++ Str.of_Z n ++ ">").

End Reference.


(* ===================================================================== *)
(** * Definitions used to state the properties *)
(* ===================================================================== *)

(** ** The transcript parser as the specification words it *)

Definition metadata_keywords : list string :=
  ["card"; "dim"; "num_heads"; "model_id"; "tokenizer"; "steps";
   "token per sec"].

(** A diagnostic line: an informational prefix, a JSON brace at the start,
    or a model-metadata keyword anywhere. *)
Definition diagnostic (line : string) : bool :=
  Str.startswith "Info:" line
  || (Str.startswith "{" line || Str.startswith "}" line)
  || existsb (fun k => Str.contains k line) metadata_keywords.

(** Scan the lines from the end backward, skip the diagnostic ones, and
    return the first remaining non-empty line, or the empty string. *)
Definition transcript_spec (out : string) : string :=
  let lines := map Str.strip (Str.split Str.nl (Str.strip out)) in
  match find (fun l => negb (diagnostic l) && Str.nonempty l) (rev lines) with
  | Some l => l
  | None => ""
  end.

(** ** Observations on a run *)

(** The tool invocations in a trace, in order. *)
Fixpoint invocations (tr : list event) : list invocation :=
  match tr with
  | [] => []
  | EvRun i :: r => i :: invocations r
  | _ :: r => invocations r
  end.

(** The JSON lines in what was printed, in order. *)
Fixpoint responses (out : list output) : list pyval :=
  match out with
  | [] => []
  | Json v :: r => v :: responses r
  | Text _ :: r => responses r
  end.

(** [v[k]] for a reply. *)
Definition field (k : string) (v : pyval) : option pyval :=
  match v with
  | PDict kv => Py.lookup k kv
  | _ => None
  end.

(** A reply that is a JSON object. *)
Definition is_json_object (o : output) : Prop :=
  exists kv, o = Json (PDict kv).

(** ** Classes of input lines *)

Definition recognized (cmd_type : pyval) : bool :=
  Py.eq_str cmd_type "transcribe"
  || Py.eq_str cmd_type "tts"
  || Py.eq_str cmd_type "status".

(** A line that does not decode, or decodes to an object whose [type] is
    missing or is none of the three commands. *)
Definition malformed (rt : Runtime) (line : string) : Prop :=
  (exists e, json_loads rt line = inl e)
  \/ (exists kv, json_loads rt line = inr (PDict kv)
                 /\ (Py.lookup "type" kv = None
                     \/ exists t, Py.lookup "type" kv = Some t
                                  /\ recognized t = false)).

(** The message of the reply to a malformed line: [str(e)] for the
    exception of the decoder, or the f-string of line 254 on the command's
    [type], which is [None] when the command has none. *)
Definition malformed_message (rt : Runtime) (line : string) : pystr :=
  match json_loads rt line with
  | inl e => Plain (exn_msg e)
  | inr command =>
      Py.cat "Unknown command type: "
             (py_str rt (match field "type" command with
                         | Some t => t
                         | None => PNone
                         end))
  end.

(** A command of the given type. *)
Definition command_of (rt : Runtime) (line ty : string)
           (kv : list (string * pyval)) : Prop :=
  json_loads rt line = inr (PDict kv)
  /\ Py.lookup "type" kv = Some (PStr ty).

(** A [tts] command as the protocol writes it: [text] is a string without
    a surrogate, so one that can be printed and written to a file, or is
    left out. *)
Definition tts_command (rt : Runtime) (line : string) : Prop :=
  exists kv, command_of rt line "tts" kv
             /\ (Py.lookup "text" kv = None
                 \/ exists t, Py.lookup "text" kv = Some (PStr t)).

(** A [transcribe] command whose audio decodes to samples. *)
Definition transcribe_command (rt : Runtime) (line : string) : Prop :=
  exists kv b64 bytes samples,
    command_of rt line "transcribe" kv
    /\ Py.lookup "audio_data" kv = Some b64
    /\ Py.truthy b64 = true
    /\ b64decode_val b64 = inr bytes
    /\ Pcm16.frombuffer bytes = inr samples.

(** The command triggers a lazy warmup, the warmup fails and leaves the
    state [s1]; [reply] is the failure reply of the command's kind. *)
Definition lazy_warmup_fails (rt : Runtime) (env : Env) (line : string)
           (st s1 : State) (reply : pyval) : Prop :=
  (transcribe_command rt line
   /\ stt_warmed_up st = false
   /\ warmup_stt rt env st = (inr false, s1)
   /\ reply = transcription_result None)
  \/ (tts_command rt line
      /\ tts_warmed_up st = false
      /\ warmup_tts rt env st = (inr false, s1)
      /\ reply = tts_failure).

(** The events a command added to the trace contain a real inference
    call: one made with the 60-second timeout. *)
Definition real_invocation_attempted (before after : State) : Prop :=
  exists i, In i (invocations (skipn (List.length (trace before))
                                     (trace after)))
            /\ inv_timeout i = 60%Z.

(** ** Environments and lines for the examples *)

(** Every tool run exits with status 0; [sf.read] finds three samples. *)
Definition env_ok : Env :=
  mkEnv (fun _ => Completed 0 "hello there" "")
        (fun _ => None)
        (fun _ => inr [1; 2; -1]%Z).

(** Every tool run exits with status 1. *)
Definition env_exit1 : Env :=
  mkEnv (fun _ => Completed 1 "" "No module named moshi_mlx")
        (fun _ => None)
        (fun _ => inl (Error "Error opening file")).

(** Every tool run times out. *)
Definition env_timeout : Env :=
  mkEnv (fun _ => TimedOut "" "")
        (fun _ => None)
        (fun _ => inl (Error "Error opening file")).


Definition status_line : string := Reference.q "{'type': 'status'}".

Definition tts_hello_line : string :=
  Reference.q "{'type': 'tts', 'text': 'Hello'}".


Definition tts_number_line : string :=
  Reference.q "{'type': 'tts', 'text': 5}".

(** Two bytes of audio: one sample. *)
Definition transcribe_line : string :=
  Reference.q "{'type': 'transcribe', 'audio_data': 'AAA=', 'sample_rate': 16000}".

Definition transcribe_no_audio_line : string :=
  Reference.q "{'type': 'transcribe'}".

(** ** Enumerations used to check the codec tables *)

Definition sextets : list N := map N.of_nat (seq 0 64).

Definition all_bytes : list byte :=
  map (fun n => Base64.byte_of (N.of_nat n)) (seq 0 256).

(** The character of a sextet decodes to that sextet, is not the pad and
    is ASCII. *)
Definition good_char (i : N) : bool :=
  match Base64.table_a2b (Base64.table_b2a i) with
  | Some j => N.eqb i j
  | None => false
  end
  && negb (Ascii.eqb (Base64.table_b2a i) Base64.pad)
  && Base64.isascii (Base64.table_b2a i).

(** The sextets of a group of bytes. *)
Definition s0 (a : byte) : N := N.shiftr (Byte.to_N a) 2.
Definition s1 (a b : byte) : N :=
  N.lor (N.shiftl (N.land (Byte.to_N a) 3) 4) (N.shiftr (Byte.to_N b) 4).
Definition s2 (b c : byte) : N :=
  N.lor (N.shiftl (N.land (Byte.to_N b) 15) 2) (N.shiftr (Byte.to_N c) 6).
Definition s3 (c : byte) : N := N.land (Byte.to_N c) 63.
Definition s1' (a : byte) : N := N.shiftl (N.land (Byte.to_N a) 3) 4.
Definition s2' (b : byte) : N := N.shiftl (N.land (Byte.to_N b) 15) 2.


(* ===================================================================== *)
(** * Definitions used to state further properties of the service *)
(* ===================================================================== *)

(** Both warmup flags are what they were. *)
Definition same_flags (s s' : State) : Prop :=
  stt_warmed_up s' = stt_warmed_up s /\ tts_warmed_up s' = tts_warmed_up s.

(** No flag went from true to false. *)
Definition flags_grow (s s' : State) : Prop :=
  (stt_warmed_up s = true -> stt_warmed_up s' = true)
  /\ (tts_warmed_up s = true -> tts_warmed_up s' = true).

(** Only the speech-to-text flag may have changed, and only to true. *)
Definition stt_only (s s' : State) : Prop :=
  tts_warmed_up s' = tts_warmed_up s
  /\ (stt_warmed_up s = true -> stt_warmed_up s' = true).

(** Only the text-to-speech flag may have changed, and only to true. *)
Definition tts_only (s s' : State) : Prop :=
  stt_warmed_up s' = stt_warmed_up s
  /\ (tts_warmed_up s = true -> tts_warmed_up s' = true).

(** A computation relates every state to the state it ends in. *)
Definition keeps {A} (R : State -> State -> Prop) (c : M A) : Prop :=
  forall s, R s (snd (c s)).

(** What [transcribe_audio] returns past the warmup, read off the answer of
    the tool: the parsed transcript when it exits with status 0, [None]
    otherwise. *)
Definition stt_outcome (o : run_outcome) : option string :=
  match o with
  | Completed code out _ =>
      if (code =? 0)%Z then Some (extract_transcription out) else None
  | _ => None
  end.

(** What [text_to_speech] returns past the warmup: the samples read back
    when the tool exits with status 0 and the sound file can be read. *)
Definition tts_outcome (o : run_outcome) (r : exn + list Z)
  : option (list Z) :=
  match o with
  | Completed code _ _ =>
      if (code =? 0)%Z
      then match r with inr samples => Some samples | inl _ => None end
      else None
  | _ => None
  end.

(** A value that has no [__getitem__]: [None], a [bool], a number. *)
Definition scalar (v : pyval) : bool :=
  match v with
  | PNone | PBool _ | PInt _ | PFloat _ => true
  | _ => false
  end.

(** The names of the temporary files a call makes in state [s]. *)
Definition tmp_name (n : N) (suffix : string) : string :=
  "/tmp/tmp" ++ Str.of_N n ++ suffix.



(** The files of [fs] other than [p]. *)
Definition without (p : string) (fs : list string) : list string :=
  filter (fun q => negb (String.eqb p q)) fs.

(** The samples a [transcribe] command carries, as the dispatcher decodes
    them. *)
Definition decode_audio (audio_b64 : pyval) : exn + list Z :=
  match b64decode_val audio_b64 with
  | inr audio_bytes => Pcm16.frombuffer audio_bytes
  | inl e => inl e
  end.

(** A [transcribe] command with truthy [audio_data]; [rate] is its
    [sample_rate], 16000 when it names none. *)
Definition transcribe_with (rt : Runtime) (line : string)
           (audio_b64 rate : pyval) : Prop :=
  exists kv,
    command_of rt line "transcribe" kv
    /\ Py.lookup "audio_data" kv = Some audio_b64
    /\ Py.truthy audio_b64 = true
    /\ rate = match Py.lookup "sample_rate" kv with
              | Some r => r
              | None => PInt 16000
              end.

(** A [tts] command with the given [text] field. *)
Definition tts_with (rt : Runtime) (line : string) (text : pyval) : Prop :=
  exists kv,
    command_of rt line "tts" kv /\ Py.lookup "text" kv = Some text.

(** A tool run that ended with exit status 0. *)
Definition exits_ok (o : run_outcome) : bool :=
  match o with
  | Completed code _ _ => (code =? 0)%Z
  | _ => false
  end.

(** ** More environments, states and lines for the examples *)

(** [sf.write] cannot write the file. *)
Definition env_write_fails : Env :=
  mkEnv (fun _ => Completed 0 "" "")
        (fun _ => Some (Error "Error opening file: Format not recognised."))
        (fun _ => inr []).

(** A service on which both models are warmed up. *)
Definition warm : State := set_stt_warmed_up true (set_tts_warmed_up true init).

(** Three bytes of audio: one sample and a half. *)
Definition transcribe_odd_line : string :=
  Reference.q "{'type': 'transcribe', 'audio_data': 'AAAA'}".

Definition array_line : string := "[1, 2]".

Definition tts_list_line : string :=
  Reference.q "{'type': 'tts', 'text': ['a', 'b']}".


(** Fifty characters and then two surrogates. *)
Definition tts_late_surrogate_line : string :=
  Reference.q ("{'type': 'tts', 'text': '"
               ++ "0123456789012345678901234567890123456789012345678"
               ++ "9\udc00\udc01'}").


(** What was printed is still there, with [out] after it. *)
Definition prints (s s' : State) : Prop :=
  exists out, stdout s' = (stdout s ++ out)%list.


(* ===================================================================== *)
(** * The callers' chunking loops *)
(* ===================================================================== *)

(** [range(0, stop, step)] for a positive [step]. *)
Definition range0 (stop step : nat) : list nat :=
  map (fun k => k * step) (seq 0 ((stop + step - 1) / step)).

(** The loop of [streaming_example] (lines 84-88 of [example_usage.py]) and
    of [test_streaming_stt]: the list of [audio_data[i:i+chunk_size]] for
    [i] in [range(0, len(audio_data), chunk_size)]. *)
Definition chunks {A} (chunk_size : nat) (audio_data : list A)
  : list (list A) :=
  map (fun i => firstn chunk_size (skipn i audio_data))
      (range0 (List.length audio_data) chunk_size).

(** The chunks the loop keeps when it skips those that are not full
    ([if len(chunk) == chunk_size]). *)
Definition full_chunks {A} (chunk_size : nat) (audio_data : list A)
  : list (list A) :=
  filter (fun chunk => Nat.eqb (List.length chunk) chunk_size)
         (chunks chunk_size audio_data).

(** [streaming_example]: [chunk_size = 24000], every chunk is transcribed. *)
Definition streaming_example_chunks {A} (audio_data : list A)
  : list (list A) :=
  chunks (N.to_nat 24000) audio_data.

(** [test_streaming_stt], lines 181-190 of [test_baoagent_service.py]:
    [chunk_size = 16000], only full chunks are transcribed. *)
Definition test_streaming_stt_chunks {A} (audio_data : list A)
  : list (list A) :=
  full_chunks (N.to_nat 16000) audio_data.

(** [audio_data[k*chunk_size : (k+1)*chunk_size]] *)
Definition chunk_at {A} (chunk_size : nat) (audio_data : list A) (k : nat)
  : list A :=
  firstn chunk_size (skipn (k * chunk_size) audio_data).


(* ===================================================================== *)
(** * The client ([baoagent_client.py]) *)
(* ===================================================================== *)

(** The lines [readline()] returns for the text [data] of a stream opened
    in text mode: a line ends at a line feed, at a carriage return, or at
    the two together (universal newlines); the ends are left out. *)
Fixpoint readlines (data : string) : list string :=
  match data with
  | EmptyString => []
  | String c r =>
      if Ascii.eqb c Str.nl then EmptyString :: readlines r
      else if Ascii.eqb c (ascii_of_nat 13) then
        match r with
        | String c' r' =>
            if Ascii.eqb c' Str.nl then EmptyString :: readlines r'
            else EmptyString :: readlines r
        | EmptyString => [EmptyString]
        end
      else match readlines r with
           | [] => [String c EmptyString]
           | w :: ws => String c w :: ws
           end
  end.

(** The worker process as the client holds it: the service's state (with
    everything it has printed), whether it is still in its loop, and the
    lines of its standard output the client has not read yet. *)
Record Proc : Type := mkProc {
  worker : State;
  running : bool;
  unread : list string
}.

(** [BaoAgentClient]: [self.process], [self.service_ready], what the
    client has printed, and the outside world as the last worker left it
    (the files, the trace and the call count a new worker starts from). *)
Record Client : Type := mkClient {
  process : option Proc;
  service_ready : bool;
  printed : list string;
  outside : State
}.

(** [BaoAgentClient.__init__], before anything has run. *)
Definition new_client : Client := mkClient None false [] init.

(** A client call returns a value, raises, or never returns ([None]): it
    waits for a line the worker will not write. *)
Definition CM (A : Type) : Type := Client -> option ((exn + A) * Client).

Definition say (line : string) (c : Client) : Client :=
  mkClient (process c) (service_ready c) (printed c ++ [line])%list
           (outside c).

(** [print(t)] and then [return None], for a [str] built from a value: the
    client's standard output is encoded as UTF-8. *)
Definition report {A} (t : pystr) (c : Client)
  : option ((exn + option A) * Client) :=
  match t with
  | Plain s => Some (inr None, say s c)
  | Lone before sur after =>
      Some (inl (Py.unicode_encode_error before sur after), c)
  end.

Section ClientModel.

Variable rt : Runtime.
Variable env : Env.

(** [json.dumps]; what it returns holds no line break. *)
Variable json_dumps : pyval -> string.

(** The lines one [print] of the worker puts on its standard output. *)
Definition lines_of (o : output) : list string :=
  match o with
  | Text s => readlines (s ++ String Str.nl EmptyString)
  | Json v => readlines (json_dumps v ++ String Str.nl EmptyString)
  end.

(** The lines the worker wrote while it went from [before] to [after]. *)
Definition written (before after : State) : list string :=
  flat_map lines_of (skipn (List.length (stdout before)) (stdout after)).

(** A new service process in the world [w]: both flags false, nothing
    printed yet. *)
Definition fresh (w : State) : State :=
  mkState false false "kyutai/stt-2.6b-en-mlx" (clock w) (tmp_count w)
          (files w) (trace w) [].

(** [subprocess.Popen(["python3", self.service_script], ...)]: the worker
    runs up to its first [input()]. *)
Definition popen (w : State) : Proc :=
  let st0 := fresh w in
  match startup rt env st0 with
  | (inr _, st1) => mkProc st1 true (written st0 st1)
  | (inl _, st1) => mkProc st1 false (written st0 st1)
  end.

(** The worker reads one line from its standard input: one turn of the
    loop of [main]. *)
Definition deliver (line : string) (p : Proc) : Proc :=
  let st := worker p in
  let command_line := Str.strip line in
  if is_quit command_line then
    let st1 := emit (Text "Shutting down service...") st in
    mkProc st1 false (unread p ++ written st st1)%list
  else
    match serve rt env command_line st with
    | (inr _, st1) => mkProc st1 true (unread p ++ written st st1)%list
    | (inl _, st1) => mkProc st1 false (unread p ++ written st st1)%list
    end.

(** The loop of [start_service], lines 35-44, on the lines the pipe holds:
    [Some] of the lines left and of what was printed once the marker is
    read, [None] when the lines run out before it. *)
Fixpoint wait_ready (lines said : list string)
  : option (list string * list string) :=
  match lines with
  | [] => None
  | raw :: rest =>
      let line := Str.strip raw in
      if Str.contains "Service ready!" line
      then Some (rest, said ++ ["Service is ready!"])%list
      else if Str.nonempty line
           then wait_ready rest (said ++ [("Service: " ++ line)%string])%list
           else wait_ready rest said
  end.

Definition start_service : CM unit :=
  fun c =>
    match process c with
    | Some _ => Some (inr tt, c)
    | None =>
        let p := popen (outside c) in
        match wait_ready (unread p)
                         (printed c ++ ["Starting BaoAgent service..."])%list
        with
        | Some (rest, said) =>
            Some (inr tt,
                  mkClient (Some (mkProc (worker p) (running p) rest))
                           true said (outside c))
        | None => None
        end
    end.

Definition broken_pipe : exn := Error "[Errno 32] Broken pipe".

Definition stop_service : CM unit :=
  fun c =>
    match process c with
    | None => Some (inr tt, c)
    | Some p =>
        if running p then
          let p' := deliver "quit" p in
          Some (inr tt, mkClient None false (printed c) (worker p'))
        else Some (inl broken_pipe, c)
    end.

(** The read loop of [send_command], lines 66-79: the first line that is
    not blank and that [json.loads] accepts. *)
Fixpoint read_response (lines said : list string)
  : option (pyval * list string * list string) :=
  match lines with
  | [] => None
  | raw :: rest =>
      let line := Str.strip raw in
      if Str.nonempty line then
        match json_loads rt line with
        | inr response => Some (response, rest, said)
        | inl _ =>
            read_response rest
                          (said ++ [("Service debug: " ++ line)%string])%list
        end
      else read_response rest said
  end.

(** The [except Exception] clause of [send_command]. *)
Definition comm_error (e : exn) (c : Client)
  : option ((exn + option pyval) * Client) :=
  Some (inr None,
        say ("Error communicating with service: " ++ exn_msg e) c).

(** [send_command], past the start of the service. *)
Definition exchange (command : pyval) : CM (option pyval) :=
  fun c =>
    match process c with
    | None =>
        comm_error (Error "'NoneType' object has no attribute 'stdin'") c
    | Some p =>
        if running p then
          let p' := deliver (json_dumps command) p in
          match read_response (unread p') (printed c) with
          | Some (response, rest, said) =>
              Some (inr (Some response),
                    mkClient (Some (mkProc (worker p') (running p') rest))
                             (service_ready c) said (outside c))
          | None => None
          end
        else comm_error broken_pipe c
    end.

(** [send_command]: [Some v] is the response, [None] is Python's [None]. *)
Definition send_command (command : pyval) : CM (option pyval) :=
  fun c =>
    if service_ready c then exchange command c
    else match start_service c with
         | Some (inr _, c') => exchange command c'
         | Some (inl e, c') => Some (inl e, c')
         | None => None
         end.

(** [response and response.get('success')], as a truth value. *)
Definition succeeded (response : option pyval) : exn + bool :=
  match response with
  | None => inr false
  | Some v =>
      if Py.truthy v then
        match Py.get v "success" PNone with
        | inr s => inr (Py.truthy s)
        | inl e => inl e
        end
      else inr false
  end.

(** [f"{response}"] *)
Definition show (response : option pyval) : pystr :=
  match response with
  | None => Plain "None"
  | Some v => py_str rt v
  end.

(** [transcribe_audio]; the audio is an [int16] array or [bytes]. *)
Definition client_transcribe_audio (audio_data : list Z + list byte)
           (sample_rate : pyval) : CM (option pyval) :=
  fun c =>
    let audio_bytes := match audio_data with
                       | inl samples => Pcm16.tobytes samples
                       | inr bytes => bytes
                       end in
    let audio_b64 := Base64.b64encode audio_bytes in
    let command := PDict [("type", PStr "transcribe");
                          ("audio_data", PStr audio_b64);
                          ("sample_rate", sample_rate)] in
    match send_command command c with
    | Some (inr response, c') =>
        match succeeded response with
        | inr true =>
            match response with
            | Some v =>
                match Py.get v "text" (PStr "") with
                | inr text => Some (inr (Some text), c')
                | inl e => Some (inl e, c')
                end
            | None => Some (inr None, c')
            end
        | inr false =>
            report (Py.cat "Transcription failed: " (show response)) c'
        | inl e => Some (inl e, c')
        end
    | Some (inl e, c') => Some (inl e, c')
    | None => None
    end.

(** [text_to_speech] *)
Definition client_text_to_speech (text : pyval) : CM (option (list Z)) :=
  fun c =>
    let command := PDict [("type", PStr "tts"); ("text", text)] in
    match send_command command c with
    | Some (inr response, c') =>
        match succeeded response with
        | inr true =>
            match response with
            | Some v =>
                match Py.get v "audio_data" (PStr "") with
                | inr audio_b64 =>
                    match decode_audio audio_b64 with
                    | inr audio_data => Some (inr (Some audio_data), c')
                    | inl e => Some (inl e, c')
                    end
                | inl e => Some (inl e, c')
                end
            | None => Some (inr None, c')
            end
        | inr false =>
            report (Py.cat "TTS failed: " (show response)) c'
        | inl e => Some (inl e, c')
        end
    | Some (inl e, c') => Some (inl e, c')
    | None => None
    end.

(** [get_status] *)
Definition get_status : CM (option pyval) :=
  send_command (PDict [("type", PStr "status")]).

End ClientModel.

(** The debug lines the read loop prints for the lines it passes over. *)
Definition debug_of (lines : list string) : list string :=
  map (fun l => "Service debug: " ++ Str.strip l)
      (filter (fun l => Str.nonempty (Str.strip l)) lines).

(** A line the read loop passes over: blank, or refused by [json.loads]. *)
Definition passed_over (rt : Runtime) (raw : string) : Prop :=
  Str.nonempty (Str.strip raw) = false
  \/ exists e, json_loads rt (Str.strip raw) = inl e.

(** [json.dumps] for the values of the reference runtime: strings that
    need no escape but for their surrogates, integers, [true], [false],
    [null], arrays and objects, with Python's separators. *)
Fixpoint ref_dumps (v : pyval) : string :=
  match v with
  | PNone => "null"
  | PBool true => "true"
  | PBool false => "false"
  | PInt z => Str.of_Z z
  | PFloat _ => "NaN"
  | PStr s => String Reference.dquote (s ++ String Reference.dquote "")
  | PSurr before sur after =>
      String Reference.dquote
             (before ++ Py.surrogate_escape sur ++ Reference.escaped after
              ++ String Reference.dquote "")
  | PList l => "[" ++ Str.join ", " (map ref_dumps l) ++ "]"
  | PDict kv =>
      "{" ++ Str.join ", "
               (map (fun p => match p with
                              | (k, x) =>
                                  String Reference.dquote
                                         (k ++ String Reference.dquote ": ")
                                  ++ ref_dumps x
                              end) kv)
          ++ "}"
  end.

(** A client whose worker is ready, in its loop, with nothing left to
    read. *)
Definition idle (c : Client) (p : Proc) : Prop :=
  process c = Some p /\ service_ready c = true
  /\ running p = true /\ unread p = [].

(** [json.dumps v] is one line that is not blank and from which
    [json.loads] gives [v] back. *)
Definition round_trips (rt : Runtime) (json_dumps : pyval -> string)
           (v : pyval) : Prop :=
  readlines (json_dumps v ++ String Str.nl EmptyString) = [json_dumps v]
  /\ Str.nonempty (Str.strip (json_dumps v)) = true
  /\ json_loads rt (Str.strip (json_dumps v)) = inr v.

(** The audio holds no sample and no byte. *)
Definition no_audio (audio_data : list Z + list byte) : Prop :=
  match audio_data with
  | inl samples => samples = []
  | inr bytes => bytes = []
  end.

(** ** A client for the examples *)

(** A warmed-up worker waiting for a line, and the client that holds it. *)
Definition idle_worker : Proc := mkProc warm true [].

Definition idle_client : Client := mkClient (Some idle_worker) true [] init.

Definition tts_hello_command : pyval :=
  PDict [("type", PStr "tts"); ("text", PStr "Hello")].

(* ===================================================================== *)
(** * The codec round trip *)
(* ===================================================================== *)

Lemma in_sextets (i : N) : (i < 64)%N -> In i sextets.
Proof.
  intros H. unfold sextets.
  rewrite <- (N2Nat.id i). apply in_map. apply in_seq. lia.
Qed.

Lemma byte_of_to_N (b : byte) : Base64.byte_of (Byte.to_N b) = b.
Proof.
  unfold Base64.byte_of.
  pose proof (Byte.to_N_bounded b) as Hb.
  rewrite N.mod_small by lia.
  now rewrite Byte.of_to_N.
Qed.

Lemma in_all_bytes (b : byte) : In b all_bytes.
Proof.
  unfold all_bytes.
  rewrite <- (byte_of_to_N b) at 1.
  rewrite <- (N2Nat.id (Byte.to_N b)).
  apply (in_map (fun n => Base64.byte_of (N.of_nat n))).
  apply in_seq. pose proof (Byte.to_N_bounded b). lia.
Qed.

Lemma for_sextets (f : N -> bool) :
  forallb f sextets = true -> forall i, (i < 64)%N -> f i = true.
Proof.
  intros H i Hi. rewrite forallb_forall in H. apply H, in_sextets, Hi.
Qed.

Lemma for_bytes (f : byte -> bool) :
  forallb f all_bytes = true -> forall b, f b = true.
Proof.
  intros H b. rewrite forallb_forall in H. apply H, in_all_bytes.
Qed.

Lemma for_bytes2 (f : byte -> byte -> bool) :
  forallb (fun a => forallb (f a) all_bytes) all_bytes = true ->
  forall a b, f a b = true.
Proof.
  intros H a b.
  apply (for_bytes (f a)). revert a. apply for_bytes. exact H.
Qed.

Lemma good_chars (i : N) : (i < 64)%N -> good_char i = true.
Proof. apply for_sextets. vm_compute. reflexivity. Qed.

(** A character of the alphabet feeds its sextet to the decoder. *)
Lemma step_char (i : N) (r : list ascii) (d : Base64.dstate) :
  (i < 64)%N ->
  Base64.a2b_loop (Base64.table_b2a i :: r) d
  = Base64.a2b_loop r (Base64.feed d i).
Proof.
  intros Hi. pose proof (good_chars i Hi) as G. unfold good_char in G.
  apply andb_prop in G. destruct G as [G _].
  apply andb_prop in G. destruct G as [G1 G2].
  simpl. apply negb_true_iff in G2. rewrite G2.
  destruct (Base64.table_a2b (Base64.table_b2a i)) as [j|]; [|discriminate].
  apply N.eqb_eq in G1. now subst j.
Qed.

(** The bit arithmetic of a group, checked on every pair of bytes. *)
Lemma first_byte (a b : byte) :
  ((s0 a <? 64) && (s1 a b <? 64) && (s1' a <? 64))%N
  && Byte.eqb (Base64.byte_of
                 (N.lor (N.shiftl (s0 a) 2) (N.shiftr (s1 a b) 4))) a
  && Byte.eqb (Base64.byte_of
                 (N.lor (N.shiftl (s0 a) 2) (N.shiftr (s1' a) 4))) a
  && (N.land (s1 a b) 15 =? N.shiftr (Byte.to_N b) 4)%N = true.
Proof. revert a b. apply for_bytes2. vm_compute. reflexivity. Qed.

Lemma second_byte (b c : byte) :
  ((s2 b c <? 64) && (s2' b <? 64))%N
  && Byte.eqb (Base64.byte_of
                 (N.lor (N.shiftl (N.shiftr (Byte.to_N b) 4) 4)
                        (N.shiftr (s2 b c) 2))) b
  && Byte.eqb (Base64.byte_of
                 (N.lor (N.shiftl (N.shiftr (Byte.to_N b) 4) 4)
                        (N.shiftr (s2' b) 2))) b = true.
Proof. revert b c. apply for_bytes2. vm_compute. reflexivity. Qed.

Lemma third_byte (b c : byte) :
  (s3 c <? 64)%N
  && Byte.eqb (Base64.byte_of
                 (N.lor (N.shiftl (N.land (s2 b c) 3) 6) (s3 c))) c
  = true.
Proof. revert b c. apply for_bytes2. vm_compute. reflexivity. Qed.

Ltac andb_split H :=
  repeat match type of H with
         | (_ && _)%bool = true =>
             let H1 := fresh H in
             apply andb_prop in H; destruct H as [H H1]
         end.

Lemma sextet_lt (i : N) : (i <? 64)%N = true -> (i < 64)%N.
Proof. apply N.ltb_lt. Qed.

Lemma byte_eqb_eq (x y : byte) : Byte.eqb x y = true -> x = y.
Proof. apply Byte.byte_dec_bl. Qed.

Lemma group3 (a b c : byte) (r : list ascii) (acc : list byte) :
  Base64.a2b_loop (Base64.enc3 a b c ++ r) (Base64.mkD 0 0 0 acc)
  = Base64.a2b_loop r (Base64.mkD 0 0 0 (c :: b :: a :: acc)).
Proof.
  pose proof (first_byte a b) as F.
  pose proof (second_byte b c) as S.
  pose proof (third_byte b c) as T.
  andb_split F. andb_split S. andb_split T.
  change (Base64.enc3 a b c)
    with [Base64.table_b2a (s0 a); Base64.table_b2a (s1 a b);
          Base64.table_b2a (s2 b c); Base64.table_b2a (s3 c)].
  cbn [app].
  rewrite !step_char by (apply sextet_lt; assumption).
  unfold Base64.feed;
    cbn [Base64.quad_pos Base64.leftchar Base64.bin_data].
  apply N.eqb_eq in F0. rewrite F0.
  apply byte_eqb_eq in F2, S1, T0.
  rewrite F2, S1, T0. reflexivity.
Qed.

Lemma group2 (a b : byte) (acc : list byte) :
  Base64.a2b_loop (Base64.enc2 a b) (Base64.mkD 0 0 0 acc)
  = inr (rev (b :: a :: acc)).
Proof.
  pose proof (first_byte a b) as F.
  pose proof (second_byte b b) as S.
  andb_split F. andb_split S.
  change (Base64.enc2 a b)
    with [Base64.table_b2a (s0 a); Base64.table_b2a (s1 a b);
          Base64.table_b2a (s2' b); Base64.pad].
  rewrite !step_char by (apply sextet_lt; assumption).
  unfold Base64.feed;
    cbn [Base64.quad_pos Base64.leftchar Base64.bin_data].
  apply N.eqb_eq in F0. rewrite F0.
  apply byte_eqb_eq in F2, S0.
  rewrite F2, S0. reflexivity.
Qed.

Lemma group1 (a : byte) (acc : list byte) :
  Base64.a2b_loop (Base64.enc1 a) (Base64.mkD 0 0 0 acc)
  = inr (rev (a :: acc)).
Proof.
  pose proof (first_byte a a) as F.
  andb_split F.
  change (Base64.enc1 a)
    with [Base64.table_b2a (s0 a); Base64.table_b2a (s1' a);
          Base64.pad; Base64.pad].
  rewrite !step_char by (apply sextet_lt; assumption).
  unfold Base64.feed;
    cbn [Base64.quad_pos Base64.leftchar Base64.bin_data].
  apply byte_eqb_eq in F1. rewrite F1. reflexivity.
Qed.

(** Induction on a list three elements at a time. *)
Lemma list_ind3 {A} (P : list A -> Prop) :
  P [] -> (forall a, P [a]) -> (forall a b, P [a; b]) ->
  (forall a b c l, P l -> P (a :: b :: c :: l)) ->
  forall l, P l.
Proof.
  intros H0 H1 H2 H3.
  assert (forall l, P l /\ (forall a, P (a :: l))
                    /\ (forall a b, P (a :: b :: l))) as H.
  { induction l as [|x l [IH0 [IH1 IH2]]].
    - repeat split; auto.
    - repeat split; auto. }
  intros l. apply H.
Qed.

Lemma a2b_b2a (bs : list byte) :
  forall acc,
    Base64.a2b_loop (Base64.b2a bs) (Base64.mkD 0 0 0 acc)
    = inr (rev acc ++ bs)%list.
Proof.
  induction bs as [|a|a b|a b c l IH] using list_ind3; intros acc.
  - cbn. unfold Base64.finish. cbn. now rewrite app_nil_r.
  - change (Base64.b2a [a]) with (Base64.enc1 a). rewrite group1.
    reflexivity.
  - change (Base64.b2a [a; b]) with (Base64.enc2 a b). rewrite group2.
    cbn [rev]. now rewrite <- app_assoc.
  - change (Base64.b2a (a :: b :: c :: l))
      with (Base64.enc3 a b c ++ Base64.b2a l)%list.
    rewrite group3, IH. cbn [rev]. now rewrite <- !app_assoc.
Qed.

Lemma isascii_char (i : N) :
  (i < 64)%N -> Base64.isascii (Base64.table_b2a i) = true.
Proof.
  intros Hi. pose proof (good_chars i Hi) as G. unfold good_char in G.
  apply andb_prop in G. apply G.
Qed.

Lemma b2a_ascii (bs : list byte) :
  forallb Base64.isascii (Base64.b2a bs) = true.
Proof.
  induction bs as [|a|a b|a b c l IH] using list_ind3.
  - reflexivity.
  - pose proof (first_byte a a) as F. andb_split F.
    change (Base64.b2a [a])
      with [Base64.table_b2a (s0 a); Base64.table_b2a (s1' a);
            Base64.pad; Base64.pad].
    cbn [forallb].
    rewrite !isascii_char by (apply sextet_lt; assumption). reflexivity.
  - pose proof (first_byte a b) as F. pose proof (second_byte b b) as S.
    andb_split F. andb_split S.
    change (Base64.b2a [a; b])
      with [Base64.table_b2a (s0 a); Base64.table_b2a (s1 a b);
            Base64.table_b2a (s2' b); Base64.pad].
    cbn [forallb].
    rewrite !isascii_char by (apply sextet_lt; assumption). reflexivity.
  - pose proof (first_byte a b) as F. pose proof (second_byte b c) as S.
    pose proof (third_byte b c) as T.
    andb_split F. andb_split S. andb_split T.
    change (Base64.b2a (a :: b :: c :: l))
      with ([Base64.table_b2a (s0 a); Base64.table_b2a (s1 a b);
             Base64.table_b2a (s2 b c); Base64.table_b2a (s3 c)]
              ++ Base64.b2a l)%list.
    rewrite forallb_app, IH. cbn [forallb].
    rewrite !isascii_char by (apply sextet_lt; assumption). reflexivity.
Qed.

(** The decoder undoes the encoder on every buffer. *)
Lemma b64decode_b64encode (buf : list byte) :
  Base64.b64decode (Base64.b64encode buf) = inr buf.
Proof.
  unfold Base64.b64decode, Base64.b64encode.
  rewrite list_ascii_of_string_of_list_ascii.
  rewrite b2a_ascii.
  unfold Base64.a2b_base64. now rewrite a2b_b2a.
Qed.

(** C4. Decoding the base64 encoding of any byte buffer, the empty one and
    those of odd length included, gives back the buffer exactly: the codec
    changes no byte, so it resamples, converts and clips nothing. *)
Theorem b64_roundtrip (buf : list byte) :
  Base64.b64decode (Base64.b64encode buf) = inr buf.
Proof. exact (b64decode_b64encode buf). Qed.

(* ===================================================================== *)
(** * PCM16 packing *)
(* ===================================================================== *)

Lemma to_N_byte_of (n : N) : Byte.to_N (Base64.byte_of n) = (n mod 256)%N.
Proof.
  unfold Base64.byte_of.
  destruct (Byte.of_N (n mod 256)) as [b|] eqn:E.
  - now apply Byte.to_of_N.
  - apply Byte.of_N_None_iff in E.
    pose proof (N.mod_upper_bound n 256). lia.
Qed.

(** A sample survives packing into two bytes and unpacking. *)
Lemma unpack_pack (z : Z) :
  Pcm16.int16 z ->
  Pcm16.frombuffer (Pcm16.pack z) = inr [z].
Proof.
  unfold Pcm16.int16, Pcm16.pack. intros Hz.
  set (u := Z.to_N (z mod 65536)).
  assert (u < 65536)%N as Hu.
  { unfold u. pose proof (Z.mod_pos_bound z 65536). lia. }
  cbn [Pcm16.frombuffer]. unfold Pcm16.unpack.
  rewrite !to_N_byte_of.
  assert (N.land u 255 mod 256 = N.land u (N.ones 8))%N as E1.
  { change 255%N with (N.ones 8). rewrite N.land_ones.
    change (2 ^ 8)%N with 256%N. now rewrite N.Div0.mod_mod. }
  assert (N.shiftr u 8 mod 256 = N.shiftr u 8)%N as E2.
  { apply N.mod_small. rewrite N.shiftr_div_pow2.
    change (2 ^ 8)%N with 256%N.
    apply N.Div0.div_lt_upper_bound. lia. }
  rewrite E1, E2.
  rewrite <- N.ldiff_ones_r, N.lor_comm, N.lor_ldiff_and.
  unfold u. rewrite Z2N.id by (pose proof (Z.mod_pos_bound z 65536); lia).
  f_equal. f_equal.
  destruct (32768 <=? z mod 65536)%Z eqn:E.
  - apply Z.leb_le in E.
    assert (z < 0)%Z by (destruct (Z.lt_ge_cases z 0); [assumption|];
                         rewrite Z.mod_small in E; lia).
    rewrite <- (Z.mod_unique z 65536 (-1) (z + 65536)); lia.
  - apply Z.leb_gt in E.
    assert (0 <= z)%Z.
    { destruct (Z.lt_ge_cases z 0) as [N|]; [|assumption].
      rewrite <- (Z.mod_unique z 65536 (-1) (z + 65536)) in E; lia. }
    rewrite Z.mod_small; lia.
Qed.

Lemma frombuffer_cons2 (lo hi : byte) (r : list byte) :
  Pcm16.frombuffer (lo :: hi :: r)
  = match Pcm16.frombuffer r with
    | inr l => inr (Pcm16.unpack lo hi :: l)
    | inl e => inl e
    end.
Proof. reflexivity. Qed.

Lemma frombuffer_tobytes (samples : list Z) :
  Forall Pcm16.int16 samples ->
  Pcm16.frombuffer (Pcm16.tobytes samples) = inr samples.
Proof.
  induction 1 as [|z l Hz Hl IH]; [reflexivity|].
  pose proof (unpack_pack z Hz) as P.
  change (Pcm16.tobytes (z :: l))
    with (Pcm16.pack z ++ Pcm16.tobytes l)%list.
  unfold Pcm16.pack in *.
  set (lo := Base64.byte_of (N.land _ _)) in *.
  set (hi := Base64.byte_of (N.shiftr _ _)) in *.
  change ([lo; hi] ++ Pcm16.tobytes l)%list
    with (lo :: hi :: Pcm16.tobytes l).
  rewrite frombuffer_cons2 in P. rewrite frombuffer_cons2, IH.
  change (Pcm16.frombuffer []) with (@inr exn (list Z) []) in P.
  injection P as P. now rewrite P.
Qed.

(** X1: what the client packs and encodes, the service decodes and unpacks
    to the same samples: 16-bit samples survive [tobytes], base64
    encoding, base64 decoding and [frombuffer] unchanged. *)
Corollary pcm16_transport (samples : list Z) :
  Forall Pcm16.int16 samples ->
  match Base64.b64decode (Base64.b64encode (Pcm16.tobytes samples)) with
  | inr bytes => Pcm16.frombuffer bytes
  | inl e => inl e
  end = inr samples.
Proof.
  intros H. rewrite b64decode_b64encode. now apply frombuffer_tobytes.
Qed.

(* ===================================================================== *)
(** * The transcript parser *)
(* ===================================================================== *)

(** The loop's skip test is the specification's diagnostic test. *)
Lemma is_debug_info_diagnostic (line : string) :
  is_debug_info line = diagnostic line.
Proof.
  unfold is_debug_info, diagnostic, metadata_keywords. cbn [existsb].
  rewrite orb_false_r.
  repeat rewrite <- orb_assoc. reflexivity.
Qed.

(** A line the loop did not skip starts neither with [Info:] nor with an
    opening brace: the loop's second test only asks for a non-empty line. *)
Lemma kept_line_test (line : string) :
  diagnostic line = false ->
  Str.nonempty line && negb (Str.startswith "Info:" line)
  && negb (Str.startswith "{" line) = Str.nonempty line.
Proof.
  unfold diagnostic. intros H.
  apply orb_false_elim in H. destruct H as [H _].
  apply orb_false_elim in H. destruct H as [Hi Hb].
  apply orb_false_elim in Hb. destruct Hb as [Hb _].
  rewrite Hi, Hb. cbn. now rewrite !andb_true_r.
Qed.

Lemma scan_lines_find (lines : list string) :
  scan_lines lines
  = match find (fun l => negb (diagnostic l) && Str.nonempty l)
               (map Str.strip lines) with
    | Some l => l
    | None => ""
    end.
Proof.
  induction lines as [|l rest IH]; [reflexivity|].
  cbn [scan_lines map find].
  rewrite is_debug_info_diagnostic.
  destruct (diagnostic (Str.strip l)) eqn:D; cbn [negb andb].
  - exact IH.
  - rewrite (kept_line_test _ D).
    destruct (Str.nonempty (Str.strip l)); [reflexivity | exact IH].
Qed.

(** C7. For every captured output the parser scans the lines from the end
    backward, skips each diagnostic line (an [Info:] prefix, a leading JSON
    brace, a model-metadata keyword) and returns the first remaining
    non-empty line, or the empty string when none remains. *)
Theorem extract_transcription_spec (out : string) :
  extract_transcription out = transcript_spec out.
Proof.
  unfold extract_transcription, transcript_spec.
  rewrite scan_lines_find. now rewrite map_rev.
Qed.

(* ===================================================================== *)
(** * Temporary file names *)
(* ===================================================================== *)

Lemma append_length (a b : string) :
  String.length (a ++ b) = String.length a + String.length b.
Proof. induction a as [|c a IH]; cbn; [reflexivity | now rewrite IH]. Qed.

(** A name ending in [.txt] is not a name ending in [.wav]. *)
Lemma suffix_txt_wav (a b : string) : a ++ ".txt" <> b ++ ".wav".
Proof.
  revert b. induction a as [|c a IH]; intros b H.
  - destruct b as [|d b]; [discriminate|].
    apply (f_equal String.length) in H. cbn in H.
    rewrite append_length in H. cbn in H. lia.
  - destruct b as [|d b].
    + apply (f_equal String.length) in H. cbn in H.
      rewrite append_length in H. cbn in H. lia.
    + cbn in H. injection H as _ H. exact (IH b H).
Qed.

Lemma tmp_names_differ (n m : N) :
  String.eqb ("/tmp/tmp" ++ Str.of_N n ++ ".txt")
             ("/tmp/tmp" ++ Str.of_N m ++ ".wav") = false.
Proof.
  apply String.eqb_neq. intros H.
  cbn [append] in H. injection H as H.
  exact (suffix_txt_wav _ _ H).
Qed.

(** The two files [run_tts] made are on disk when its [finally] clause
    removes them. *)
Lemma both_on_disk (fs : list string) (tp op : string) :
  String.eqb tp op = false ->
  existsb (String.eqb tp) ((fs ++ [tp]) ++ [op]) = true
  /\ existsb (String.eqb op)
             (filter (fun q => negb (String.eqb tp q))
                     ((fs ++ [tp]) ++ [op])) = true.
Proof.
  intros D. split.
  - rewrite !existsb_app. cbn [existsb]. rewrite String.eqb_refl.
    now rewrite !orb_true_r.
  - rewrite !filter_app, !existsb_app. cbn [filter].
    rewrite String.eqb_refl, D. cbn [negb existsb].
    rewrite String.eqb_refl. cbn [orb]. now rewrite orb_true_r.
Qed.

Lemma skipn_length_app {A} (l x : list A) :
  skipn (List.length l) (l ++ x) = x.
Proof. induction l as [|a l IH]; [reflexivity | exact IH]. Qed.

Lemma skipn_length_self {A} (l : list A) : skipn (List.length l) l = [].
Proof. induction l as [|a l IH]; [reflexivity | exact IH]. Qed.

(* ===================================================================== *)
(** * The service *)
(* ===================================================================== *)

(** Unfold the monad and the calls to the outside, leaving the answers of
    the environment as the only open tests. *)
Ltac mred :=
  cbv beta iota zeta delta
      [bind ret raise gets modify lift print print_json print_str Py.cat
       Py.cat_r try_except
       try_finally mktemp sf_write sf_read tf_write run unlink path_exists
       fst snd emit tick log set_files set_stt_warmed_up set_tts_warmed_up
       clock files tmp_count stt_warmed_up tts_warmed_up stt_model_repo
       trace stdout called_process_error timeout_expired];
  cbn [exn_cls exn_msg exn_stdout exn_stderr negb andb].

(** Split on the next answer of the environment. *)
Ltac mcase :=
  match goal with
  | |- context [match env_sf_write ?e ?c with _ => _ end] =>
      destruct (env_sf_write e c) eqn:?
  | |- context [match env_run ?e ?c with _ => _ end] =>
      destruct (env_run e c) eqn:?
  | |- context [match env_sf_read ?e ?c with _ => _ end] =>
      destruct (env_sf_read e c) eqn:?
  | |- context [if on_disk ?p ?s then _ else _] =>
      destruct (on_disk p s) eqn:?
  | |- context [if negb (?z =? 0)%Z then _ else _] =>
      destruct (z =? 0)%Z eqn:?
  | |- context [if (?z =? 0)%Z then _ else _] =>
      destruct (z =? 0)%Z eqn:?
  | |- context [match exn_cls ?e with _ => _ end] =>
      destruct (exn_cls e) eqn:?
  end; mred.

Ltac dispatch_red :=
  cbv beta iota zeta delta
      [process_command handle_transcribe handle_tts transcribe_audio
       text_to_speech bind ret raise gets lift try_except Py.get];
  cbn [fst snd].

Section ServiceFacts.

Variable rt : Runtime.
Variable env : Env.

(** ** Warmup *)

(** A warmup never raises; it leaves the other model's flag alone, and on a
    cold model the flag afterwards is the value returned. *)
Lemma warmup_stt_returns (s : State) :
  exists b s',
    warmup_stt rt env s = (inr b, s')
    /\ tts_warmed_up s' = tts_warmed_up s
    /\ (stt_warmed_up s = false -> stt_warmed_up s' = b).
Proof.
  unfold warmup_stt.
  destruct s as [stt tts repo clk n fs tr out].
  destruct stt; mred.
  - eexists _, _. split; [reflexivity|]. split; [reflexivity|].
    intros; discriminate.
  - repeat mcase;
      (eexists _, _; split; [reflexivity|]; split; reflexivity).
Qed.

Lemma warmup_tts_returns (s : State) :
  exists b s',
    warmup_tts rt env s = (inr b, s')
    /\ stt_warmed_up s' = stt_warmed_up s
    /\ (tts_warmed_up s = false -> tts_warmed_up s' = b).
Proof.
  unfold warmup_tts.
  destruct s as [stt tts repo clk n fs tr out].
  destruct tts; mred.
  - eexists _, _. split; [reflexivity|]. split; [reflexivity|].
    intros; discriminate.
  - repeat mcase;
      (eexists _, _; split; [reflexivity|]; split; reflexivity).
Qed.

(** Every tool call a warmup makes carries the 120-second timeout. *)
Lemma warmup_stt_invocations (s s' : State) (r : exn + bool) :
  warmup_stt rt env s = (r, s') ->
  forall i,
    In i (invocations (skipn (List.length (trace s)) (trace s'))) ->
    inv_timeout i = 120%Z.
Proof.
  destruct s as [stt tts repo clk n fs tr out].
  unfold warmup_stt. destruct stt; mred.
  - intros H. injection H as _ <-. cbn [trace].
    rewrite skipn_length_self. intros i [].
  - repeat mcase; intros H; injection H as _ <-; cbn [trace];
      rewrite <- ?app_assoc, ?skipn_length_app, ?skipn_length_self;
      cbn [app invocations];
      intros i Hi; repeat (destruct Hi as [<- | Hi]; [reflexivity|]);
      destruct Hi.
Qed.

Lemma warmup_tts_invocations (s s' : State) (r : exn + bool) :
  warmup_tts rt env s = (r, s') ->
  forall i,
    In i (invocations (skipn (List.length (trace s)) (trace s'))) ->
    inv_timeout i = 120%Z.
Proof.
  destruct s as [stt tts repo clk n fs tr out].
  unfold warmup_tts. destruct tts; mred.
  - intros H. injection H as _ <-. cbn [trace].
    rewrite skipn_length_self. intros i [].
  - repeat mcase; intros H; injection H as _ <-; cbn [trace];
      rewrite <- ?app_assoc, ?skipn_length_app, ?skipn_length_self;
      cbn [app invocations];
      intros i Hi; repeat (destruct Hi as [<- | Hi]; [reflexivity|]);
      destruct Hi.
Qed.

(** ** Synthesis *)



(** ** The dispatcher *)

(** One turn of the loop on a line that is not [quit]. *)
Lemma main_loop_step (raw : string) (rest : list string) (st : State) :
  is_quit (Str.strip raw) = false ->
  main_loop rt env (raw :: rest) st
  = (serve rt env (Str.strip raw) ;; main_loop rt env rest) st.
Proof.
  intros Q. cbn [main_loop]. rewrite Q. reflexivity.
Qed.

(** When [process_command] returns a JSON string the loop prints it and
    goes on to the next line. *)
Lemma main_loop_reply (raw : string) (rest : list string) (st s1 : State)
      (v : pyval) :
  is_quit (Str.strip raw) = false ->
  process_command rt env (Str.strip raw) st = (inr (Some v), s1) ->
  main_loop rt env (raw :: rest) st
  = main_loop rt env rest (emit (Json v) s1).
Proof.
  intros Q P. rewrite (main_loop_step _ _ _ Q).
  unfold bind, serve, try_except, bind. rewrite P.
  reflexivity.
Qed.

Lemma process_command_undecodable (line : string) (e : exn) (st : State) :
  json_loads rt line = inl e ->
  process_command rt env line st
  = (inr (Some (error_result (exn_msg e))), st).
Proof.
  intros L. unfold process_command, try_except, bind, lift. rewrite L.
  reflexivity.
Qed.

Lemma process_command_unknown (line : string) (kv : list (string * pyval))
      (t : pyval) (st : State) :
  json_loads rt line = inr (PDict kv) ->
  match Py.lookup "type" kv with Some x => x | None => PNone end = t ->
  recognized t = false ->
  process_command rt env line st
  = (inr (Some (error_reply
                  (Py.cat "Unknown command type: " (py_str rt t)))),
     st).
Proof.
  intros L T R. unfold recognized in R.
  apply orb_false_elim in R. destruct R as [R R3].
  apply orb_false_elim in R. destruct R as [R1 R2].
  unfold process_command, try_except, bind, lift. rewrite L.
  cbn [Py.get]. rewrite T, R1, R2, R3. reflexivity.
Qed.

(** C9. A line other than [quit] that does not decode as JSON, or decodes
    to an object whose [type] is missing or unrecognized, is answered with
    one line, the object [{"type": "error", "error": msg}] and nothing
    else in it, where [msg] is the decoder's message or [Unknown command
    type: ] followed by the type; the loop goes on to read the next line
    in an otherwise unchanged state. *)
Theorem malformed_line_answered_and_loop_continues
        (raw : string) (rest : list string) (st : State) :
  is_quit (Str.strip raw) = false ->
  malformed rt (Str.strip raw) ->
  let msg := Py.of_str (malformed_message rt (Str.strip raw)) in
  exists reply,
    main_loop rt env (raw :: rest) st
    = main_loop rt env rest (emit (Json reply) st)
    /\ reply = PDict [("type", PStr "error"); ("error", msg)]
    /\ field "type" reply = Some (PStr "error")
    /\ field "error" reply = Some msg.
Proof.
  intros Q M msg. unfold msg, malformed_message.
  destruct M as [[e L] | [kv [L [T | [t [T R]]]]]]; rewrite L;
    cbn [field]; rewrite ?T;
    (eexists; split; [|split; [reflexivity|split; reflexivity]]);
    apply main_loop_reply; try exact Q.
  - now apply process_command_undecodable.
  - apply (process_command_unknown _ kv); [exact L | now rewrite T |].
    reflexivity.
  - apply (process_command_unknown _ kv); [exact L | now rewrite T |].
    exact R.
Qed.


(** [process_command] catches every exception itself. *)
Lemma process_command_returns (line : string) (st : State) :
  exists r s', process_command rt env line st = (inr r, s').
Proof.
  unfold process_command, try_except.
  match goal with
  | |- context [match ?c st with _ => _ end] => destruct (c st) as [[e|r] s']
  end; eexists _, _; reflexivity.
Qed.

(** X2: whatever the line, the loop prints what [process_command]
    returned, once, and reads the next line. *)
Lemma main_loop_prints_once (raw : string) (rest : list string) (st : State) :
  is_quit (Str.strip raw) = false ->
  exists r s',
    process_command rt env (Str.strip raw) st = (inr r, s')
    /\ main_loop rt env (raw :: rest) st
       = main_loop rt env rest
           (emit (match r with Some v => Json v | None => Text "None" end)
                 s').
Proof.
  intros Q. destruct (process_command_returns (Str.strip raw) st)
    as (r & s' & P).
  exists r, s'. split; [exact P|].
  rewrite (main_loop_step _ _ _ Q).
  unfold bind, serve, try_except, bind. rewrite P.
  destruct r; reflexivity.
Qed.

(** A [status] command reports the two flags and changes nothing. *)
Lemma process_command_status (line : string) (kv : list (string * pyval))
      (st : State) :
  command_of rt line "status" kv ->
  process_command rt env line st
  = (inr (Some (status_result (stt_warmed_up st) (tts_warmed_up st))), st).
Proof.
  intros [L T]. dispatch_red. rewrite L, T. reflexivity.
Qed.

Lemma transcribe_after_failed_warmup (line : string) (st s1 : State) :
  transcribe_command rt line ->
  stt_warmed_up st = false ->
  warmup_stt rt env st = (inr false, s1) ->
  process_command rt env line st
  = (inr (Some (transcription_result None)), s1).
Proof.
  intros (kv & b64 & bytes & samples & [L T] & A & Tr & D & F) W H.
  dispatch_red. rewrite L, T. cbn [Py.eq_str String.eqb Ascii.eqb Bool.eqb].
  rewrite A, Tr, D, F, W. cbn [negb]. rewrite H. reflexivity.
Qed.

Lemma tts_after_failed_warmup (line : string) (st s1 : State) :
  tts_command rt line ->
  tts_warmed_up st = false ->
  warmup_tts rt env st = (inr false, s1) ->
  process_command rt env line st = (inr (Some tts_failure), s1).
Proof.
  intros (kv & [L T] & X) W H.
  dispatch_red. rewrite L, T. cbn [Py.eq_str String.eqb Ascii.eqb Bool.eqb].
  rewrite W. cbn [negb]. rewrite H. reflexivity.
Qed.

(** C1 (amended). When a [transcribe] or [tts] command triggers a lazy
    warmup and the warmup fails, the command does not go on to its real
    tool invocation: the reply is built right after the failed warmup,
    it carries [success: false], it is printed as the command's one reply
    line, and the loop reads the next line. *)
Theorem failed_lazy_warmup_skips_inference
        (raw : string) (rest : list string) (st s1 : State) (reply : pyval) :
  is_quit (Str.strip raw) = false ->
  lazy_warmup_fails rt env (Str.strip raw) st s1 reply ->
  main_loop rt env (raw :: rest) st
  = main_loop rt env rest (emit (Json reply) s1)
  /\ field "success" reply = Some (PBool false)
  /\ ~ real_invocation_attempted st (emit (Json reply) s1).
Proof.
  intros Q [(C & W & H & ->) | (C & W & H & ->)].
  - split; [|split].
    + apply main_loop_reply; [exact Q|].
      now apply transcribe_after_failed_warmup.
    + reflexivity.
    + intros [i [Hi Ht]]. cbn [emit trace] in Hi.
      rewrite (warmup_stt_invocations _ _ _ H i Hi) in Ht. discriminate.
  - split; [|split].
    + apply main_loop_reply; [exact Q|].
      now apply tts_after_failed_warmup.
    + reflexivity.
    + intros [i [Hi Ht]]. cbn [emit trace] in Hi.
      rewrite (warmup_tts_invocations _ _ _ H i Hi) in Ht. discriminate.
Qed.

(** ** Startup *)

(** The banner and the debug run never raise and leave both flags alone. *)
Lemma preamble_returns (s : State) :
  exists s0,
    preamble rt env s = (inr tt, s0)
    /\ stt_warmed_up s0 = stt_warmed_up s
    /\ tts_warmed_up s0 = tts_warmed_up s.
Proof.
  destruct s as [stt tts repo clk n fs tr out].
  unfold preamble, debug_tts_models. mred.
  repeat mcase; (eexists; split; [reflexivity|]; split; reflexivity).
Qed.

(** C5 (amended). A newly constructed service has both flags false and
    answers [status] with both flags false; the worker started by [main]
    warms both models before it reads a command, so its first [status]
    reply reports for each model what that startup warmup returned. *)
Theorem first_status_reports_startup_warmups
        (raw : string) (rest : list string) (kv : list (string * pyval)) :
  is_quit (Str.strip raw) = false ->
  command_of rt (Str.strip raw) "status" kv ->
  process_command rt env (Str.strip raw) init
  = (inr (Some (status_result false false)), init)
  /\ exists s0 a s1 b s2,
      preamble rt env init = (inr tt, s0)
      /\ warmup_stt rt env s0 = (inr a, s1)
      /\ warmup_tts rt env s1 = (inr b, s2)
      /\ main rt env (raw :: rest) init
         = main_loop rt env rest
             (emit (Json (status_result a b))
                   (emit (Text "Service ready!") s2)).
Proof.
  intros Q C. split.
  - now rewrite (process_command_status _ kv).
  - destruct (preamble_returns init) as (s0 & P & Ps & Pt).
    destruct (warmup_stt_returns s0) as (a & s1 & A & At & As).
    destruct (warmup_tts_returns s1) as (b & s2 & B & Bs & Bt).
    exists s0, a, s1, b, s2. repeat (split; [assumption|]).
    unfold main, startup.
    cbv beta iota zeta delta [bind]. rewrite P, A, B.
    cbv beta iota zeta delta [print modify].
    apply main_loop_reply; [exact Q|].
    rewrite (process_command_status _ kv _ C).
    cbn [emit stt_warmed_up tts_warmed_up].
    rewrite Bs, (As Ps), (Bt (eq_trans At Pt)). reflexivity.
Qed.

(** ** Synthesis commands *)



End ServiceFacts.

(* ===================================================================== *)
(** * The model run on concrete inputs *)
(* ===================================================================== *)

(** The parser on an output that ends with diagnostics and a blank line. *)
Example extract_transcription_example :
  extract_transcription
    "Info: loading model
{'dim': 2048, 'num_heads': 16}
  hello world  
steps: 12, 3.5 token per sec

" = "hello world".
Proof. vm_compute. reflexivity. Qed.

(** C9, at a line that is not JSON. *)
Lemma malformed_line_witness :
  let msg := PStr "Expecting value: line 1 column 1 (char 0)" in
  is_quit (Str.strip "hello") = false
  /\ malformed Reference.runtime (Str.strip "hello")
  /\ exists reply,
      main_loop Reference.runtime env_ok ["hello"] init
      = main_loop Reference.runtime env_ok [] (emit (Json reply) init)
      /\ reply = PDict [("type", PStr "error"); ("error", msg)]
      /\ field "type" reply = Some (PStr "error")
      /\ field "error" reply = Some msg.
Proof.
  intros msg.
  assert (is_quit (Str.strip "hello") = false) as Q by reflexivity.
  assert (malformed Reference.runtime (Str.strip "hello")) as M.
  { left. exists Reference.decode_error. reflexivity. }
  split; [exact Q|]. split; [exact M|].
  exact (malformed_line_answered_and_loop_continues
           Reference.runtime env_ok "hello" [] init Q M).
Defined.

(** C1, as stated, fails: on a cold service whose tool times out, a
    [transcribe] command triggers the warmup, the warmup fails, the reply
    says so, and no real invocation was attempted. *)
Lemma failed_warmup_no_real_invocation :
  let r := process_command Reference.runtime env_timeout transcribe_line
                           init in
  lazy_warmup_fails Reference.runtime env_timeout transcribe_line
                    init (snd r) (transcription_result None)
  /\ fst r = inr (Some (transcription_result None))
  /\ ~ real_invocation_attempted init (snd r).
Proof.
  intros r. split; [|split].
  - left. split; [|split; [|split]].
    + exists [("type", PStr "transcribe"); ("audio_data", PStr "AAA=");
              ("sample_rate", PInt 16000)],
             (PStr "AAA="), [x00; x00], [0%Z].
      repeat split; vm_compute; reflexivity.
    + reflexivity.
    + vm_compute. reflexivity.
    + reflexivity.
  - vm_compute. reflexivity.
  - intros [i [Hi Ht]]. vm_compute in Hi.
    destruct Hi as [<- | []]. discriminate Ht.
Qed.

(** C1 (amended), at the same command. *)
Lemma failed_lazy_warmup_witness :
  let s1 := snd (warmup_stt Reference.runtime env_timeout init) in
  let reply := transcription_result None in
  is_quit (Str.strip transcribe_line) = false
  /\ lazy_warmup_fails Reference.runtime env_timeout
                       (Str.strip transcribe_line) init s1 reply
  /\ (main_loop Reference.runtime env_timeout [transcribe_line] init
      = main_loop Reference.runtime env_timeout [] (emit (Json reply) s1)
      /\ field "success" reply = Some (PBool false)
      /\ ~ real_invocation_attempted init (emit (Json reply) s1)).
Proof.
  intros s1 reply.
  assert (is_quit (Str.strip transcribe_line) = false) as Q
      by (vm_compute; reflexivity).
  assert (lazy_warmup_fails Reference.runtime env_timeout
                            (Str.strip transcribe_line) init s1 reply) as F.
  { left. split; [|split; [|split]].
    - exists [("type", PStr "transcribe"); ("audio_data", PStr "AAA=");
              ("sample_rate", PInt 16000)],
             (PStr "AAA="), [x00; x00], [0%Z].
      repeat split; vm_compute; reflexivity.
    - reflexivity.
    - vm_compute. reflexivity.
    - reflexivity. }
  split; [exact Q|]. split; [exact F|].
  exact (failed_lazy_warmup_skips_inference
           Reference.runtime env_timeout transcribe_line [] init s1 reply
           Q F).
Defined.

(** C5, as stated, fails: when the tools work, the worker started by
    [main] has warmed both models before it reads its first line, and the
    first [status] reply reports both flags true. *)
Lemma first_status_true_after_startup :
  responses (stdout (snd (main Reference.runtime env_ok [status_line] init)))
  = [status_result true true]
  /\ status_result true true <> status_result false false.
Proof.
  split; [vm_compute; reflexivity | discriminate].
Qed.

(** C5 (amended), at that command. *)
Lemma first_status_witness :
  is_quit (Str.strip status_line) = false
  /\ command_of Reference.runtime (Str.strip status_line) "status"
                [("type", PStr "status")]
  /\ (process_command Reference.runtime env_ok (Str.strip status_line) init
      = (inr (Some (status_result false false)), init)
      /\ exists s0 a s1 b s2,
          preamble Reference.runtime env_ok init = (inr tt, s0)
          /\ warmup_stt Reference.runtime env_ok s0 = (inr a, s1)
          /\ warmup_tts Reference.runtime env_ok s1 = (inr b, s2)
          /\ main Reference.runtime env_ok [status_line] init
             = main_loop Reference.runtime env_ok []
                 (emit (Json (status_result a b))
                       (emit (Text "Service ready!") s2))).
Proof.
  assert (is_quit (Str.strip status_line) = false) as Q
      by (vm_compute; reflexivity).
  assert (command_of Reference.runtime (Str.strip status_line) "status"
                     [("type", PStr "status")]) as C
      by (split; vm_compute; reflexivity).
  split; [exact Q|]. split; [exact C|].
  exact (first_status_reports_startup_warmups
           Reference.runtime env_ok status_line [] _ Q C).
Defined.




(** C2: the tool exits with status 1 during the speech-to-text warmup and
    the flag is set all the same; the text-to-speech warmup, run with
    [check=True], leaves its flag false on the same exit status. *)
Theorem warmup_stt_sets_flag_on_failed_tool :
  let r := warmup_stt Reference.runtime env_exit1 init in
  env_run env_exit1 0 = Completed 1 "" "No module named moshi_mlx"
  /\ fst r = inr true
  /\ stt_warmed_up (snd r) = true
  /\ invocations (trace (snd r))
     = [mkInv (stt_argv "kyutai/stt-2.6b-en-mlx" "/tmp/tmp0.wav") 120 false]
  /\ tts_warmed_up (snd (warmup_tts Reference.runtime env_exit1 init))
     = false.
Proof. repeat split; vm_compute; reflexivity. Qed.

(** C3: a [transcribe] command without [audio_data] makes
    [process_command] return [None]; the loop prints it, and the one line
    written for the command is the word [None], not a JSON object. *)
Theorem transcribe_without_audio_prints_None :
  is_quit (Str.strip transcribe_no_audio_line) = false
  /\ json_loads Reference.runtime transcribe_no_audio_line
     = inr (PDict [("type", PStr "transcribe")])
  /\ stdout (snd (main_loop Reference.runtime env_ok
                            [transcribe_no_audio_line] init))
     = [Text "None"; Text "EOF received, shutting down..."]
  /\ ~ is_json_object (Text "None").
Proof.
  repeat split; try (vm_compute; reflexivity).
  intros [kv H]. discriminate H.
Qed.

(** C6: a failed warmup leaves its temporary files behind: the text and
    sound files of the text-to-speech warmup when the tool exits with
    status 1, the sound file of the speech-to-text warmup when the tool
    times out. *)
Theorem failed_warmup_leaves_temporary_files :
  files init = []
  /\ files (snd (process_command Reference.runtime env_exit1
                                 tts_hello_line init))
     = ["/tmp/tmp0.txt"; "/tmp/tmp1.wav"]
  /\ files (snd (process_command Reference.runtime env_timeout
                                 transcribe_line init))
     = ["/tmp/tmp0.wav"].
Proof. repeat split; vm_compute; reflexivity. Qed.


(* ===================================================================== *)
(** * What a computation keeps *)
(* ===================================================================== *)

Section Keeps.

Variable R : State -> State -> Prop.
Hypothesis R_refl : forall s, R s s.
Hypothesis R_trans : forall a b c, R a b -> R b c -> R a c.

Lemma keeps_ret {A} (a : A) : keeps R (ret a).
Proof. intros s. apply R_refl. Qed.

Lemma keeps_raise {A} (e : exn) : keeps R (@raise A e).
Proof. intros s. apply R_refl. Qed.

Lemma keeps_lift {A} (r : exn + A) : keeps R (lift r).
Proof. intros s. apply R_refl. Qed.

Lemma keeps_gets {A} (f : State -> A) : keeps R (gets f).
Proof. intros s. apply R_refl. Qed.

Lemma keeps_modify (f : State -> State) :
  (forall s, R s (f s)) -> keeps R (modify f).
Proof. intros H s. apply H. Qed.

Lemma keeps_bind {A B} (c : M A) (k : A -> M B) :
  keeps R c -> (forall a, keeps R (k a)) -> keeps R (bind c k).
Proof.
  intros Hc Hk s. unfold bind. specialize (Hc s).
  destruct (c s) as [[e|a] s']; cbn [snd] in *; [exact Hc|].
  exact (R_trans _ _ _ Hc (Hk a s')).
Qed.

Lemma keeps_try_except {A} (c : M A) (h : exn -> M A) :
  keeps R c -> (forall e, keeps R (h e)) -> keeps R (try_except c h).
Proof.
  intros Hc Hh s. unfold try_except. specialize (Hc s).
  destruct (c s) as [[e|a] s']; cbn [snd] in *; [|exact Hc].
  exact (R_trans _ _ _ Hc (Hh e s')).
Qed.

Lemma keeps_try_finally {A} (c : M A) (f : M unit) :
  keeps R c -> keeps R f -> keeps R (try_finally c f).
Proof.
  intros Hc Hf s. unfold try_finally. specialize (Hc s).
  destruct (c s) as [r s']. cbn [snd] in Hc. specialize (Hf s').
  destruct (f s') as [[e|u] s'']; cbn [snd] in *;
    exact (R_trans _ _ _ Hc Hf).
Qed.

End Keeps.


Lemma keeps_weaken {A} (R R' : State -> State -> Prop) (c : M A) :
  (forall s s', R s s' -> R' s s') -> keeps R c -> keeps R' c.
Proof. intros H Hc s. apply H, Hc. Qed.

Lemma same_flags_refl (s : State) : same_flags s s.
Proof. split; reflexivity. Qed.

Lemma same_flags_trans (a b c : State) :
  same_flags a b -> same_flags b c -> same_flags a c.
Proof. intros [H1 H2] [H3 H4]. split; congruence. Qed.

Lemma stt_only_refl (s : State) : stt_only s s.
Proof. split; auto. Qed.

Lemma stt_only_trans (a b c : State) :
  stt_only a b -> stt_only b c -> stt_only a c.
Proof. intros [H1 H2] [H3 H4]. split; [congruence | auto]. Qed.

Lemma tts_only_refl (s : State) : tts_only s s.
Proof. split; auto. Qed.

Lemma tts_only_trans (a b c : State) :
  tts_only a b -> tts_only b c -> tts_only a c.
Proof. intros [H1 H2] [H3 H4]. split; [congruence | auto]. Qed.

Lemma flags_grow_refl (s : State) : flags_grow s s.
Proof. split; auto. Qed.

Lemma flags_grow_trans (a b c : State) :
  flags_grow a b -> flags_grow b c -> flags_grow a c.
Proof. intros [H1 H2] [H3 H4]. split; auto. Qed.

Lemma same_flags_stt_only (s s' : State) : same_flags s s' -> stt_only s s'.
Proof. intros [H1 H2]. split; [exact H2 | congruence]. Qed.

Lemma same_flags_tts_only (s s' : State) : same_flags s s' -> tts_only s s'.
Proof. intros [H1 H2]. split; [exact H1 | congruence]. Qed.

Lemma stt_only_grow (s s' : State) : stt_only s s' -> flags_grow s s'.
Proof. intros [H1 H2]. split; [exact H2 | congruence]. Qed.

Lemma tts_only_grow (s s' : State) : tts_only s s' -> flags_grow s s'.
Proof. intros [H1 H2]. split; [congruence | exact H2]. Qed.

(** ** The calls to the outside touch no flag *)

Section Frames.

Variable rt : Runtime.
Variable env : Env.

Lemma print_same (t : string) : keeps same_flags (print t).
Proof. intros s. split; reflexivity. Qed.

Lemma print_json_same (v : pyval) : keeps same_flags (print_json v).
Proof. intros s. split; reflexivity. Qed.

Lemma print_str_same (t : pystr) : keeps same_flags (print_str t).
Proof. intros s. destruct t; split; reflexivity. Qed.

Lemma mktemp_same (suffix : string) : keeps same_flags (mktemp suffix).
Proof. intros s. split; reflexivity. Qed.

Lemma unlink_same (p : string) : keeps same_flags (unlink p).
Proof.
  intros s. unfold unlink. destruct (on_disk p s); split; reflexivity.
Qed.

Lemma path_exists_same (p : string) : keeps same_flags (path_exists p).
Proof. intros s. split; reflexivity. Qed.

Lemma sf_write_same (p : string) (samples : list Z) (rate : pyval) :
  keeps same_flags (sf_write env p samples rate).
Proof.
  intros s. unfold sf_write.
  destruct (env_sf_write env (clock s)); split; reflexivity.
Qed.

Lemma sf_read_same (p : string) : keeps same_flags (sf_read env p).
Proof. intros s. split; reflexivity. Qed.

Lemma tf_write_same (p : string) (text : pyval) :
  keeps same_flags (tf_write p text).
Proof. intros s. destruct text; split; reflexivity. Qed.

Lemma run_same (argv : list string) (timeout : Z) (check : bool) :
  keeps same_flags (run rt env argv timeout check).
Proof.
  intros s. unfold run.
  destruct (env_run env (clock s)) as [code out err | out err | e];
    [destruct (check && negb (code =? 0)%Z) | |]; split; reflexivity.
Qed.

End Frames.

(** Decompose a computation along its binds and handlers, for a relation
    whose reflexivity and transitivity are [Rr] and [Rt]; what is left are
    the calls to the outside. *)
Ltac keeps_walk Rr Rt :=
  repeat first
    [ apply (keeps_bind _ Rt)
    | apply (keeps_try_except _ Rt)
    | apply (keeps_try_finally _ Rt)
    | apply (keeps_ret _ Rr)
    | apply (keeps_raise _ Rr)
    | apply (keeps_lift _ Rr)
    | apply (keeps_gets _ Rr)
    | match goal with
      | |- forall _, _ => intro
      | |- keeps _ (if ?b then _ else _) => destruct b
      | |- keeps _ (match exn_cls ?e with _ => _ end) => destruct (exn_cls e)
      | |- keeps _ (match ?x with _ => _ end) => destruct x
      | |- keeps _ (let _ := _ in _) => cbv zeta
      end ].

Ltac same_prim :=
  first [ apply print_same | apply print_json_same | apply print_str_same
        | apply mktemp_same
        | apply unlink_same | apply path_exists_same | apply sf_write_same
        | apply sf_read_same | apply tf_write_same | apply run_same ].

Section FlagFrames.

Variable rt : Runtime.
Variable env : Env.

Lemma run_stt_same (audio_data : list Z) (sample_rate : pyval) :
  keeps same_flags (run_stt rt env audio_data sample_rate).
Proof.
  unfold run_stt. keeps_walk same_flags_refl same_flags_trans; same_prim.
Qed.

Lemma run_tts_same (text : pyval) : keeps same_flags (run_tts rt env text).
Proof.
  unfold run_tts. keeps_walk same_flags_refl same_flags_trans; same_prim.
Qed.

Lemma debug_tts_models_same : keeps same_flags (debug_tts_models rt env).
Proof.
  unfold debug_tts_models.
  keeps_walk same_flags_refl same_flags_trans; same_prim.
Qed.

End FlagFrames.


Lemma same_flags_grow (s s' : State) : same_flags s s' -> flags_grow s s'.
Proof. intros [H1 H2]. split; congruence. Qed.

(** Close the goals [keeps_walk] leaves: a call to the outside, or the
    assignment of a flag. *)
Ltac keeps_leaf H :=
  first [ apply (keeps_weaken same_flags _ _ H); same_prim
        | apply keeps_modify; intros ?s; split;
          first [ reflexivity | intros _; reflexivity | auto ] ].

Section FlagInvariants.

Variable rt : Runtime.
Variable env : Env.

Lemma warmup_stt_stt_only : keeps stt_only (warmup_stt rt env).
Proof.
  unfold warmup_stt.
  keeps_walk stt_only_refl stt_only_trans; keeps_leaf same_flags_stt_only.
Qed.

Lemma warmup_tts_tts_only : keeps tts_only (warmup_tts rt env).
Proof.
  unfold warmup_tts.
  keeps_walk tts_only_refl tts_only_trans; keeps_leaf same_flags_tts_only.
Qed.

Lemma handle_transcribe_stt_only (command : pyval) :
  keeps stt_only (handle_transcribe rt env command).
Proof.
  unfold handle_transcribe.
  keeps_walk stt_only_refl stt_only_trans; keeps_leaf same_flags_stt_only.
Qed.

Lemma handle_tts_tts_only (command : pyval) :
  keeps tts_only (handle_tts rt env command).
Proof.
  unfold handle_tts.
  keeps_walk tts_only_refl tts_only_trans; keeps_leaf same_flags_tts_only.
Qed.

Lemma process_command_grows (line : string) :
  keeps flags_grow (process_command rt env line).
Proof.
  unfold process_command.
  keeps_walk flags_grow_refl flags_grow_trans; keeps_leaf same_flags_grow.
Qed.

Lemma serve_grows (line : string) : keeps flags_grow (serve rt env line).
Proof.
  unfold serve, print_result.
  keeps_walk flags_grow_refl flags_grow_trans; keeps_leaf same_flags_grow.
Qed.

Lemma main_loop_grows (stdin : list string) :
  keeps flags_grow (main_loop rt env stdin).
Proof.
  induction stdin as [|raw rest IH]; cbn [main_loop].
  - keeps_leaf same_flags_grow.
  - destruct (is_quit (Str.strip raw)).
    + keeps_leaf same_flags_grow.
    + apply (keeps_bind _ flags_grow_trans); [apply serve_grows|].
      intros _. exact IH.
Qed.

End FlagInvariants.


(* ===================================================================== *)
(** * The inference paths on a warmed-up service *)
(* ===================================================================== *)

Lemma without_app_self (p : string) (fs : list string) :
  without p (fs ++ [p]) = without p fs.
Proof.
  unfold without. rewrite filter_app. cbn [filter].
  rewrite String.eqb_refl. cbn [negb]. apply app_nil_r.
Qed.

Lemma on_disk_last (p : string) (fs : list string) :
  existsb (String.eqb p) (fs ++ [p]) = true.
Proof.
  rewrite existsb_app. cbn [existsb]. rewrite String.eqb_refl.
  now rewrite orb_true_r.
Qed.

Lemma without_two (tp op : string) (fs : list string) :
  String.eqb tp op = false ->
  without op (without tp ((fs ++ [tp]) ++ [op])) = without op (without tp fs).
Proof.
  intros D. unfold without. rewrite !filter_app. cbn [filter].
  rewrite String.eqb_refl, D. cbn [negb filter app].
  rewrite String.eqb_refl. cbn [negb]. now rewrite !app_nil_r.
Qed.

Section Inference.

Variable rt : Runtime.
Variable env : Env.

(** [run_stt] when the sound file can be written: one tool call on that
    file, the result read off the tool's answer, the file removed. *)
Lemma run_stt_spec (audio_data : list Z) (sample_rate : pyval) (s : State) :
  env_sf_write env (clock s) = None ->
  let ap := tmp_name (tmp_count s) ".wav" in
  exists s',
    run_stt rt env audio_data sample_rate s
    = (inr (stt_outcome (env_run env (S (clock s)))), s')
    /\ trace s'
       = (trace s
          ++ [EvSfWrite ap audio_data sample_rate;
              EvRun (mkInv (stt_argv (stt_model_repo s) ap) 60 true)])%list
    /\ files s' = without ap (files s)
    /\ same_flags s s'.
Proof.
  destruct s as [stt tts repo clk n fs tr out].
  intros W ap. cbn [clock tmp_count] in *. unfold tmp_name in ap.
  pose proof (on_disk_last ap fs) as D.
  pose proof (without_app_self ap fs) as F. unfold without in F.
  unfold run_stt, stt_outcome. mred. fold ap. rewrite W. mred.
  unfold on_disk. cbn [files].
  repeat (first [rewrite D | mcase]; mred; unfold on_disk; cbn [files]);
    (eexists; split; [reflexivity|];
     cbn [trace files stt_model_repo]; fold ap;
     rewrite <- ?app_assoc; cbn [app];
     split; [reflexivity|]; split; [exact F | split; reflexivity]).
Qed.

(** [run_stt] when the sound file cannot be written: the exception goes
    up, no tool is run, and the file made for the call stays. *)
Lemma run_stt_write_fails (audio_data : list Z) (sample_rate : pyval)
      (s : State) (e : exn) :
  env_sf_write env (clock s) = Some e ->
  run_stt rt env audio_data sample_rate s
  = (inl e,
     tick (set_files (N.succ (tmp_count s))
                     (files s ++ [tmp_name (tmp_count s) ".wav"])%list s)).
Proof.
  destruct s as [stt tts repo clk n fs tr out]. cbn [clock tmp_count].
  intros W. unfold run_stt, tmp_name. mred. rewrite W. reflexivity.
Qed.

(** [run_tts] on a string: the string goes to the text file, one tool
    call is made on it, the result is read off the answers of the tool and
    of [sf.read], and both files are removed. *)
Lemma run_tts_spec (t : string) (s : State) :
  let tp := tmp_name (tmp_count s) ".txt" in
  let op := tmp_name (N.succ (tmp_count s)) ".wav" in
  exists s' tail,
    run_tts rt env (PStr t) s
    = (inr (tts_outcome (env_run env (clock s))
                        (env_sf_read env (S (clock s)))), s')
    /\ trace s'
       = (trace s ++ [EvWriteText tp t;
                      EvRun (mkInv (tts_argv tp op) 60 true)] ++ tail)%list
    /\ invocations tail = []
    /\ files s' = without op (without tp (files s))
    /\ same_flags s s'.
Proof.
  destruct s as [stt tts repo clk n fs tr out].
  intros tp op. cbn [clock tmp_count] in *. unfold tmp_name in tp, op.
  destruct (both_on_disk fs tp op (tmp_names_differ _ _)) as [D1 D2].
  pose proof (without_two tp op fs (tmp_names_differ _ _)) as F.
  unfold without in F.
  unfold run_tts, preview, tts_outcome. mred. fold tp op.
  unfold on_disk. cbn [files].
  repeat (first [rewrite D1 | rewrite D2 | mcase];
          mred; unfold on_disk; cbn [files]);
    try discriminate;
    repeat match goal with
           | H : inr _ = inr _ |- _ => injection H as H; subst
           end;
    (eexists _, _; split; [reflexivity|]; cbn [trace files];
     split; [rewrite <- ?app_assoc; cbn [app]; reflexivity|];
     split; [reflexivity|];
     split; [exact F | split; reflexivity]).
Qed.

(** [run_tts] on a value without [__getitem__]: the f-string raises before
    anything is done. *)
Lemma run_tts_scalar (text : pyval) (s : State) :
  scalar text = true ->
  run_tts rt env text s
  = (inl (Error ("'" ++ Py.type_name text
                     ++ "' object is not subscriptable")), s).
Proof.
  intros H. unfold run_tts, preview.
  destruct text; try discriminate H; reflexivity.
Qed.

(** [run_tts] on a list: [tf.write] raises after the text file was made,
    and the file stays. *)
Lemma run_tts_list (l : list pyval) (s : State) :
  run_tts rt env (PList l) s
  = (inl (Error "write() argument must be str, not list"),
     set_files (N.succ (tmp_count s))
               (files s ++ [tmp_name (tmp_count s) ".txt"])%list
               (emit (Text ("Generating TTS for text: '"
                            ++ (py_repr rt (PList (firstn 50 l))
                                ++ (if (50 <? List.length l)%nat
                                    then "..." else ""))
                            ++ "'")) s)).
Proof.
  destruct s as [stt tts repo clk n fs tr out].
  unfold run_tts, preview, tmp_name. reflexivity.
Qed.




End Inference.


(* ===================================================================== *)
(** * Commands on the dispatcher *)
(* ===================================================================== *)

Section Commands.

Variable rt : Runtime.
Variable env : Env.

(** How [process_command] handles a [transcribe] command with audio. *)
Lemma process_transcribe (line : string) (audio_b64 rate : pyval)
      (st : State) :
  transcribe_with rt line audio_b64 rate ->
  process_command rt env line st
  = match decode_audio audio_b64 with
    | inl e => (inr (Some (error_result (exn_msg e))), st)
    | inr samples =>
        match transcribe_audio rt env samples rate st with
        | (inr t, s') => (inr (Some (transcription_result t)), s')
        | (inl e, s') => (inr (Some (error_result (exn_msg e))), s')
        end
    end.
Proof.
  intros (kv & [L T] & A & Tr & ->).
  cbv beta iota zeta delta
      [process_command handle_transcribe bind ret lift try_except Py.get
       decode_audio].
  rewrite L, T. cbn [Py.eq_str String.eqb Ascii.eqb Bool.eqb].
  rewrite A, Tr.
  destruct (b64decode_val audio_b64) as [e|bytes]; [reflexivity|].
  destruct (Pcm16.frombuffer bytes) as [e|samples]; [reflexivity|].
  destruct (transcribe_audio rt env samples _ st) as [[e|t] s'];
    reflexivity.
Qed.

(** How [process_command] handles a [tts] command with a [text]. *)
Lemma process_tts (line : string) (text : pyval) (st : State) :
  tts_with rt line text ->
  process_command rt env line st
  = match text_to_speech rt env text st with
    | (inr a, s') => (inr (Some (tts_reply a)), s')
    | (inl e, s') => (inr (Some (error_result (exn_msg e))), s')
    end.
Proof.
  intros (kv & [L T] & X).
  cbv beta iota zeta delta
      [process_command handle_tts bind ret lift try_except Py.get].
  rewrite L, T. cbn [Py.eq_str String.eqb Ascii.eqb Bool.eqb].
  rewrite X.
  destruct (text_to_speech rt env text st) as [[e|a] s']; reflexivity.
Qed.

Lemma transcribe_audio_warm (samples : list Z) (rate : pyval) (st : State) :
  stt_warmed_up st = true ->
  transcribe_audio rt env samples rate st = run_stt rt env samples rate st.
Proof.
  intros W. cbv beta iota zeta delta [transcribe_audio bind gets ret].
  rewrite W. reflexivity.
Qed.

Lemma text_to_speech_warm (text : pyval) (st : State) :
  tts_warmed_up st = true ->
  text_to_speech rt env text st = run_tts rt env text st.
Proof.
  intros W. cbv beta iota zeta delta [text_to_speech bind gets ret].
  rewrite W. reflexivity.
Qed.

(** A [transcribe] command on a warmed-up service whose sound file can be
    written. *)
Lemma warm_transcribe_spec (line : string) (audio_b64 rate : pyval)
      (samples : list Z) (st : State) :
  transcribe_with rt line audio_b64 rate ->
  decode_audio audio_b64 = inr samples ->
  stt_warmed_up st = true ->
  env_sf_write env (clock st) = None ->
  let ap := tmp_name (tmp_count st) ".wav" in
  exists s',
    process_command rt env line st
    = (inr (Some (transcription_result
                    (stt_outcome (env_run env (S (clock st)))))), s')
    /\ trace s'
       = (trace st
          ++ [EvSfWrite ap samples rate;
              EvRun (mkInv (stt_argv (stt_model_repo st) ap) 60 true)])%list
    /\ files s' = without ap (files st)
    /\ same_flags st s'.
Proof.
  intros C D W F ap.
  destruct (run_stt_spec rt env samples rate st F) as (s' & R & H).
  exists s'. split; [|exact H].
  rewrite (process_transcribe _ _ _ _ C), D, (transcribe_audio_warm _ _ _ W).
  rewrite R. reflexivity.
Qed.

(** A [tts] command with a string on a warmed-up service. *)
Lemma warm_tts_spec (line t : string) (st : State) :
  tts_with rt line (PStr t) ->
  tts_warmed_up st = true ->
  let tp := tmp_name (tmp_count st) ".txt" in
  let op := tmp_name (N.succ (tmp_count st)) ".wav" in
  exists s' tail,
    process_command rt env line st
    = (inr (Some (tts_reply
                    (tts_outcome (env_run env (clock st))
                                 (env_sf_read env (S (clock st)))))), s')
    /\ trace s'
       = (trace st ++ [EvWriteText tp t;
                       EvRun (mkInv (tts_argv tp op) 60 true)] ++ tail)%list
    /\ invocations tail = []
    /\ files s' = without op (without tp (files st))
    /\ same_flags st s'.
Proof.
  intros C W tp op.
  destruct (run_tts_spec rt env t st) as (s' & tail & R & H).
  exists s', tail. split; [|exact H].
  rewrite (process_tts _ _ _ C), (text_to_speech_warm _ _ W), R.
  reflexivity.
Qed.

End Commands.


Lemma existsb_without (p : string) (fs : list string) :
  existsb (String.eqb p) (without p fs) = false.
Proof.
  unfold without. induction fs as [|q fs IH]; [reflexivity|].
  cbn [filter]. destruct (String.eqb p q) eqn:E; cbn [negb]; [exact IH|].
  cbn [existsb]. now rewrite E, IH.
Qed.

Section CommandProperties.

Variable rt : Runtime.
Variable env : Env.

(** X3: On a warmed-up service, a [transcribe] command whose audio file can
    be written is answered with a [transcription_result] whose [success]
    is true exactly when the tool exits with status 0, and whose [text] is
    then the transcript parsed from the tool's output, else null. *)
Theorem warm_transcribe_reply
        (line : string) (audio_b64 rate : pyval) (samples : list Z)
        (st : State) :
  transcribe_with rt line audio_b64 rate ->
  decode_audio audio_b64 = inr samples ->
  stt_warmed_up st = true ->
  env_sf_write env (clock st) = None ->
  let o := env_run env (S (clock st)) in
  exists reply s',
    process_command rt env line st = (inr (Some reply), s')
    /\ field "type" reply = Some (PStr "transcription_result")
    /\ field "success" reply = Some (PBool (exits_ok o))
    /\ field "text" reply
       = Some (match o with
               | Completed code out _ =>
                   if (code =? 0)%Z then PStr (extract_transcription out)
                   else PNone
               | _ => PNone
               end).
Proof.
  intros C D W F o.
  destruct (warm_transcribe_spec rt env _ _ _ _ _ C D W F) as (s' & P & _).
  exists (transcription_result (stt_outcome o)), s'.
  split; [exact P|]. split; [reflexivity|].
  unfold stt_outcome, exits_ok.
  destruct o as [code out err | out err | e];
    [destruct (code =? 0)%Z | |]; split; reflexivity.
Qed.

(** X4: Such a command makes exactly one tool call: the transcription tool
    on the file the decoded samples were written to, at the command's
    [sample_rate] (16000 when it names none), with the 60-second timeout;
    the flags stay as they were. *)
Theorem warm_transcribe_effects
        (line : string) (audio_b64 rate : pyval) (samples : list Z)
        (st : State) :
  transcribe_with rt line audio_b64 rate ->
  decode_audio audio_b64 = inr samples ->
  stt_warmed_up st = true ->
  env_sf_write env (clock st) = None ->
  let ap := tmp_name (tmp_count st) ".wav" in
  let s' := snd (process_command rt env line st) in
  trace s'
  = (trace st
     ++ [EvSfWrite ap samples rate;
         EvRun (mkInv (stt_argv (stt_model_repo st) ap) 60 true)])%list
  /\ same_flags st s'.
Proof.
  intros C D W F ap s'.
  destruct (warm_transcribe_spec rt env _ _ _ _ _ C D W F)
    as (s1 & P & T & _ & G).
  unfold s'. rewrite P. cbn [snd]. split; assumption.
Qed.

(** X5: Such a command leaves no temporary file: afterwards the sound file
    it made is gone, whatever the tool did, and no other file was touched. *)
Theorem warm_transcribe_cleanup
        (line : string) (audio_b64 rate : pyval) (samples : list Z)
        (st : State) :
  transcribe_with rt line audio_b64 rate ->
  decode_audio audio_b64 = inr samples ->
  stt_warmed_up st = true ->
  env_sf_write env (clock st) = None ->
  let ap := tmp_name (tmp_count st) ".wav" in
  let s' := snd (process_command rt env line st) in
  files s' = without ap (files st) /\ on_disk ap s' = false.
Proof.
  intros C D W F ap s'.
  destruct (warm_transcribe_spec rt env _ _ _ _ _ C D W F)
    as (s1 & P & _ & G & _).
  unfold s'. rewrite P. cbn [snd]. split; [exact G|].
  unfold on_disk. rewrite G. apply existsb_without.
Qed.

(** X6: When writing the sound file fails (an unusable [sample_rate], a
    full disk), the command is answered with an [error] reply carrying the
    exception's message, no tool is run, and the temporary file made for
    the call stays on disk. *)
Theorem transcribe_write_failure_leaves_file
        (line : string) (audio_b64 rate : pyval) (samples : list Z)
        (st : State) (e : exn) :
  transcribe_with rt line audio_b64 rate ->
  decode_audio audio_b64 = inr samples ->
  stt_warmed_up st = true ->
  env_sf_write env (clock st) = Some e ->
  exists s',
    process_command rt env line st
    = (inr (Some (error_result (exn_msg e))), s')
    /\ files s' = (files st ++ [tmp_name (tmp_count st) ".wav"])%list
    /\ trace s' = trace st.
Proof.
  intros C D W F.
  eexists. split; [|split].
  - rewrite (process_transcribe rt env _ _ _ _ C), D.
    rewrite (transcribe_audio_warm rt env _ _ _ W).
    rewrite (run_stt_write_fails rt env _ _ _ _ F). reflexivity.
  - reflexivity.
  - reflexivity.
Qed.

(** X7: A [transcribe] command whose [audio_data] does not decode (it is
    not a string, is not base64, or holds an odd number of bytes) is
    answered with an [error] reply carrying the decoder's message, and
    nothing else happens: no warmup, no file, no tool call. *)
Theorem undecodable_audio_rejected
        (line : string) (audio_b64 rate : pyval) (st : State) (e : exn) :
  transcribe_with rt line audio_b64 rate ->
  decode_audio audio_b64 = inl e ->
  process_command rt env line st
  = (inr (Some (error_result (exn_msg e))), st).
Proof.
  intros C D. now rewrite (process_transcribe rt env _ _ _ _ C), D.
Qed.

(** X8: A line that decodes to JSON other than an object is answered with
    an [error] reply saying the value has no [get], and nothing else
    happens. *)
Theorem non_object_json_rejected (line : string) (v : pyval) (st : State) :
  json_loads rt line = inr v ->
  (forall kv, v <> PDict kv) ->
  process_command rt env line st
  = (inr (Some (error_result ("'" ++ Py.type_name v
                                  ++ "' object has no attribute 'get'"))),
     st).
Proof.
  intros L N.
  cbv beta iota zeta delta [process_command bind lift try_except].
  rewrite L. destruct v; try reflexivity. now destruct (N kv).
Qed.

End CommandProperties.


Section SynthesisProperties.

Variable rt : Runtime.
Variable env : Env.

(** X9: On a warmed-up service a [tts] command whose text is a string
    without a surrogate ([PStr]: a text that standard output and the text
    file can encode) is answered
    with [success: true] exactly when the tool exits with status 0 and its
    sound file can be read; the [audio_data] of that reply then decodes,
    by base64 and PCM16 unpacking as the client does it, to exactly the
    samples that were read. *)
Theorem warm_tts_reply_decodes (line t : string) (st : State) :
  tts_with rt line (PStr t) ->
  tts_warmed_up st = true ->
  let o := tts_outcome (env_run env (clock st))
                       (env_sf_read env (S (clock st))) in
  exists reply s',
    process_command rt env line st = (inr (Some reply), s')
    /\ field "type" reply = Some (PStr "tts_result")
    /\ match o with
       | Some samples =>
           field "success" reply = Some (PBool true)
           /\ exists audio,
               field "audio_data" reply = Some (PStr audio)
               /\ (Forall Pcm16.int16 samples ->
                   decode_audio (PStr audio) = inr samples)
       | None => reply = tts_failure
       end.
Proof.
  intros C W o.
  destruct (warm_tts_spec rt env _ _ _ C W) as (s' & tail & P & _).
  exists (tts_reply o), s'. split; [exact P|].
  destruct o as [samples|]; (split; [reflexivity|]); [|reflexivity].
  split; [reflexivity|].
  exists (Base64.b64encode (Pcm16.tobytes samples)).
  split; [reflexivity|]. intros H.
  unfold decode_audio, b64decode_val.
  rewrite b64decode_b64encode. now apply frombuffer_tobytes.
Qed.

(** X10: Such a command, its text a string without a surrogate, makes
    exactly one tool call, on the text file that
    holds the command's text, and leaves no temporary file: both files it
    made are gone afterwards, whatever the tool did, and no other file and
    no flag was touched. *)
Theorem warm_tts_effects (line t : string) (st : State) :
  tts_with rt line (PStr t) ->
  tts_warmed_up st = true ->
  let tp := tmp_name (tmp_count st) ".txt" in
  let op := tmp_name (N.succ (tmp_count st)) ".wav" in
  let s' := snd (process_command rt env line st) in
  In (EvWriteText tp t) (trace s')
  /\ invocations (skipn (List.length (trace st)) (trace s'))
     = [mkInv (tts_argv tp op) 60 true]
  /\ files s' = without op (without tp (files st))
  /\ same_flags st s'.
Proof.
  intros C W tp op s'.
  destruct (warm_tts_spec rt env _ _ _ C W)
    as (s1 & tail & P & T & I & F & G).
  unfold s'. rewrite P. cbn [snd]. fold tp op in T, F.
  split; [|split; [|split; assumption]].
  - rewrite T. apply in_or_app. right. left. reflexivity.
  - rewrite T, skipn_length_app. cbn [app invocations]. now rewrite I.
Qed.

(** X11: A [tts] command whose [text] is null, a boolean or a number is
    answered, on a warmed-up service, with an [error] reply saying the
    value is not subscriptable, and nothing else happens. *)
Theorem tts_scalar_text_rejected (line : string) (text : pyval) (st : State) :
  tts_with rt line text ->
  scalar text = true ->
  tts_warmed_up st = true ->
  process_command rt env line st
  = (inr (Some (error_result ("'" ++ Py.type_name text
                                  ++ "' object is not subscriptable"))),
     st).
Proof.
  intros C S W.
  rewrite (process_tts rt env _ _ _ C), (text_to_speech_warm rt env _ _ W).
  now rewrite (run_tts_scalar rt env _ _ S).
Qed.

(** X12: A [tts] command whose [text] is a JSON array is answered, on a
    warmed-up service, with an [error] reply from [tf.write]; no tool is
    run, and the text file made for the call stays on disk. *)
Theorem tts_list_text_leaves_file
        (line : string) (l : list pyval) (st : State) :
  tts_with rt line (PList l) ->
  tts_warmed_up st = true ->
  exists s',
    process_command rt env line st
    = (inr (Some (error_result "write() argument must be str, not list")),
       s')
    /\ files s' = (files st ++ [tmp_name (tmp_count st) ".txt"])%list
    /\ trace s' = trace st.
Proof.
  intros C W. eexists. split; [|split].
  - rewrite (process_tts rt env _ _ _ C).
    rewrite (text_to_speech_warm rt env _ _ W).
    rewrite (run_tts_list rt env). reflexivity.
  - reflexivity.
  - reflexivity.
Qed.


End SynthesisProperties.


(* ===================================================================== *)
(** * Warmup, startup and the loop *)
(* ===================================================================== *)

Section WarmupProperties.

Variable rt : Runtime.
Variable env : Env.

(** The text-to-speech warmup on a cold model, in full. *)
Lemma warmup_tts_spec (s : State) :
  tts_warmed_up s = false ->
  let tp := tmp_name (tmp_count s) ".txt" in
  let op := tmp_name (N.succ (tmp_count s)) ".wav" in
  let ok := exits_ok (env_run env (clock s)) in
  exists s',
    warmup_tts rt env s = (inr ok, s')
    /\ tts_warmed_up s' = ok
    /\ stt_warmed_up s' = stt_warmed_up s
    /\ clock s' = S (clock s)
    /\ tmp_count s' = N.succ (N.succ (tmp_count s))
    /\ trace s'
       = (trace s ++ [EvWriteText tp "Hello";
                      EvRun (mkInv (tts_argv tp op) 120 true)])%list
    /\ (ok = true -> files s' = without op (without tp (files s))).
Proof.
  destruct s as [stt tts repo clk n fs tr out].
  intros W tp op ok. cbn [clock tmp_count tts_warmed_up] in *. subst tts.
  unfold tmp_name in tp, op.
  destruct (both_on_disk fs tp op (tmp_names_differ _ _)) as [D1 D2].
  pose proof (without_two tp op fs (tmp_names_differ _ _)) as F.
  unfold without in F.
  unfold ok, exits_ok, warmup_tts. mred. fold tp op.
  unfold on_disk. cbn [files].
  repeat (first [rewrite D1 | rewrite D2 | mcase];
          mred; unfold on_disk; cbn [files]);
    try discriminate;
    (eexists; split; [reflexivity|];
     cbn [trace files tts_warmed_up stt_warmed_up clock tmp_count];
     repeat (split; [reflexivity|]);
     split; [rewrite <- ?app_assoc; cbn [app]; reflexivity|];
     first [ intros _; exact F | intros; discriminate ]).
Qed.

(** X13: The text-to-speech warmup of a cold model sets the flag exactly
    when the tool exits with status 0, returns that same truth value, and
    never touches the other model's flag. *)
Theorem warmup_tts_flag_iff_exit_zero (s : State) :
  tts_warmed_up s = false ->
  exists s',
    warmup_tts rt env s = (inr (tts_warmed_up s'), s')
    /\ (tts_warmed_up s' = true
        <-> exists out err, env_run env (clock s) = Completed 0 out err)
    /\ stt_warmed_up s' = stt_warmed_up s.
Proof.
  intros W. destruct (warmup_tts_spec s W) as (s' & P & T & S' & _).
  exists s'. rewrite T. split; [exact P|]. split; [|exact S'].
  unfold exits_ok.
  destruct (env_run env (clock s)) as [code out err | out err | e].
  - split.
    + intros H. apply Z.eqb_eq in H. subst code. eauto.
    + intros (out' & err' & H). injection H as -> _ _. reflexivity.
  - split; [discriminate | intros (? & ? & H); discriminate H].
  - split; [discriminate | intros (? & ? & H); discriminate H].
Qed.

(** X14: Neither warmup ever raises, and each returns the value of the flag
    it leaves: [True] exactly when the model is warmed up afterwards. *)
Theorem warmup_returns_its_flag (s : State) :
  (exists s', warmup_stt rt env s = (inr (stt_warmed_up s'), s'))
  /\ (exists s', warmup_tts rt env s = (inr (tts_warmed_up s'), s')).
Proof.
  split.
  - destruct (stt_warmed_up s) eqn:W.
    + exists s. cbv beta iota zeta delta [warmup_stt bind gets ret].
      rewrite W. reflexivity.
    + destruct (warmup_stt_returns rt env s) as (b & s' & P & _ & F).
      exists s'. now rewrite (F W).
  - destruct (tts_warmed_up s) eqn:W.
    + exists s. cbv beta iota zeta delta [warmup_tts bind gets ret].
      rewrite W. reflexivity.
    + destruct (warmup_tts_returns rt env s) as (b & s' & P & _ & F).
      exists s'. now rewrite (F W).
Qed.

(** X15: The first [tts] command on a cold service whose warmup run exits
    with status 0, when its text is a string without a surrogate ([PStr]):
    the warmup and the synthesis are two tool calls, with
    the 120-second and the 60-second timeout, on two different pairs of
    files; afterwards the text-to-speech flag is true, the speech-to-text
    flag is what it was, and the reply is built from the second run. *)
Theorem cold_tts_warms_then_synthesizes (line t : string) (st : State) :
  tts_with rt line (PStr t) ->
  tts_warmed_up st = false ->
  exits_ok (env_run env (clock st)) = true ->
  let n := tmp_count st in
  let o := tts_outcome (env_run env (S (clock st)))
                       (env_sf_read env (S (S (clock st)))) in
  exists s',
    process_command rt env line st = (inr (Some (tts_reply o)), s')
    /\ tts_warmed_up s' = true
    /\ stt_warmed_up s' = stt_warmed_up st
    /\ invocations (skipn (List.length (trace st)) (trace s'))
       = [mkInv (tts_argv (tmp_name n ".txt")
                          (tmp_name (N.succ n) ".wav")) 120 true;
          mkInv (tts_argv (tmp_name (N.succ (N.succ n)) ".txt")
                          (tmp_name (N.succ (N.succ (N.succ n))) ".wav"))
                60 true].
Proof.
  intros C W K n o.
  destruct (warmup_tts_spec st W) as (s1 & P & T1 & S1 & C1 & N1 & Tr1 & _).
  rewrite K in P, T1.
  destruct (run_tts_spec rt env t s1) as (s2 & tail & R & Tr2 & I & _ & G).
  rewrite C1 in R. rewrite N1 in Tr2. fold n in Tr1, Tr2.
  exists s2. split; [|split; [|split]].
  - rewrite (process_tts rt env _ _ _ C).
    cbv beta iota zeta delta [text_to_speech bind gets ret].
    rewrite W. cbn [negb]. rewrite P. cbn [negb]. rewrite R. reflexivity.
  - destruct G as [_ G]. now rewrite G.
  - destruct G as [G _]. now rewrite G.
  - rewrite Tr2, Tr1. rewrite <- !app_assoc. rewrite skipn_length_app.
    cbn [app invocations]. now rewrite I.
Qed.

(** The debug run never raises, keeps the flags, and removes its two files
    whenever the tool run returns. *)
Lemma debug_tts_models_spec (s : State) :
  let tp := tmp_name (tmp_count s) ".txt" in
  let op := tmp_name (N.succ (tmp_count s)) ".wav" in
  exists s',
    debug_tts_models rt env s = (inr tt, s')
    /\ same_flags s s'
    /\ (forall code out err,
           env_run env (clock s) = Completed code out err ->
           files s' = without op (without tp (files s))).
Proof.
  destruct s as [stt tts repo clk n fs tr out].
  intros tp op. cbn [clock tmp_count] in *. unfold tmp_name in tp, op.
  destruct (both_on_disk fs tp op (tmp_names_differ _ _)) as [D1 D2].
  pose proof (on_disk_last op (fs ++ [tp])) as D3.
  pose proof (without_two tp op fs (tmp_names_differ _ _)) as F.
  unfold without in F.
  unfold debug_tts_models. mred. fold tp op.
  unfold on_disk. cbn [files].
  repeat (first [rewrite D1 | rewrite D2 | rewrite D3 | mcase];
          mred; unfold on_disk; cbn [files]);
    (eexists; split; [reflexivity|]; split; [split; reflexivity|];
     cbn [files]; intros code' out' err' H;
     first [ exact F | discriminate H ]).
Qed.

(** X16: [debug_tts_models] never raises and never touches a flag; when its
    tool run returns, with whatever exit status, the two files it made are
    gone afterwards. *)
Theorem debug_tts_models_is_harmless (s : State) :
  exists s',
    debug_tts_models rt env s = (inr tt, s')
    /\ same_flags s s'
    /\ (forall code out err,
           env_run env (clock s) = Completed code out err ->
           files s'
           = without (tmp_name (N.succ (tmp_count s)) ".wav")
                     (without (tmp_name (tmp_count s) ".txt") (files s))).
Proof. exact (debug_tts_models_spec s). Qed.

End WarmupProperties.


Section LoopProperties.

Variable rt : Runtime.
Variable env : Env.

Lemma serve_returns (line : string) (st : State) :
  exists s', serve rt env line st = (inr tt, s').
Proof.
  destruct (process_command_returns rt env line st) as (r & s' & P).
  unfold serve, try_except, bind. rewrite P.
  destruct r; eexists; reflexivity.
Qed.

Lemma main_loop_returns (stdin : list string) :
  forall st, exists s', main_loop rt env stdin st = (inr tt, s').
Proof.
  induction stdin as [|raw rest IH]; intros st; cbn [main_loop].
  - eexists. reflexivity.
  - destruct (is_quit (Str.strip raw)); [eexists; reflexivity|].
    destruct (serve_returns (Str.strip raw) st) as (s1 & S1).
    unfold bind. rewrite S1. apply IH.
Qed.

(** Startup never raises and ends by printing the ready marker. *)
Lemma startup_returns (st : State) :
  exists s2, startup rt env st = (inr tt, emit (Text "Service ready!") s2).
Proof.
  destruct (preamble_returns rt env st) as (s0 & P & _).
  destruct (warmup_stt_returns rt env s0) as (a & s1 & A & _).
  destruct (warmup_tts_returns rt env s1) as (b & s2 & B & _).
  exists s2. unfold startup.
  cbv beta iota zeta delta [bind]. rewrite P, A, B. reflexivity.
Qed.

(** X17: Whatever the external tools do during the debug run and the two
    warmups, startup raises nothing and the last thing it prints is the
    line [Service ready!] that the client waits for. *)
Theorem startup_always_prints_ready (st : State) :
  exists s' out,
    startup rt env st = (inr tt, s')
    /\ stdout s' = (out ++ [Text "Service ready!"])%list.
Proof.
  destruct (startup_returns st) as (s2 & H).
  exists (emit (Text "Service ready!") s2), (stdout s2).
  split; [exact H | reflexivity].
Qed.

(** X18: The worker never crashes: for every sequence of input lines and
    every behaviour of the external tools, [main] ends normally, at [quit]
    or at the end of input, with no exception escaping. *)
Theorem main_never_raises (stdin : list string) (st : State) :
  exists s', main rt env stdin st = (inr tt, s').
Proof.
  destruct (startup_returns st) as (s2 & H).
  unfold main, bind. rewrite H. apply main_loop_returns.
Qed.

(** X19: A flag that is true stays true: from any state, after any sequence
    of input lines and whatever the tools do, a model that was warmed up
    when the loop started is warmed up when it ends. *)
Theorem warmed_up_stays_warmed_up (stdin : list string) (st : State) :
  let s' := snd (main_loop rt env stdin st) in
  (stt_warmed_up st = true -> stt_warmed_up s' = true)
  /\ (tts_warmed_up st = true -> tts_warmed_up s' = true).
Proof. exact (main_loop_grows rt env stdin st). Qed.

(** X20: The two models are independent: a [tts] command never changes the
    speech-to-text flag and a [transcribe] command never changes the
    text-to-speech flag, whatever the command holds and whatever the tools
    do. *)
Theorem command_leaves_other_flag
        (line ty : string) (kv : list (string * pyval)) (st : State) :
  command_of rt line ty kv ->
  let s' := snd (process_command rt env line st) in
  (ty = "tts" -> stt_warmed_up s' = stt_warmed_up st)
  /\ (ty = "transcribe" -> tts_warmed_up s' = tts_warmed_up st).
Proof.
  intros [L T] s'. unfold s'. split; intros ->.
  - pose proof (handle_tts_tts_only rt env (PDict kv) st) as [H _].
    cbv beta iota zeta delta [process_command bind lift try_except Py.get].
    rewrite L, T. cbn [Py.eq_str String.eqb Ascii.eqb Bool.eqb].
    destruct (handle_tts rt env (PDict kv) st) as [[e|r] s1];
      cbn [snd] in *; exact H.
  - pose proof (handle_transcribe_stt_only rt env (PDict kv) st) as [H _].
    cbv beta iota zeta delta [process_command bind lift try_except Py.get].
    rewrite L, T. cbn [Py.eq_str String.eqb Ascii.eqb Bool.eqb].
    destruct (handle_transcribe rt env (PDict kv) st) as [[e|r] s1];
      cbn [snd] in *; exact H.
Qed.

End LoopProperties.

(* ===================================================================== *)
(** * More on the transcript parser *)
(* ===================================================================== *)

Lemma find_last_app {A} (f : A -> bool) (l : list A) (x : A) :
  f x = true -> find f (rev (l ++ [x])) = Some x.
Proof.
  intros H. rewrite rev_app_distr. cbn [rev app find]. now rewrite H.
Qed.

(** X21: What the parser returns is never a diagnostic line: it is either the
    empty string, or one of the output's lines, stripped, that is not
    empty, starts with neither [Info:] nor a brace and holds none of the
    metadata keywords.  When the last line qualifies it is the one
    returned. *)
Theorem transcript_is_a_clean_line (out : string) :
  let lines := map Str.strip (Str.split Str.nl (Str.strip out)) in
  let t := extract_transcription out in
  (t = ""
   \/ (In t lines /\ diagnostic t = false /\ Str.nonempty t = true))
  /\ (forall pre l,
         lines = (pre ++ [l])%list ->
         diagnostic l = false -> Str.nonempty l = true -> t = l).
Proof.
  intros lines t. unfold t, extract_transcription.
  rewrite scan_lines_find, map_rev. fold lines. split.
  - destruct (find _ (rev lines)) as [l|] eqn:F; [right | left; reflexivity].
    apply find_some in F. destruct F as [I P].
    apply andb_prop in P. destruct P as [P1 P2].
    apply negb_true_iff in P1. apply in_rev in I. auto.
  - intros pre l E D N. rewrite E, find_last_app; [reflexivity|].
    now rewrite D, N.
Qed.


(** ** The callers' chunking loops *)

Section Chunks.

Context {A : Type}.
Variable s : nat.
Hypothesis s_pos : 0 < s.
Variable l : list A.

Local Abbreviation chunk := (chunk_at s l).

Lemma firstn_add_skipn (n m : nat) (x : list A) :
  firstn (n + m) x = (firstn n x ++ firstn m (skipn n x))%list.
Proof.
  revert x. induction n as [|n IH]; intros x; [reflexivity|].
  destruct x as [|a x]; cbn [plus firstn skipn app].
  - now rewrite firstn_nil.
  - now rewrite IH.
Qed.

Lemma concat_chunks_from (c a : nat) :
  List.concat (map chunk (seq a c)) = firstn (c * s) (skipn (a * s) l).
Proof.
  revert a. induction c as [|c IH]; intros a; [reflexivity|].
  cbn [seq map List.concat]. rewrite IH. unfold chunk_at.
  change (S c * s) with (s + c * s).
  rewrite firstn_add_skipn, skipn_skipn.
  change (S a * s) with (s + a * s). reflexivity.
Qed.

Lemma chunks_as_map :
  chunks s l = map chunk (seq 0 ((List.length l + s - 1) / s)).
Proof. unfold chunks, range0. now rewrite map_map. Qed.

Lemma chunk_count_covers :
  List.length l <= (List.length l + s - 1) / s * s
  /\ ((List.length l + s - 1) / s - 1) * s < List.length l + s
  /\ (0 < List.length l -> ((List.length l + s - 1) / s - 1) * s
                           < List.length l).
Proof.
  pose proof (Nat.div_mod_eq (List.length l + s - 1) s) as E.
  pose proof (Nat.mod_upper_bound (List.length l + s - 1) s) as U.
  set (q := (List.length l + s - 1) / s) in *.
  set (r := (List.length l + s - 1) mod s) in *.
  assert (r < s) by (apply U; lia). nia.
Qed.

Lemma length_chunk (k : nat) :
  List.length (chunk k) = Nat.min s (List.length l - k * s).
Proof. unfold chunk_at. now rewrite length_firstn, length_skipn. Qed.

Lemma filter_map_comm {B C} (f : B -> C) (p : C -> bool) (x : list B) :
  filter p (map f x) = map f (filter (fun b => p (f b)) x).
Proof.
  induction x as [|b x IH]; [reflexivity|]. cbn [map filter].
  destruct (p (f b)); cbn [map]; now rewrite IH.
Qed.

Lemma filter_nothing {B} (p : B -> bool) (x : list B) :
  (forall b, In b x -> p b = false) -> filter p x = [].
Proof.
  induction x as [|b x IH]; intros H; [reflexivity|]. cbn [filter].
  rewrite (H b (or_introl eq_refl)). apply IH. intros b' Hb.
  apply H. now right.
Qed.

Lemma filter_below_seq (d c a : nat) :
  d <= c -> filter (fun k => Nat.ltb k (a + d)) (seq a c) = seq a d.
Proof.
  revert d a. induction c as [|c IH]; intros d a H.
  - now replace d with 0 by lia.
  - destruct d as [|d].
    + apply filter_nothing. intros k Hk. apply in_seq in Hk.
      apply Nat.ltb_ge. lia.
    + cbn [seq filter].
      replace (Nat.ltb a (a + S d)) with true by (symmetry; apply Nat.ltb_lt; lia).
      f_equal. replace (a + S d) with (S a + d) by lia. apply IH. lia.
Qed.

Lemma chunk_full_iff (k : nat) :
  Nat.eqb (List.length (chunk k)) s = Nat.ltb k (0 + List.length l / s).
Proof.
  rewrite length_chunk.
  pose proof (Nat.div_mod_eq (List.length l) s) as E.
  pose proof (Nat.mod_upper_bound (List.length l) s ltac:(lia)) as U.
  set (d := List.length l / s) in *.
  set (r := List.length l mod s) in *.
  destruct (Nat.ltb_spec k (0 + d)) as [H|H].
  - apply Nat.eqb_eq. apply Nat.min_l. nia.
  - apply Nat.eqb_neq. intros M.
    assert (s <= List.length l - k * s) as G by lia. nia.
Qed.

Lemma full_chunks_as_map :
  full_chunks s l = map chunk (seq 0 (List.length l / s)).
Proof.
  unfold full_chunks. rewrite chunks_as_map, filter_map_comm.
  rewrite (filter_ext _ _ chunk_full_iff).
  rewrite filter_below_seq; [reflexivity|].
  apply Nat.Div0.div_le_mono. lia.
Qed.

(** The chunks partition the audio. *)
Lemma chunks_partition :
  List.concat (chunks s l) = l
  /\ List.length (chunks s l) = (List.length l + s - 1) / s
  /\ Forall (fun ch => 0 < List.length ch <= s) (chunks s l)
  /\ (forall k, S k < List.length (chunks s l) ->
                List.length (nth k (chunks s l) []) = s).
Proof.
  destruct chunk_count_covers as (C1 & C2 & C3).
  rewrite chunks_as_map.
  set (c := (List.length l + s - 1) / s) in *.
  split; [|split; [|split]].
  - rewrite concat_chunks_from. cbn [Nat.mul skipn].
    apply firstn_all2. exact C1.
  - now rewrite length_map, length_seq.
  - apply Forall_forall. intros ch H.
    apply in_map_iff in H. destruct H as (k & <- & H).
    apply in_seq in H. rewrite length_chunk.
    assert (k * s <= (c - 1) * s) by (apply Nat.mul_le_mono_r; lia).
    assert (0 < List.length l) by (destruct (List.length l); [|lia];
                                   subst c; rewrite Nat.div_small in H; lia).
    specialize (C3 ltac:(assumption)). lia.
  - rewrite length_map, length_seq. intros k H.
    rewrite (nth_indep _ [] (chunk 0))
      by (rewrite length_map, length_seq; lia).
    rewrite map_nth, seq_nth by lia. cbn [plus].
    rewrite length_chunk. apply Nat.min_l.
    assert (S k * s <= (c - 1) * s) by (apply Nat.mul_le_mono_r; lia).
    assert (0 < List.length l) by (destruct (List.length l); [|lia];
                                   subst c; rewrite Nat.div_small in H; lia).
    specialize (C3 ltac:(assumption)). cbn [Nat.mul] in *. lia.
Qed.

(** The full chunks are a prefix of the audio. *)
Lemma full_chunks_prefix :
  List.concat (full_chunks s l)
  = firstn (List.length l / s * s) l
  /\ List.length (full_chunks s l) = List.length l / s
  /\ Forall (fun ch => List.length ch = s) (full_chunks s l)
  /\ List.length l
     = List.length (List.concat (full_chunks s l)) + List.length l mod s.
Proof.
  rewrite full_chunks_as_map.
  split; [|split; [|split]].
  - now rewrite concat_chunks_from.
  - now rewrite length_map, length_seq.
  - apply Forall_forall. intros ch H.
    apply in_map_iff in H. destruct H as (k & <- & H).
    apply in_seq in H. apply Nat.eqb_eq. rewrite chunk_full_iff.
    apply Nat.ltb_lt. lia.
  - rewrite concat_chunks_from. cbn [Nat.mul skipn].
    rewrite length_firstn.
    pose proof (Nat.div_mod_eq (List.length l) s). lia.
Qed.

End Chunks.

(** X22: The chunks [streaming_example] transcribes partition the audio: put
    together in order they give back the audio, there are
    ceil(len / 24000) of them, none is empty, none is longer than 24000
    samples, and every chunk but the last holds exactly 24000 samples. *)
Theorem streaming_example_chunks_partition {A} (audio_data : list A) :
  let cs := streaming_example_chunks audio_data in
  List.concat cs = audio_data
  /\ List.length cs
     = (List.length audio_data + N.to_nat 24000 - 1) / N.to_nat 24000
  /\ Forall (fun ch => 0 < List.length ch <= N.to_nat 24000) cs
  /\ (forall k, S k < List.length cs ->
                List.length (nth k cs []) = N.to_nat 24000).
Proof.
  apply (chunks_partition (N.to_nat 24000)). lia.
Qed.

(** X23: [test_streaming_stt] transcribes only whole chunks: there are
    floor(len / 16000) of them, each of exactly 16000 samples, and together
    they are the first floor(len / 16000) * 16000 samples of the audio; the
    len mod 16000 samples at the end are never transcribed. *)
Theorem test_streaming_stt_drops_the_tail {A} (audio_data : list A) :
  let cs := test_streaming_stt_chunks audio_data in
  List.concat cs
  = firstn (List.length audio_data / N.to_nat 16000 * N.to_nat 16000)
           audio_data
  /\ List.length cs = List.length audio_data / N.to_nat 16000
  /\ Forall (fun ch => List.length ch = N.to_nat 16000) cs
  /\ List.length audio_data
     = List.length (List.concat cs)
       + List.length audio_data mod N.to_nat 16000.
Proof.
  apply (full_chunks_prefix (N.to_nat 16000)). lia.
Qed.

(* ===================================================================== *)
(** * The client *)
(* ===================================================================== *)

Section ClientFacts.

Variable rt : Runtime.
Variable env : Env.
Variable json_dumps : pyval -> string.

(** The wait loop of [start_service] ends at a line holding the marker,
    whatever the lines before it are. *)
Lemma wait_ready_marker (m : string) :
  Str.contains "Service ready!" (Str.strip m) = true ->
  forall pre said,
    exists rest said',
      wait_ready (pre ++ [m]) said = Some (rest, said')
      /\ last said' "" = "Service is ready!".
Proof.
  intros M pre. induction pre as [|raw pre IH]; intros said; cbn [wait_ready app].
  - rewrite M. eexists _, _. split; [reflexivity|]. apply last_last.
  - destruct (Str.contains "Service ready!" (Str.strip raw)).
    + eexists _, _. split; [reflexivity|]. apply last_last.
    + destruct (Str.nonempty (Str.strip raw)); apply IH.
Qed.

(** What a new worker has written when it reaches its first [input()]. *)
Lemma popen_ready (w : State) :
  exists s2 pre,
    popen rt env json_dumps w
    = mkProc (emit (Text "Service ready!") s2) true
             (pre ++ ["Service ready!"]).
Proof.
  destruct (startup_returns rt env (fresh w)) as (s2 & H).
  exists s2, (flat_map (lines_of json_dumps) (stdout s2)).
  unfold popen. cbv zeta. rewrite H. f_equal.
  unfold written. cbn [fresh stdout emit List.length skipn].
  rewrite flat_map_app. reflexivity.
Qed.

(** The read loop of [send_command] passes over blank lines and lines that
    are not JSON, and stops at the first line that is. *)
Lemma read_response_first (pre : list string) :
  Forall (passed_over rt) pre ->
  forall raw rest v said,
    Str.nonempty (Str.strip raw) = true ->
    json_loads rt (Str.strip raw) = inr v ->
    read_response rt (pre ++ raw :: rest) said
    = Some (v, rest, (said ++ debug_of pre)%list).
Proof.
  induction 1 as [|l pre [B | [e E]] _ IH]; intros raw rest v said N L;
    cbn [read_response app].
  - rewrite N, L. unfold debug_of. cbn. now rewrite app_nil_r.
  - rewrite B. rewrite (IH _ _ _ _ N L). unfold debug_of. cbn [filter].
    now rewrite B.
  - unfold debug_of. cbn [filter].
    destruct (Str.nonempty (Str.strip l)) eqn:B.
    + rewrite E. rewrite (IH _ _ _ _ N L). cbn [map].
      unfold debug_of. now rewrite <- app_assoc.
    + now rewrite (IH _ _ _ _ N L).
Qed.

(** When no line is JSON the read loop goes on waiting. *)
Lemma read_response_blocks (lines : list string) :
  Forall (passed_over rt) lines ->
  forall said, read_response rt lines said = None.
Proof.
  induction 1 as [|l pre [B | [e E]] _ IH]; intros said; cbn [read_response].
  - reflexivity.
  - rewrite B. apply IH.
  - destruct (Str.nonempty (Str.strip l)); [rewrite E|]; apply IH.
Qed.

End ClientFacts.

(** ** Standard output only grows *)

Lemma prints_refl (s : State) : prints s s.
Proof. exists []. now rewrite app_nil_r. Qed.

Lemma prints_trans (a b c : State) : prints a b -> prints b c -> prints a c.
Proof.
  intros [o1 H1] [o2 H2]. exists (o1 ++ o2)%list.
  now rewrite H2, H1, app_assoc.
Qed.

Lemma quiet_prints (s s' : State) : stdout s' = stdout s -> prints s s'.
Proof. intros H. exists []. now rewrite app_nil_r. Qed.

Section PrintFrames.

Variable rt : Runtime.
Variable env : Env.

Lemma print_prints (t : string) : keeps prints (print t).
Proof. intros s. exists [Text t]. reflexivity. Qed.

Lemma print_json_prints (v : pyval) : keeps prints (print_json v).
Proof. intros s. exists [Json v]. reflexivity. Qed.

Lemma print_str_prints (t : pystr) : keeps prints (print_str t).
Proof.
  intros s. destruct t as [x|b n a]; [exists [Text x]; reflexivity|].
  now apply quiet_prints.
Qed.

Lemma mktemp_prints (suffix : string) : keeps prints (mktemp suffix).
Proof. intros s. now apply quiet_prints. Qed.

Lemma unlink_prints (p : string) : keeps prints (unlink p).
Proof.
  intros s. apply quiet_prints. unfold unlink. now destruct (on_disk p s).
Qed.

Lemma path_exists_prints (p : string) : keeps prints (path_exists p).
Proof. intros s. now apply quiet_prints. Qed.

Lemma sf_write_prints (p : string) (samples : list Z) (rate : pyval) :
  keeps prints (sf_write env p samples rate).
Proof.
  intros s. apply quiet_prints. unfold sf_write.
  now destruct (env_sf_write env (clock s)).
Qed.

Lemma sf_read_prints (p : string) : keeps prints (sf_read env p).
Proof. intros s. now apply quiet_prints. Qed.

Lemma tf_write_prints (p : string) (text : pyval) :
  keeps prints (tf_write p text).
Proof. intros s. apply quiet_prints. now destruct text. Qed.

Lemma run_prints (argv : list string) (timeout : Z) (check : bool) :
  keeps prints (run rt env argv timeout check).
Proof.
  intros s. apply quiet_prints. unfold run.
  destruct (env_run env (clock s)) as [code out err | out err | e];
    [destruct (check && negb (code =? 0)%Z) | |]; reflexivity.
Qed.

End PrintFrames.

Ltac prints_leaf :=
  first [ apply print_prints | apply print_json_prints
        | apply print_str_prints | apply mktemp_prints
        | apply unlink_prints | apply path_exists_prints
        | apply sf_write_prints | apply sf_read_prints | apply tf_write_prints
        | apply run_prints
        | apply keeps_modify; intros ?s; apply quiet_prints; reflexivity ].

Section PrintInvariants.

Variable rt : Runtime.
Variable env : Env.

Lemma process_command_prints (line : string) :
  keeps prints (process_command rt env line).
Proof.
  unfold process_command. keeps_walk prints_refl prints_trans; prints_leaf.
Qed.

Lemma startup_prints : keeps prints (startup rt env).
Proof.
  unfold startup, preamble. keeps_walk prints_refl prints_trans; prints_leaf.
Qed.

End PrintInvariants.

Section ClientProperties.

Variable rt : Runtime.
Variable env : Env.
Variable json_dumps : pyval -> string.

Lemma written_nothing (st : State) : written json_dumps st st = [].
Proof. unfold written. now rewrite skipn_length_self. Qed.

Lemma written_emit (st s' : State) (o : output) :
  prints st s' ->
  written json_dumps st (emit o s')
  = (written json_dumps st s' ++ lines_of json_dumps o)%list.
Proof.
  intros [out H]. unfold written. cbn [emit stdout].
  rewrite H, <- app_assoc, !skipn_length_app, flat_map_app.
  cbn [flat_map]. now rewrite app_nil_r.
Qed.

(** What the worker does with a line that is not [quit]: it stays in its
    loop, having printed the reply after everything else. *)
Lemma deliver_reply (line : string) (p : Proc) :
  is_quit (Str.strip line) = false ->
  exists r s',
    process_command rt env (Str.strip line) (worker p) = (inr r, s')
    /\ deliver rt env json_dumps line p
       = mkProc (emit (match r with Some v => Json v | None => Text "None" end)
                      s')
                true
                (unread p ++ written json_dumps (worker p) s'
                 ++ lines_of json_dumps
                      (match r with Some v => Json v | None => Text "None" end)).
Proof.
  intros Q.
  destruct (process_command_returns rt env (Str.strip line) (worker p))
    as (r & s' & P).
  exists r, s'. split; [exact P|].
  pose proof (process_command_prints rt env (Str.strip line) (worker p)) as G.
  rewrite P in G. cbn [snd] in G.
  unfold deliver. cbv zeta. rewrite Q.
  unfold serve, try_except, bind. rewrite P.
  destruct r as [v|]; cbn [print_result print_json print modify];
    now rewrite (written_emit _ _ _ G).
Qed.

Lemma deliver_serves (line : string) (p : Proc) :
  is_quit (Str.strip line) = false ->
  deliver rt env json_dumps line p
  = mkProc (snd (serve rt env (Str.strip line) (worker p))) true
           (unread p
            ++ written json_dumps (worker p)
                       (snd (serve rt env (Str.strip line) (worker p)))).
Proof.
  intros Q. unfold deliver. cbv zeta. rewrite Q.
  destruct (serve_returns rt env (Str.strip line) (worker p)) as (s1 & S).
  now rewrite S.
Qed.

(** A [transcribe] command whose [audio_data] is falsy falls through
    [process_command]. *)
Lemma process_transcribe_no_audio (line : string)
      (kv : list (string * pyval)) (a : pyval) (st : State) :
  command_of rt line "transcribe" kv ->
  Py.lookup "audio_data" kv = Some a ->
  Py.truthy a = false ->
  process_command rt env line st = (inr None, st).
Proof.
  intros [L T] A F. dispatch_red. rewrite L, T. cbn.
  dispatch_red. rewrite A. mred. rewrite F.
  destruct (Py.lookup "sample_rate" kv); reflexivity.
Qed.

(** X24: [start_service] on a client that has no process never waits for
    ever: whatever the external tools do while the worker starts, the
    marker line arrives, the client is marked ready, and the worker is in
    its loop. *)
Theorem start_service_never_blocks (c : Client) :
  process c = None ->
  exists c' p,
    start_service rt env json_dumps c = Some (inr tt, c')
    /\ process c' = Some p
    /\ service_ready c' = true
    /\ running p = true
    /\ last (printed c') "" = "Service is ready!".
Proof.
  intros H. destruct (popen_ready rt env json_dumps (outside c))
    as (s2 & pre & P).
  assert (M : Str.contains "Service ready!" (Str.strip "Service ready!")
              = true) by (vm_compute; reflexivity).
  destruct (wait_ready_marker _ M pre
              (printed c ++ ["Starting BaoAgent service..."])%list)
    as (rest & said' & W & L).
  unfold start_service. rewrite H. cbv zeta. rewrite P.
  cbn [unread worker running]. rewrite W.
  eexists _, _. repeat split. exact L.
Qed.

(** X25: A client used as a context manager around an empty body, or
    started and stopped at once, ends with no process and not ready; its
    worker left the loop at the [quit] line, so the last two lines it
    printed are the ready marker and the shutdown notice. *)
Theorem start_then_stop_shuts_worker_down (c : Client) :
  process c = None ->
  exists c1 c2 out,
    start_service rt env json_dumps c = Some (inr tt, c1)
    /\ stop_service rt env json_dumps c1 = Some (inr tt, c2)
    /\ process c2 = None
    /\ service_ready c2 = false
    /\ stdout (outside c2)
       = (out ++ [Text "Service ready!"; Text "Shutting down service..."])%list.
Proof.
  intros H. destruct (popen_ready rt env json_dumps (outside c))
    as (s2 & pre & P).
  assert (M : Str.contains "Service ready!" (Str.strip "Service ready!")
              = true) by (vm_compute; reflexivity).
  destruct (wait_ready_marker _ M pre
              (printed c ++ ["Starting BaoAgent service..."])%list)
    as (rest & said' & W & _).
  unfold start_service. rewrite H. cbv zeta. rewrite P.
  cbn [unread worker running]. rewrite W.
  eexists _, _, (stdout s2). split; [reflexivity|].
  unfold stop_service. cbn [process running].
  assert (Q : is_quit (Str.strip "quit") = true) by (vm_compute; reflexivity).
  unfold deliver. cbv zeta. rewrite Q.
  repeat split. cbn [outside worker emit stdout].
  now rewrite <- app_assoc.
Qed.

(** X26: [send_command] hands back the first line of the worker's output
    that is not blank and that [json.loads] accepts, wherever it comes
    from: the non-blank lines before it are echoed as [Service debug:]
    lines, the lines after it stay in the pipe for the next call. *)
Theorem send_command_returns_first_json_line
        (c : Client) (p : Proc) (command v : pyval)
        (pre rest : list string) (raw : string) :
  process c = Some p ->
  service_ready c = true ->
  running p = true ->
  is_quit (Str.strip (json_dumps command)) = false ->
  let st1 := snd (serve rt env (Str.strip (json_dumps command)) (worker p)) in
  (unread p ++ written json_dumps (worker p) st1)%list
  = (pre ++ raw :: rest)%list ->
  Forall (passed_over rt) pre ->
  Str.nonempty (Str.strip raw) = true ->
  json_loads rt (Str.strip raw) = inr v ->
  send_command rt env json_dumps command c
  = Some (inr (Some v),
          mkClient (Some (mkProc st1 true rest)) true
                   (printed c ++ debug_of pre)%list (outside c)).
Proof.
  intros Hp Hr Hrun Q st1 E F N L.
  unfold send_command, exchange. rewrite Hr, Hp, Hrun.
  rewrite (deliver_serves _ _ Q). cbn [unread worker running]. fold st1.
  rewrite E, (read_response_first rt pre F raw rest v _ N L). reflexivity.
Qed.

(** X27: [get_status] on an idle client returns the worker's two flags as
    they are, prints nothing and leaves nothing unread, provided the
    command and the reply survive [json.dumps] and [json.loads]. *)
Theorem get_status_reports_worker_flags (c : Client) (p : Proc) :
  idle c p ->
  let command := PDict [("type", PStr "status")] in
  let reply := status_result (stt_warmed_up (worker p))
                             (tts_warmed_up (worker p)) in
  round_trips rt json_dumps command ->
  is_quit (Str.strip (json_dumps command)) = false ->
  round_trips rt json_dumps reply ->
  get_status rt env json_dumps c
  = Some (inr (Some reply),
          mkClient (Some (mkProc (emit (Json reply) (worker p)) true []))
                   true (printed c) (outside c)).
Proof.
  intros (Hp & Hr & Hrun & Hu) command reply (_ & _ & Lc) Q (R1 & R2 & R3).
  unfold get_status, send_command, exchange. fold command.
  rewrite Hr, Hp, Hrun.
  destruct (deliver_reply _ p Q) as (r & s' & P & D).
  rewrite (process_command_status rt env _ _ (worker p) (conj Lc eq_refl))
    in P.
  injection P as <- <-. rewrite D. cbn [unread worker running].
  rewrite Hu, written_nothing. cbn [app lines_of]. fold reply. rewrite R1.
  cbn [read_response]. rewrite R2, R3. reflexivity.
Qed.

(** X28: [transcribe_audio] of the client, called with audio that holds
    nothing, never returns: the worker answers the falsy [audio_data] with
    the line [None], which is not JSON, and the client goes on reading a
    pipe on which nothing more will come. *)
Theorem client_transcribe_empty_audio_never_returns
        (c : Client) (p : Proc) (audio_data : list Z + list byte)
        (sample_rate : pyval) :
  idle c p ->
  no_audio audio_data ->
  let command := PDict [("type", PStr "transcribe");
                        ("audio_data", PStr "");
                        ("sample_rate", sample_rate)] in
  round_trips rt json_dumps command ->
  is_quit (Str.strip (json_dumps command)) = false ->
  (exists e, json_loads rt "None" = inl e) ->
  client_transcribe_audio rt env json_dumps audio_data sample_rate c = None.
Proof.
  intros (Hp & Hr & Hrun & Hu) A command (_ & _ & Lc) Q [e E].
  assert (B : Base64.b64encode
                (match audio_data with
                 | inl samples => Pcm16.tobytes samples
                 | inr bytes => bytes
                 end) = "").
  { destruct audio_data; cbn in A; subst; reflexivity. }
  unfold client_transcribe_audio. cbv zeta. rewrite B. fold command.
  unfold send_command, exchange. rewrite Hr, Hp, Hrun.
  destruct (deliver_reply _ p Q) as (r & s' & P & D).
  rewrite (process_transcribe_no_audio _ _ (PStr "") (worker p)
             (conj Lc eq_refl) eq_refl eq_refl) in P.
  injection P as <- <-. rewrite D. cbn [unread worker running].
  rewrite Hu, written_nothing.
  change (lines_of json_dumps (Text "None")) with ["None"].
  cbn [app read_response].
  change (Str.strip "None") with "None".
  change (Str.nonempty "None") with true. cbn iota.
  rewrite E. reflexivity.
Qed.

(** X29: [text_to_speech] of the client gives back the samples the service
    put in its reply: when [send_command] returns the success reply built
    from [samples], all of them 16-bit, the call returns exactly
    [samples]; on the failure reply it returns [None]. *)
Theorem client_text_to_speech_decodes_reply
        (text : pyval) (c c' : Client) (audio_data : option (list Z)) :
  send_command rt env json_dumps
               (PDict [("type", PStr "tts"); ("text", text)]) c
  = Some (inr (Some (tts_reply audio_data)), c') ->
  (forall samples, audio_data = Some samples ->
                   Forall Pcm16.int16 samples) ->
  exists c'',
    client_text_to_speech rt env json_dumps text c
    = Some (inr audio_data, c'')
    /\ process c'' = process c'.
Proof.
  intros S F. unfold client_text_to_speech. cbv zeta. rewrite S.
  destruct audio_data as [samples|]; cbn [tts_reply].
  - cbv zeta. unfold tts_success.
    cbn [succeeded Py.truthy Py.get Py.lookup String.eqb Ascii.eqb Bool.eqb
         negb].
    cbn. unfold decode_audio, b64decode_val.
    rewrite b64decode_b64encode, (frombuffer_tobytes samples (F samples eq_refl)).
    eexists. split; reflexivity.
  - cbn. eexists. split; reflexivity.
Qed.

End ClientProperties.


(* ===================================================================== *)
(** * The further properties at concrete inputs *)
(* ===================================================================== *)

Lemma transcribe_line_with :
  transcribe_with Reference.runtime transcribe_line (PStr "AAA=")
                  (PInt 16000).
Proof.
  exists [("type", PStr "transcribe"); ("audio_data", PStr "AAA=");
          ("sample_rate", PInt 16000)].
  repeat split; vm_compute; reflexivity.
Qed.

Lemma tts_hello_line_with :
  tts_with Reference.runtime tts_hello_line (PStr "Hello").
Proof.
  exists [("type", PStr "tts"); ("text", PStr "Hello")].
  repeat split; vm_compute; reflexivity.
Qed.

Lemma warm_transcribe_reply_witness :
  transcribe_with Reference.runtime transcribe_line (PStr "AAA=")
                  (PInt 16000)
  /\ decode_audio (PStr "AAA=") = inr [0%Z]
  /\ stt_warmed_up warm = true
  /\ env_sf_write env_ok (clock warm) = None
  /\ exists reply s',
      process_command Reference.runtime env_ok transcribe_line warm
      = (inr (Some reply), s')
      /\ field "type" reply = Some (PStr "transcription_result")
      /\ field "success" reply
         = Some (PBool (exits_ok (env_run env_ok (S (clock warm)))))
      /\ field "text" reply
         = Some (match env_run env_ok (S (clock warm)) with
                 | Completed code out _ =>
                     if (code =? 0)%Z then PStr (extract_transcription out)
                     else PNone
                 | _ => PNone
                 end).
Proof.
  pose proof transcribe_line_with as C.
  assert (decode_audio (PStr "AAA=") = inr [0%Z]) as D by reflexivity.
  assert (stt_warmed_up warm = true) as W by reflexivity.
  assert (env_sf_write env_ok (clock warm) = None) as F by reflexivity.
  repeat (split; [assumption|]).
  exact (warm_transcribe_reply Reference.runtime env_ok _ _ _ _ warm
                               C D W F).
Defined.

Lemma warm_transcribe_effects_witness :
  let ap := tmp_name (tmp_count warm) ".wav" in
  let s' := snd (process_command Reference.runtime env_ok transcribe_line
                                 warm) in
  transcribe_with Reference.runtime transcribe_line (PStr "AAA=")
                  (PInt 16000)
  /\ decode_audio (PStr "AAA=") = inr [0%Z]
  /\ stt_warmed_up warm = true
  /\ env_sf_write env_ok (clock warm) = None
  /\ (trace s'
      = (trace warm
         ++ [EvSfWrite ap [0%Z] (PInt 16000);
             EvRun (mkInv (stt_argv (stt_model_repo warm) ap) 60 true)])%list
      /\ same_flags warm s').
Proof.
  intros ap s'.
  pose proof transcribe_line_with as C.
  assert (decode_audio (PStr "AAA=") = inr [0%Z]) as D by reflexivity.
  assert (stt_warmed_up warm = true) as W by reflexivity.
  assert (env_sf_write env_ok (clock warm) = None) as F by reflexivity.
  repeat (split; [assumption|]).
  exact (warm_transcribe_effects Reference.runtime env_ok _ _ _ _ warm
                                 C D W F).
Defined.

Lemma warm_transcribe_cleanup_witness :
  let ap := tmp_name (tmp_count warm) ".wav" in
  let s' := snd (process_command Reference.runtime env_exit1 transcribe_line
                                 warm) in
  transcribe_with Reference.runtime transcribe_line (PStr "AAA=")
                  (PInt 16000)
  /\ decode_audio (PStr "AAA=") = inr [0%Z]
  /\ stt_warmed_up warm = true
  /\ env_sf_write env_exit1 (clock warm) = None
  /\ (files s' = without ap (files warm) /\ on_disk ap s' = false).
Proof.
  intros ap s'.
  pose proof transcribe_line_with as C.
  assert (decode_audio (PStr "AAA=") = inr [0%Z]) as D by reflexivity.
  assert (stt_warmed_up warm = true) as W by reflexivity.
  assert (env_sf_write env_exit1 (clock warm) = None) as F by reflexivity.
  repeat (split; [assumption|]).
  exact (warm_transcribe_cleanup Reference.runtime env_exit1 _ _ _ _ warm
                                 C D W F).
Defined.

Lemma transcribe_write_failure_witness :
  let e := Error "Error opening file: Format not recognised." in
  transcribe_with Reference.runtime transcribe_line (PStr "AAA=")
                  (PInt 16000)
  /\ decode_audio (PStr "AAA=") = inr [0%Z]
  /\ stt_warmed_up warm = true
  /\ env_sf_write env_write_fails (clock warm) = Some e
  /\ exists s',
      process_command Reference.runtime env_write_fails transcribe_line warm
      = (inr (Some (error_result (exn_msg e))), s')
      /\ files s' = (files warm ++ [tmp_name (tmp_count warm) ".wav"])%list
      /\ trace s' = trace warm.
Proof.
  intros e.
  pose proof transcribe_line_with as C.
  assert (decode_audio (PStr "AAA=") = inr [0%Z]) as D by reflexivity.
  assert (stt_warmed_up warm = true) as W by reflexivity.
  assert (env_sf_write env_write_fails (clock warm) = Some e) as F
      by reflexivity.
  repeat (split; [assumption|]).
  exact (transcribe_write_failure_leaves_file
           Reference.runtime env_write_fails _ _ _ _ warm e C D W F).
Defined.

Lemma undecodable_audio_witness :
  let e := Error "buffer size must be a multiple of element size" in
  transcribe_with Reference.runtime transcribe_odd_line (PStr "AAAA")
                  (PInt 16000)
  /\ decode_audio (PStr "AAAA") = inl e
  /\ process_command Reference.runtime env_ok transcribe_odd_line init
     = (inr (Some (error_result (exn_msg e))), init).
Proof.
  intros e.
  assert (transcribe_with Reference.runtime transcribe_odd_line
                          (PStr "AAAA") (PInt 16000)) as C.
  { exists [("type", PStr "transcribe"); ("audio_data", PStr "AAAA")].
    repeat split; vm_compute; reflexivity. }
  assert (decode_audio (PStr "AAAA") = inl e) as D by reflexivity.
  repeat (split; [assumption|]).
  exact (undecodable_audio_rejected Reference.runtime env_ok _ _ _ init e
                                    C D).
Defined.

Lemma non_object_json_witness :
  let v := PList [PInt 1; PInt 2] in
  json_loads Reference.runtime array_line = inr v
  /\ (forall kv, v <> PDict kv)
  /\ process_command Reference.runtime env_ok array_line init
     = (inr (Some (error_result ("'" ++ Py.type_name v
                                     ++ "' object has no attribute 'get'"))),
        init).
Proof.
  intros v.
  assert (json_loads Reference.runtime array_line = inr v) as L
      by (vm_compute; reflexivity).
  assert (forall kv, v <> PDict kv) as N by (intros kv; discriminate).
  repeat (split; [assumption|]).
  exact (non_object_json_rejected Reference.runtime env_ok _ _ init L N).
Defined.


Lemma warm_tts_reply_witness :
  let o := tts_outcome (env_run env_ok (clock warm))
                       (env_sf_read env_ok (S (clock warm))) in
  tts_with Reference.runtime tts_hello_line (PStr "Hello")
  /\ tts_warmed_up warm = true
  /\ exists reply s',
      process_command Reference.runtime env_ok tts_hello_line warm
      = (inr (Some reply), s')
      /\ field "type" reply = Some (PStr "tts_result")
      /\ match o with
         | Some samples =>
             field "success" reply = Some (PBool true)
             /\ exists audio,
                 field "audio_data" reply = Some (PStr audio)
                 /\ (Forall Pcm16.int16 samples ->
                     decode_audio (PStr audio) = inr samples)
         | None => reply = tts_failure
         end.
Proof.
  intros o.
  pose proof tts_hello_line_with as C.
  assert (tts_warmed_up warm = true) as W by reflexivity.
  repeat (split; [assumption|]).
  exact (warm_tts_reply_decodes Reference.runtime env_ok _ _ warm C W).
Defined.

Lemma warm_tts_effects_witness :
  let tp := tmp_name (tmp_count warm) ".txt" in
  let op := tmp_name (N.succ (tmp_count warm)) ".wav" in
  let s' := snd (process_command Reference.runtime env_timeout
                                 tts_hello_line warm) in
  tts_with Reference.runtime tts_hello_line (PStr "Hello")
  /\ tts_warmed_up warm = true
  /\ (In (EvWriteText tp "Hello") (trace s')
      /\ invocations (skipn (List.length (trace warm)) (trace s'))
         = [mkInv (tts_argv tp op) 60 true]
      /\ files s' = without op (without tp (files warm))
      /\ same_flags warm s').
Proof.
  intros tp op s'.
  pose proof tts_hello_line_with as C.
  assert (tts_warmed_up warm = true) as W by reflexivity.
  repeat (split; [assumption|]).
  exact (warm_tts_effects Reference.runtime env_timeout _ _ warm C W).
Defined.

Lemma tts_scalar_text_witness :
  tts_with Reference.runtime tts_number_line (PInt 5)
  /\ scalar (PInt 5) = true
  /\ tts_warmed_up warm = true
  /\ process_command Reference.runtime env_ok tts_number_line warm
     = (inr (Some (error_result ("'" ++ Py.type_name (PInt 5)
                                     ++ "' object is not subscriptable"))),
        warm).
Proof.
  assert (tts_with Reference.runtime tts_number_line (PInt 5)) as C.
  { exists [("type", PStr "tts"); ("text", PInt 5)].
    repeat split; vm_compute; reflexivity. }
  assert (scalar (PInt 5) = true) as S by reflexivity.
  assert (tts_warmed_up warm = true) as W by reflexivity.
  repeat (split; [assumption|]).
  exact (tts_scalar_text_rejected Reference.runtime env_ok _ _ warm C S W).
Defined.

Lemma tts_list_text_witness :
  tts_with Reference.runtime tts_list_line (PList [PStr "a"; PStr "b"])
  /\ tts_warmed_up warm = true
  /\ exists s',
      process_command Reference.runtime env_ok tts_list_line warm
      = (inr (Some (error_result "write() argument must be str, not list")),
         s')
      /\ files s' = (files warm ++ [tmp_name (tmp_count warm) ".txt"])%list
      /\ trace s' = trace warm.
Proof.
  assert (tts_with Reference.runtime tts_list_line
                   (PList [PStr "a"; PStr "b"])) as C.
  { exists [("type", PStr "tts"); ("text", PList [PStr "a"; PStr "b"])].
    repeat split; vm_compute; reflexivity. }
  assert (tts_warmed_up warm = true) as W by reflexivity.
  repeat (split; [assumption|]).
  exact (tts_list_text_leaves_file Reference.runtime env_ok _ _ warm C W).
Defined.


(** The same on a text whose surrogates come after fifty characters: the
    preview is printed, [tf.write] raises, and the text file stays. *)
Example tts_late_surrogate_example :
  let r := process_command Reference.runtime env_ok tts_late_surrogate_line
                           warm in
  fst r
  = inr (Some (error_result
                 ("'utf-8' codec can't encode characters in position "
                  ++ "50-51: surrogates not allowed")))
  /\ files (snd r) = ["/tmp/tmp0.txt"]
  /\ trace (snd r) = [].
Proof. repeat split; vm_compute; reflexivity. Qed.

Lemma warmup_tts_flag_witness :
  tts_warmed_up init = false
  /\ exists s',
      warmup_tts Reference.runtime env_exit1 init
      = (inr (tts_warmed_up s'), s')
      /\ (tts_warmed_up s' = true
          <-> exists out err,
                env_run env_exit1 (clock init) = Completed 0 out err)
      /\ stt_warmed_up s' = stt_warmed_up init.
Proof.
  assert (tts_warmed_up init = false) as W by reflexivity.
  split; [exact W|].
  exact (warmup_tts_flag_iff_exit_zero Reference.runtime env_exit1 init W).
Defined.

Lemma cold_tts_witness :
  let n := tmp_count init in
  let o := tts_outcome (env_run env_ok (S (clock init)))
                       (env_sf_read env_ok (S (S (clock init)))) in
  tts_with Reference.runtime tts_hello_line (PStr "Hello")
  /\ tts_warmed_up init = false
  /\ exits_ok (env_run env_ok (clock init)) = true
  /\ exists s',
      process_command Reference.runtime env_ok tts_hello_line init
      = (inr (Some (tts_reply o)), s')
      /\ tts_warmed_up s' = true
      /\ stt_warmed_up s' = stt_warmed_up init
      /\ invocations (skipn (List.length (trace init)) (trace s'))
         = [mkInv (tts_argv (tmp_name n ".txt")
                            (tmp_name (N.succ n) ".wav")) 120 true;
            mkInv (tts_argv (tmp_name (N.succ (N.succ n)) ".txt")
                            (tmp_name (N.succ (N.succ (N.succ n))) ".wav"))
                  60 true].
Proof.
  intros n o.
  pose proof tts_hello_line_with as C.
  assert (tts_warmed_up init = false) as W by reflexivity.
  assert (exits_ok (env_run env_ok (clock init)) = true) as K by reflexivity.
  repeat (split; [assumption|]).
  exact (cold_tts_warms_then_synthesizes Reference.runtime env_ok _ _ init
                                         C W K).
Defined.

Lemma command_leaves_other_flag_witness :
  let s' := snd (process_command Reference.runtime env_ok tts_hello_line
                                 init) in
  command_of Reference.runtime tts_hello_line "tts"
             [("type", PStr "tts"); ("text", PStr "Hello")]
  /\ (("tts" = "tts" -> stt_warmed_up s' = stt_warmed_up init)
      /\ ("tts" = "transcribe" -> tts_warmed_up s' = tts_warmed_up init)).
Proof.
  intros s'.
  assert (command_of Reference.runtime tts_hello_line "tts"
                     [("type", PStr "tts"); ("text", PStr "Hello")]) as C
      by (split; vm_compute; reflexivity).
  split; [exact C|].
  exact (command_leaves_other_flag Reference.runtime env_ok _ _ _ init C).
Defined.

Lemma main_loop_prints_once_witness :
  is_quit (Str.strip transcribe_no_audio_line) = false
  /\ exists r s',
      process_command Reference.runtime env_ok
                      (Str.strip transcribe_no_audio_line) init
      = (inr r, s')
      /\ main_loop Reference.runtime env_ok [transcribe_no_audio_line] init
         = main_loop Reference.runtime env_ok []
             (emit (match r with
                    | Some v => Json v
                    | None => Text "None"
                    end) s').
Proof.
  assert (is_quit (Str.strip transcribe_no_audio_line) = false) as Q
      by (vm_compute; reflexivity).
  split; [exact Q|].
  exact (main_loop_prints_once Reference.runtime env_ok _ [] init Q).
Defined.

Lemma pcm16_transport_witness :
  let samples := [0; -1; 32767; -32768; 255]%Z in
  Forall Pcm16.int16 samples
  /\ match Base64.b64decode (Base64.b64encode (Pcm16.tobytes samples)) with
     | inr bytes => Pcm16.frombuffer bytes
     | inl e => inl e
     end = inr samples.
Proof.
  intros samples.
  assert (Forall Pcm16.int16 samples) as H.
  { repeat constructor; unfold Pcm16.int16; lia. }
  split; [exact H|].
  exact (pcm16_transport samples H).
Defined.

(** ** The client at concrete inputs *)

Lemma idle_client_idle : idle idle_client idle_worker.
Proof. repeat split. Qed.

Lemma start_service_witness :
  process new_client = None
  /\ exists c' p,
      start_service Reference.runtime env_ok ref_dumps new_client
      = Some (inr tt, c')
      /\ process c' = Some p
      /\ service_ready c' = true
      /\ running p = true
      /\ last (printed c') "" = "Service is ready!".
Proof.
  split; [reflexivity|].
  exact (start_service_never_blocks Reference.runtime env_ok ref_dumps
                                    new_client eq_refl).
Defined.

Lemma start_then_stop_witness :
  process new_client = None
  /\ exists c1 c2 out,
      start_service Reference.runtime env_ok ref_dumps new_client
      = Some (inr tt, c1)
      /\ stop_service Reference.runtime env_ok ref_dumps c1
         = Some (inr tt, c2)
      /\ process c2 = None
      /\ service_ready c2 = false
      /\ stdout (outside c2)
         = (out ++ [Text "Service ready!";
                    Text "Shutting down service..."])%list.
Proof.
  split; [reflexivity|].
  exact (start_then_stop_shuts_worker_down Reference.runtime env_ok ref_dumps
                                           new_client eq_refl).
Defined.

Lemma send_command_witness :
  let st1 := snd (serve Reference.runtime env_ok
                        (Str.strip (ref_dumps tts_hello_command)) warm) in
  let lines := written ref_dumps warm st1 in
  List.length lines = 6
  /\ send_command Reference.runtime env_ok ref_dumps tts_hello_command
                  idle_client
     = Some (inr (Some (tts_reply (Some [1; 2; -1]%Z))),
             mkClient (Some (mkProc st1 true [])) true
                      ([] ++ debug_of (firstn 5 lines))%list init).
Proof.
  intros st1 lines. split; [vm_compute; reflexivity|].
  apply (send_command_returns_first_json_line
           Reference.runtime env_ok ref_dumps idle_client idle_worker
           tts_hello_command (tts_reply (Some [1; 2; -1]%Z))
           (firstn 5 lines) [] (nth 5 lines "")).
  - reflexivity.
  - reflexivity.
  - reflexivity.
  - vm_compute; reflexivity.
  - vm_compute; reflexivity.
  - match goal with
    | |- Forall _ ?l => let l' := eval vm_compute in l in change l with l'
    end.
    repeat (apply Forall_cons; [right; eexists; vm_compute; reflexivity|]).
    apply Forall_nil.
  - vm_compute; reflexivity.
  - vm_compute; reflexivity.
Defined.

Lemma get_status_witness :
  get_status Reference.runtime env_ok ref_dumps idle_client
  = Some (inr (Some (status_result true true)),
          mkClient (Some (mkProc (emit (Json (status_result true true)) warm)
                                 true []))
                   true [] init).
Proof.
  apply (get_status_reports_worker_flags Reference.runtime env_ok ref_dumps
                                         idle_client idle_worker
                                         idle_client_idle).
  - repeat split; vm_compute; reflexivity.
  - vm_compute; reflexivity.
  - repeat split; vm_compute; reflexivity.
Defined.

Lemma client_transcribe_empty_audio_witness :
  no_audio (inr [])
  /\ client_transcribe_audio Reference.runtime env_ok ref_dumps (inr [])
                             (PInt 16000) idle_client
     = None.
Proof.
  split; [reflexivity|].
  apply (client_transcribe_empty_audio_never_returns
           Reference.runtime env_ok ref_dumps idle_client idle_worker (inr [])
           (PInt 16000) idle_client_idle eq_refl).
  - repeat split; vm_compute; reflexivity.
  - vm_compute; reflexivity.
  - eexists. vm_compute. reflexivity.
Defined.

Lemma client_text_to_speech_witness :
  exists c'',
    client_text_to_speech Reference.runtime env_ok ref_dumps (PStr "Hello")
                          idle_client
    = Some (inr (Some [1; 2; -1]%Z), c'')
    /\ process c''
       = Some (mkProc (snd (serve Reference.runtime env_ok
                                  (Str.strip (ref_dumps tts_hello_command))
                                  warm))
                      true []).
Proof.
  apply (client_text_to_speech_decodes_reply
           Reference.runtime env_ok ref_dumps (PStr "Hello") idle_client
           (mkClient
              (Some (mkProc (snd (serve Reference.runtime env_ok
                                        (Str.strip
                                           (ref_dumps tts_hello_command))
                                        warm))
                            true []))
              true
              (debug_of
                 (firstn 5
                    (written ref_dumps warm
                       (snd (serve Reference.runtime env_ok
                                   (Str.strip (ref_dumps tts_hello_command))
                                   warm)))))
              init)
           (Some [1; 2; -1]%Z)).
  - vm_compute; reflexivity.
  - intros samples E. injection E as <-.
    repeat constructor; unfold Pcm16.int16; lia.
Defined.
